(** * Padel club: availability and booking-conflict core

    Shallow embedding of [gestion/models.py] ([Cancha], [Reserva]),
    of the two validators of [gestion/forms.py] ([ReservaForm]) and of the
    quick-book view of [gestion/views.py] ([reserva_rapida]), followed by
    the properties of the availability checker, of the reservation writer
    and of the reservation lifecycle.

    Conventions of the embedding:
    - a [datetime.time] is a record of four integers compared
      lexicographically, a [datetime.date] is its proleptic ordinal;
    - a [Decimal] amount with two places is an integer number of cents;
    - the tables of the relational store are lists of rows, and every
      method that talks to the store is a computation in the monad [M]
      (state = the store, error = a Python exception);
    - [timezone.now().date()] is the explicit argument [hoy]. *)

From Stdlib Require Import ZArith List Bool String Ascii Lia.
Import ListNotations.
Open Scope string_scope.
Open Scope Z_scope.

(** ** datetime *)

Definition date := Z.

Record time : Type := mk_time
  { hour : Z; minute : Z; second : Z; microsecond : Z }.

(** [time(hour=h)] and [time(hour=h, minute=m)]: the omitted fields are 0. *)
Definition time_h (h : Z) : time := mk_time h 0 0 0.
Definition time_hm (h m : Z) : time := mk_time h m 0 0.

Definition time_eqb (a b : time) : bool :=
  (hour a =? hour b) && (minute a =? minute b) &&
  (second a =? second b) && (microsecond a =? microsecond b).

(** [a < b] on naive times. *)
Definition time_ltb (a b : time) : bool :=
  (hour a <? hour b) ||
  ((hour a =? hour b) &&
   ((minute a <? minute b) ||
    ((minute a =? minute b) &&
     ((second a <? second b) ||
      ((second a =? second b) && (microsecond a <? microsecond b)))))).

Definition time_leb (a b : time) : bool := time_ltb a b || time_eqb a b.

(** [range(a, b)]. *)
Definition range (a b : Z) : list Z :=
  map (fun i => a + Z.of_nat i) (seq 0 (Z.to_nat (b - a))).

(** ** Model instances *)

(** [Reserva.ESTADOS]. *)
Inductive Estado : Type := confirmada | cancelada | completada | no_show.

Definition estado_eqb (a b : Estado) : bool :=
  match a, b with
  | confirmada, confirmada | cancelada, cancelada
  | completada, completada | no_show, no_show => true
  | _, _ => false
  end.

(** [Usuario]: the fields read by the core. *)
Record Usuario : Type := mk_usuario
  { usuario_pk : Z; first_name : string; last_name : string }.

(** [Cancha]: [tarifa_hora] in cents. The descriptive fields (surface
    type, description, capacity, creation stamp) play no part here. *)
Record Cancha : Type := mk_cancha
  { cancha_pk : Z; nombre : string; tarifa_hora : Z; activa : bool }.

(** [Reserva]. [pk] is [None] until the first save; [hora_fin] is [None]
    while the instance has no end time (the column itself is NOT NULL);
    [cancha] is the related object held by the instance, [jugador] the key
    of the player. The two time stamps are left out. *)
Record Reserva : Type := mk_reserva
  { pk : option Z;
    cancha : Cancha;
    jugador : Z;
    fecha_reserva : date;
    hora_inicio : time;
    hora_fin : option time;
    estado : Estado;
    notas : option string;
    precio_total : Z }.

Definition set_pk (k : Z) (r : Reserva) : Reserva :=
  mk_reserva (Some k) (cancha r) (jugador r) (fecha_reserva r) (hora_inicio r)
             (hora_fin r) (estado r) (notas r) (precio_total r).
Definition set_hora_fin (t : time) (r : Reserva) : Reserva :=
  mk_reserva (pk r) (cancha r) (jugador r) (fecha_reserva r) (hora_inicio r)
             (Some t) (estado r) (notas r) (precio_total r).
Definition set_estado (e : Estado) (r : Reserva) : Reserva :=
  mk_reserva (pk r) (cancha r) (jugador r) (fecha_reserva r) (hora_inicio r)
             (hora_fin r) e (notas r) (precio_total r).
Definition set_notas (n : string) (r : Reserva) : Reserva :=
  mk_reserva (pk r) (cancha r) (jugador r) (fecha_reserva r) (hora_inicio r)
             (hora_fin r) (estado r) (Some n) (precio_total r).
Definition set_precio_total (p : Z) (r : Reserva) : Reserva :=
  mk_reserva (pk r) (cancha r) (jugador r) (fecha_reserva r) (hora_inicio r)
             (hora_fin r) (estado r) (notas r) p.

(** Keyword arguments of [Reserva(...)] / [Reserva.objects.create(...)]:
    the optional ones are [None] when the caller does not pass them. *)
Record ReservaKwargs : Type := mk_kwargs
  { kw_cancha : Cancha;
    kw_jugador : Z;
    kw_fecha_reserva : date;
    kw_hora_inicio : time;
    kw_hora_fin : option time;
    kw_estado : option Estado;
    kw_notas : option string;
    kw_precio_total : option Z }.

(** Field defaults: [estado] defaults to ['confirmada'], [precio_total]
    to 0. *)
Definition Reserva_init (kw : ReservaKwargs) : Reserva :=
  {| pk := None;
     cancha := kw_cancha kw;
     jugador := kw_jugador kw;
     fecha_reserva := kw_fecha_reserva kw;
     hora_inicio := kw_hora_inicio kw;
     hora_fin := kw_hora_fin kw;
     estado := match kw_estado kw with Some e => e | None => confirmada end;
     notas := kw_notas kw;
     precio_total := match kw_precio_total kw with Some p => p | None => 0 end |}.

(** ** The store and its monad *)

Record DB : Type := mk_db { canchas : list Cancha; reservas : list Reserva }.

Inductive Exc : Type :=
| IntegrityError
| DoesNotExist
| ValueError
| ValidationError (msg : string).

Definition M (A : Type) : Type := DB -> (Exc + A) * DB.

Definition ret {A} (a : A) : M A := fun db => (inr a, db).
Definition raise {A} (e : Exc) : M A := fun db => (inl e, db).
Definition bind {A B} (m : M A) (k : A -> M B) : M B :=
  fun db => match m db with
            | (inl e, db') => (inl e, db')
            | (inr a, db') => k a db'
            end.
(** [try: m  except Exception: h]. *)
Definition try_except {A} (m : M A) (h : Exc -> M A) : M A :=
  fun db => match m db with
            | (inl e, db') => h e db'
            | (inr a, db') => (inr a, db')
            end.

Notation "x <- m ;; k" := (bind m (fun x => k))
  (at level 61, m at next level, right associativity).

(** [Reserva.objects.filter(...)]: a read of the table. *)
Definition reservas_filter (p : Reserva -> bool) : M (list Reserva) :=
  fun db => (inr (filter p (reservas db)), db).

(** [Cancha.objects.get(...)]. *)
Definition canchas_get (p : Cancha -> bool) : M Cancha :=
  fun db => match find p (canchas db) with
            | Some c => (inr c, db)
            | None => (inl DoesNotExist, db)
            end.

(** *** The partial unique constraint [unique_confirmed_reservation]

    [UniqueConstraint(fields=['cancha', 'fecha_reserva', 'hora_inicio'],
    condition=Q(estado='confirmada'))]: among the rows whose [estado] is
    ['confirmada'] no two agree on the three fields. *)
Definition same_slot (a b : Reserva) : bool :=
  (cancha_pk (cancha a) =? cancha_pk (cancha b)) &&
  (fecha_reserva a =? fecha_reserva b) &&
  time_eqb (hora_inicio a) (hora_inicio b).

Definition is_confirmada (r : Reserva) : bool := estado_eqb (estado r) confirmada.

Definition violates_unique_confirmed (r : Reserva) (rows : list Reserva) : bool :=
  is_confirmada r && existsb (fun x => is_confirmada x && same_slot x r) rows.

Definition has_pk (k : Z) (r : Reserva) : bool :=
  match pk r with Some k' => k' =? k | None => false end.

(** The key an auto-increment column hands out next. *)
Definition next_pk (rows : list Reserva) : Z :=
  1 + fold_right (fun r acc => match pk r with
                               | Some k => Z.max k acc
                               | None => acc
                               end) 0 rows.

(** INSERT of one row. The statement fails, leaving the table as it was,
    on a NULL end time, on a primary key already present, and on a
    violation of the partial unique constraint. *)
Definition db_insert (r : Reserva) : M Reserva :=
  fun db =>
    let rows := reservas db in
    match hora_fin r with
    | None => (inl IntegrityError, db)
    | Some _ =>
        if violates_unique_confirmed r rows then (inl IntegrityError, db)
        else
          match pk r with
          | Some k =>
              if existsb (has_pk k) rows then (inl IntegrityError, db)
              else (inr r, mk_db (canchas db) (rows ++ [r]))
          | None =>
              let r' := set_pk (next_pk rows) r in
              (inr r', mk_db (canchas db) (rows ++ [r']))
          end
    end.

Definition replace_pk (k : Z) (r : Reserva) (rows : list Reserva) : list Reserva :=
  map (fun x => if has_pk k x then r else x) rows.

(** UPDATE ... WHERE id = k. The constraint is checked against the other
    rows. *)
Definition db_update (k : Z) (r : Reserva) : M Reserva :=
  fun db =>
    let rows := reservas db in
    match hora_fin r with
    | None => (inl IntegrityError, db)
    | Some _ =>
        if violates_unique_confirmed r (filter (fun x => negb (has_pk k x)) rows)
        then (inl IntegrityError, db)
        else (inr r, mk_db (canchas db) (replace_pk k (set_pk k r) rows))
    end.

(** [models.Model.save]: UPDATE when the instance has a key that is in the
    table, INSERT otherwise. *)
Definition Model_save (self : Reserva) : M Reserva :=
  fun db =>
    match pk self with
    | Some k =>
        if existsb (has_pk k) (reservas db) then db_update k self db
        else db_insert self db
    | None => db_insert self db
    end.

(** ** [Cancha]: the availability checker *)

(** [QuerySet.exists()]. *)
Definition exists_ {A} (l : list A) : bool :=
  match l with [] => false | _ :: _ => true end.

(** [Cancha.esta_disponible(fecha, hora_inicio, hora_fin=None)]. The
    lookup [hora_fin__gt] is false on a row without end time. *)
Definition esta_disponible (self : Cancha) (fecha : date) (inicio : time)
    (fin : option time) : M bool :=
  if negb (activa self) then ret false
  else
    let fin := match fin with
               | Some t => t
               | None => time_h ((hour inicio + 1) mod 24)
               end in
    conflictos <- reservas_filter (fun r =>
        (cancha_pk (cancha r) =? cancha_pk self) &&
        (fecha_reserva r =? fecha) &&
        is_confirmada r &&
        (time_ltb (hora_inicio r) fin &&
         match hora_fin r with Some e => time_ltb inicio e | None => false end)) ;;
    ret (negb (exists_ conflictos)).

(** [order_by('hora_inicio')]. *)
Fixpoint insert_by_hora_inicio (r : Reserva) (l : list Reserva) : list Reserva :=
  match l with
  | [] => [r]
  | x :: t => if time_leb (hora_inicio r) (hora_inicio x) then r :: l
              else x :: insert_by_hora_inicio r t
  end.
Definition order_by_hora_inicio (l : list Reserva) : list Reserva :=
  fold_right insert_by_hora_inicio [] l.

(** [Cancha.get_reservas_del_dia(fecha)]. *)
Definition get_reservas_del_dia (self : Cancha) (fecha : date) : M (list Reserva) :=
  rs <- reservas_filter (fun r =>
        (cancha_pk (cancha r) =? cancha_pk self) &&
        (fecha_reserva r =? fecha) &&
        is_confirmada r) ;;
  ret (order_by_hora_inicio rs).

(** [Cancha.get_horarios_disponibles(fecha)]. *)
Definition get_horarios_disponibles (self : Cancha) (fecha : date) : M (list time) :=
  if negb (activa self) then ret []
  else
    let horarios_funcionamiento := map time_h (range 8 22) in
    reservas_del_dia <- get_reservas_del_dia self fecha ;;
    let horarios_ocupados := map hora_inicio reservas_del_dia in
    ret (filter (fun horario => negb (existsb (time_eqb horario) horarios_ocupados))
                horarios_funcionamiento).

(** ** [Reserva]: writer and lifecycle *)

(** [Reserva.save]: [not self.precio_total] holds exactly for a zero
    amount, [not self.hora_fin] exactly for [None]; the related court and
    the start time are always truthy. *)
Definition save (self : Reserva) : M Reserva :=
  let self := if precio_total self =? 0
              then set_precio_total (tarifa_hora (cancha self)) self
              else self in
  let self := match hora_fin self with
              | None =>
                  let hora_fin_int := (hour (hora_inicio self) + 1) mod 24 in
                  set_hora_fin (time_hm hora_fin_int (minute (hora_inicio self))) self
              | Some _ => self
              end in
  Model_save self.

(** [Reserva.objects.create] on keyword arguments. *)
Definition objects_create (kw : ReservaKwargs) : M Reserva :=
  save (Reserva_init kw).

Definition same_pk (a : option Z) (r : Reserva) : bool :=
  match a, pk r with Some k, Some k' => k =? k' | _, _ => false end.

(** [Reserva.clean]. Comparing a column with [None] in the second query
    is a [ValueError]. *)
Definition clean (hoy : date) (self : Reserva) : M unit :=
  if fecha_reserva self <? hoy
  then raise (ValidationError "No se pueden hacer reservas para fechas pasadas.")
  else
    if match hora_fin self with
       | Some fin => time_leb fin (hora_inicio self)
       | None => false
       end
    then raise (ValidationError "La hora de fin debe ser posterior a la hora de inicio.")
    else
      libre <- esta_disponible (cancha self) (fecha_reserva self)
                               (hora_inicio self) (hora_fin self) ;;
      if negb libre then
        match hora_fin self with
        | None => raise ValueError
        | Some fin =>
            reservas_conflicto <- reservas_filter (fun r =>
                (cancha_pk (cancha r) =? cancha_pk (cancha self)) &&
                (fecha_reserva r =? fecha_reserva self) &&
                is_confirmada r &&
                (time_ltb (hora_inicio r) fin &&
                 match hora_fin r with
                 | Some e => time_ltb (hora_inicio self) e
                 | None => false
                 end) &&
                negb (same_pk (pk self) r)) ;;
            if exists_ reservas_conflicto
            then raise (ValidationError "La cancha no está disponible en el horario seleccionado.")
            else ret tt
        end
      else ret tt.

(** [Reserva.puede_cancelar]. *)
Definition puede_cancelar (hoy : date) (self : Reserva) : bool :=
  is_confirmada self && (hoy <=? fecha_reserva self).

(** [str.strip()] on ASCII white space, and [AbstractUser.get_full_name]. *)
Definition is_space (c : ascii) : bool :=
  let n := nat_of_ascii c in
  ((9 <=? n) && (n <=? 13) || (28 <=? n) && (n <=? 32))%nat.
Fixpoint lstrip (s : string) : string :=
  match s with
  | EmptyString => EmptyString
  | String c t => if is_space c then lstrip t else s
  end.
Fixpoint rstrip (s : string) : string :=
  match s with
  | EmptyString => EmptyString
  | String c t =>
      match rstrip t with
      | EmptyString => if is_space c then EmptyString else String c EmptyString
      | t' => String c t'
      end
  end.
Definition strip (s : string) : string := lstrip (rstrip s).
Definition get_full_name (u : Usuario) : string :=
  strip (first_name u ++ " " ++ last_name u).

(** [Reserva.cancelar(usuario_cancelacion=None)]. The method mutates
    [self]; the instance after the call is returned with the result. *)
Definition cancelar (hoy : date) (self : Reserva)
    (usuario_cancelacion : option Usuario) : M (bool * Reserva) :=
  if puede_cancelar hoy self then
    let self := set_estado cancelada self in
    let self := match usuario_cancelacion with
                | Some u => set_notas ("Cancelada por: " ++ get_full_name u) self
                | None => self
                end in
    self <- save self ;;
    ret (true, self)
  else ret (false, self).

(** ** [ReservaForm] *)

(** [ReservaForm.clean_fecha_reserva]. *)
Definition clean_fecha_reserva (hoy : date) (fecha : option date) : Exc + option date :=
  match fecha with
  | Some f =>
      if f <? hoy
      then inl (ValidationError "No se pueden hacer reservas para fechas pasadas.")
      else inr fecha
  | None => inr fecha
  end.

(** [ReservaForm.clean_hora_inicio]. *)
Definition clean_hora_inicio (hora : option time) : Exc + option time :=
  match hora with
  | Some h =>
      if (hour h <? 8) || (22 <=? hour h)
      then inl (ValidationError "El horario de funcionamiento es de 8:00 AM a 10:00 PM.")
      else inr hora
  | None => inr hora
  end.

(** [ReservaForm.save(commit=True)] on the cleaned fields, for a form
    built with a [usuario]. *)
Definition ReservaForm_save (usuario : Z) (c : Cancha) (fecha : date)
    (inicio : time) (nota : option string) : M Reserva :=
  let reserva := Reserva_init (mk_kwargs c usuario fecha inicio None None nota None) in
  let hora_fin_int := (hour (hora_inicio reserva) + 1) mod 24 in
  let reserva := set_hora_fin (time_hm hora_fin_int (minute (hora_inicio reserva))) reserva in
  save reserva.

(** ** Views *)

Inductive Method : Type := GET | POST.

(** The request of [reserva_rapida]. [POST_fecha] is the value of
    [datetime.strptime(fecha_str, '%Y-%m-%d').date()] and [POST_hora] the
    hour and minute read by [datetime.strptime(hora_str, '%H:%M')];
    [None] where the call raises. *)
Record Request : Type := mk_request
  { method : Method;
    user : Z;
    POST_cancha_id : option Z;
    POST_fecha : option date;
    POST_hora : option (Z * Z) }.

Record JsonResponse : Type := mk_json { success : bool; error : option string }.

Definition json_ok : JsonResponse := mk_json true None.
Definition json_no_disponible : JsonResponse :=
  mk_json false (Some "El horario ya no está disponible.").
Definition json_error : JsonResponse :=
  mk_json false (Some "Error al crear la reserva.").
Definition json_metodo : JsonResponse :=
  mk_json false (Some "Método no permitido.").

Definition of_option {A} (o : option A) : M A :=
  match o with Some a => ret a | None => raise ValueError end.

(** The three parsing statements at the head of the [try] block. *)
Definition rapida_parse (request : Request) : M (Cancha * date * time) :=
  c <- canchas_get (fun c =>
         match POST_cancha_id request with
         | Some i => (cancha_pk c =? i) && activa c
         | None => false
         end) ;;
  fecha_reserva <- of_option (POST_fecha request) ;;
  hm <- of_option (POST_hora request) ;;
  ret (c, fecha_reserva, time_hm (fst hm) (snd hm)).

Definition rapida_create (request : Request) (c : Cancha) (fecha : date)
    (inicio : time) : M Reserva :=
  objects_create (mk_kwargs c (user request) fecha inicio None None None
                            (Some (tarifa_hora c))).

(** [reserva_rapida(request)]. The flash message is not part of the
    store. *)
Definition reserva_rapida (request : Request) : M JsonResponse :=
  match method request with
  | POST =>
      try_except
        (p <- rapida_parse request ;;
         let '(c, fecha, inicio) := p in
         libre <- esta_disponible c fecha inicio None ;;
         if libre then
           _ <- rapida_create request c fecha inicio ;;
           ret json_ok
         else ret json_no_disponible)
        (fun _ => ret json_error)
  | GET => ret json_metodo
  end.

(** [ReservaAdmin.marcar_completadas] and [marcar_no_show]:
    [queryset.filter(estado='confirmada').update(estado=e)] with [e] one of
    the two final states. No row enters ['confirmada'], so the statement
    cannot break the constraint. *)
Definition queryset_update_estado (queryset : Reserva -> bool) (e : Estado) : M nat :=
  fun db =>
    let hit r := queryset r && is_confirmada r in
    (inr (List.length (filter hit (reservas db))),
     mk_db (canchas db)
           (map (fun r => if hit r then set_estado e r else r) (reservas db))).
Definition marcar_completadas (queryset : Reserva -> bool) : M nat :=
  queryset_update_estado queryset completada.
Definition marcar_no_show (queryset : Reserva -> bool) : M nat :=
  queryset_update_estado queryset no_show.

(** ** Concurrent quick-book requests

    A request of [reserva_rapida] talks to the store three times: it
    reads the court, it asks whether a conflicting row exists, and it
    inserts. Each statement is atomic; between two statements of one
    request the statements of the others may run. [Pc] is the point a
    request has reached. *)
Inductive Pc : Type :=
| PcStart
| PcParsed (c : Cancha) (fecha : date) (inicio : time)
| PcChecked (c : Cancha) (fecha : date) (inicio : time)
| PcDone (resp : JsonResponse).

Record Thread : Type := mk_thread { th_request : Request; th_pc : Pc }.

Definition thread_step (t : Thread) (db : DB) : Pc * DB :=
  let request := th_request t in
  match th_pc t with
  | PcStart =>
      match method request with
      | GET => (PcDone json_metodo, db)
      | POST =>
          match rapida_parse request db with
          | (inr (c, fecha, inicio), db') => (PcParsed c fecha inicio, db')
          | (inl _, db') => (PcDone json_error, db')
          end
      end
  | PcParsed c fecha inicio =>
      match esta_disponible c fecha inicio None db with
      | (inr true, db') => (PcChecked c fecha inicio, db')
      | (inr false, db') => (PcDone json_no_disponible, db')
      | (inl _, db') => (PcDone json_error, db')
      end
  | PcChecked c fecha inicio =>
      match rapida_create request c fecha inicio db with
      | (inr _, db') => (PcDone json_ok, db')
      | (inl _, db') => (PcDone json_error, db')
      end
  | PcDone resp => (PcDone resp, db)
  end.

Record Sys : Type := mk_sys { sys_db : DB; sys_threads : list Thread }.

Fixpoint set_nth {A} (i : nat) (x : A) (l : list A) : list A :=
  match l, i with
  | [], _ => []
  | _ :: t, O => x :: t
  | y :: t, S j => y :: set_nth j x t
  end.

(** One statement of request number [i]. *)
Definition sys_step (i : nat) (s : Sys) : Sys :=
  match nth_error (sys_threads s) i with
  | Some t =>
      let (pc', db') := thread_step t (sys_db s) in
      mk_sys db' (set_nth i (mk_thread (th_request t) pc') (sys_threads s))
  | None => s
  end.

(** A schedule names, statement after statement, the request that runs. *)
Definition run (sched : list nat) (s : Sys) : Sys :=
  fold_left (fun s i => sys_step i s) sched s.

Definition spawn (requests : list Request) (db : DB) : Sys :=
  mk_sys db (map (fun r => mk_thread r PcStart) requests).

Definition is_done (t : Thread) : bool :=
  match th_pc t with PcDone _ => true | _ => false end.
Definition is_ok (t : Thread) : bool :=
  match th_pc t with PcDone resp => success resp | _ => false end.
Definition response (t : Thread) : option JsonResponse :=
  match th_pc t with PcDone resp => Some resp | _ => None end.

(** ** Reachable stores

    The rows of [reservas] are written by [Model.save] (reached from
    [Reserva.save], hence from [objects.create], [ReservaForm.save] and
    [cancelar]), by the two bulk actions of the admin, and by deletions;
    the table of courts changes freely. *)
Inductive db_step : DB -> DB -> Prop :=
| step_save (self : Reserva) (x : Exc + Reserva) (db db' : DB) :
    Model_save self db = (x, db') -> db_step db db'
| step_update_estado (q : Reserva -> bool) (e : Estado) (db : DB) :
    e = completada \/ e = no_show ->
    db_step db (snd (queryset_update_estado q e db))
| step_delete (q : Reserva -> bool) (db : DB) :
    db_step db (mk_db (canchas db) (filter (fun r => negb (q r)) (reservas db)))
| step_canchas (cs : list Cancha) (db : DB) :
    db_step db (mk_db cs (reservas db)).

Inductive reachable : DB -> Prop :=
| reach_init (cs : list Cancha) : reachable (mk_db cs [])
| reach_step (db db' : DB) : reachable db -> db_step db db' -> reachable db'.

(** The rows with [estado = 'confirmada'] on a given court, date and start
    time. *)
Definition confirmed_at (c : Z) (f : date) (h : time) (r : Reserva) : bool :=
  is_confirmada r && (cancha_pk (cancha r) =? c) && (fecha_reserva r =? f) &&
  time_eqb (hora_inicio r) h.

Definition unique_confirmed_reservation (db : DB) : Prop :=
  forall c f h, (List.length (filter (confirmed_at c f h) (reservas db)) <= 1)%nat.

(** The specification's [computeEnd]: start + 1 hour, modulo 24. *)
Definition spec_computeEnd (start : time) : time :=
  mk_time ((hour start + 1) mod 24) (minute start) (second start) (microsecond start).

(** A whole-hour reservation of one hour. *)
Definition whole_hour (r : Reserva) : Prop :=
  exists h, 0 <= h < 23 /\ hora_inicio r = time_h h /\ hora_fin r = Some (time_h (h + 1)).

(** The instance [Reserva.save] hands to [Model.save]. *)
Definition save_defaults (self : Reserva) : Reserva :=
  let self := if precio_total self =? 0
              then set_precio_total (tarifa_hora (cancha self)) self
              else self in
  match hora_fin self with
  | None => set_hora_fin (time_hm ((hour (hora_inicio self) + 1) mod 24)
                                  (minute (hora_inicio self))) self
  | Some _ => self
  end.

(** What the proofs carry along every reachable store: the constraint,
    and the primary key (present and unique). *)
Record db_inv (db : DB) : Prop := mk_db_inv
  { inv_unique : unique_confirmed_reservation db;
    inv_nodup : NoDup (map pk (reservas db));
    inv_pk : forall r, In r (reservas db) -> pk r <> None }.

(** The fourteen whole hours of the operating window. *)
Definition operating_slots : list time :=
  [time_h 8; time_h 9; time_h 10; time_h 11; time_h 12; time_h 13; time_h 14;
   time_h 15; time_h 16; time_h 17; time_h 18; time_h 19; time_h 20; time_h 21].

(** ** Requests racing for one slot *)

Definition req_slot (cid : Z) (fecha : date) (h m : Z) (u : Z) : Request :=
  mk_request POST u (Some cid) (Some fecha) (Some (h, m)).

(** A request for the slot, at one of the points it can be at. *)
Definition good_thread (cid : Z) (c : Cancha) (fecha : date) (h m : Z)
    (t : Thread) : Prop :=
  (exists u, th_request t = req_slot cid fecha h m u) /\
  (th_pc t = PcStart \/
   th_pc t = PcParsed c fecha (time_hm h m) \/
   th_pc t = PcChecked c fecha (time_hm h m) \/
   th_pc t = PcDone json_ok \/
   th_pc t = PcDone json_no_disponible \/
   th_pc t = PcDone json_error).

Definition slot_row (c : Cancha) (fecha : date) (h m : Z) (r : Reserva) : Prop :=
  estado r = confirmada /\ cancha r = c /\ fecha_reserva r = fecha /\
  hora_inicio r = time_hm h m.

(** Either nobody has answered and the table is the initial one, or the
    table has gained one confirmed row for the slot and one request has
    answered with success. *)
Definition race_inv (db0 : DB) (cid : Z) (c : Cancha) (fecha : date) (h m : Z)
    (s : Sys) : Prop :=
  canchas (sys_db s) = canchas db0 /\
  Forall (good_thread cid c fecha h m) (sys_threads s) /\
  ((reservas (sys_db s) = reservas db0 /\
    Forall (fun t => is_done t = false) (sys_threads s)) \/
   (exists r : Reserva, reservas (sys_db s) = (reservas db0 ++ [r])%list /\
              slot_row c fecha h m r /\
              List.length (filter is_ok (sys_threads s)) = 1%nat)).

(** The instance a quick-book request for the slot inserts. *)
Definition nueva_reserva (c : Cancha) (fecha : date) (h m : Z) (u : Z) : Reserva :=
  mk_reserva None c u fecha (time_hm h m)
             (Some (time_hm ((h + 1) mod 24) m)) confirmada None (tarifa_hora c).

(** The two answers of a request that does not get the slot. *)
Definition failed_response (t : Thread) : Prop :=
  response t = Some json_no_disponible \/ response t = Some json_error.

(** After the statements [antes], request [i] is about to send its
    availability query, and the query finds a conflicting row. *)
Definition check_fails (s0 : Sys) (antes : list nat) (i : nat) : Prop :=
  exists t c fecha inicio,
    nth_error (sys_threads (run antes s0)) i = Some t /\
    th_pc t = PcParsed c fecha inicio /\
    esta_disponible c fecha inicio None (sys_db (run antes s0)) =
      (inr false, sys_db (run antes s0)).

(** After the statements [antes], request [i] is about to send its
    insert, a confirmed row is stored for its court, date and start, and
    the insert raises [IntegrityError]. *)
Definition insert_violates (s0 : Sys) (antes : list nat) (i : nat) : Prop :=
  exists t c fecha inicio,
    nth_error (sys_threads (run antes s0)) i = Some t /\
    th_pc t = PcChecked c fecha inicio /\
    existsb (confirmed_at (cancha_pk c) fecha inicio)
            (reservas (sys_db (run antes s0))) = true /\
    rapida_create (th_request t) c fecha inicio (sys_db (run antes s0)) =
      (inl IntegrityError, sys_db (run antes s0)).

(** The answer of a request that does not get the slot names its cause:
    the slot-taken message goes with a failed availability check and with
    nothing else, the generic message with an insert that breaks the
    constraint and with nothing else. [sched] is cut at the statement of
    request [i] that fails. *)
Definition answers_by_cause (s0 : Sys) (sched : list nat) : Prop :=
  forall i t, nth_error (sys_threads (run sched s0)) i = Some t ->
    (response t = Some json_no_disponible <->
     exists antes despues,
       sched = (antes ++ i :: despues)%list /\ check_fails s0 antes i) /\
    (response t = Some json_error <->
     exists antes despues,
       sched = (antes ++ i :: despues)%list /\ insert_violates s0 antes i).

(** ** Example data

    Dates are ordinals; today is 100 in the examples. *)

Definition cancha_central : Cancha := mk_cancha 1 "Central" 8000 true.
Definition cancha_cerrada : Cancha := mk_cancha 2 "Norte" 6000 false.
Definition ana : Usuario := mk_usuario 7 "Ana" "Diaz".

Definition reserva_ejemplo (k : Z) (c : Cancha) (f : date) (h m : Z) (e : Estado) : Reserva :=
  mk_reserva (Some k) c 7 f (time_hm h m) (Some (time_hm (h + 1) m)) e None (tarifa_hora c).
Definition reserva_con_notas : Reserva :=
  mk_reserva (Some 1) cancha_central 7 101 (time_h 10) (Some (time_h 11))
             confirmada (Some "Traer pelotas") 8000.
Definition reserva_una : Reserva :=
  mk_reserva (Some 1) cancha_central 7 101 (time_h 10) (Some (time_h 11))
             confirmada None 8000.

Definition kw_central : ReservaKwargs :=
  mk_kwargs cancha_central 7 101 (time_h 10) None None None None.
Definition kw_precio (p : option Z) : ReservaKwargs :=
  mk_kwargs cancha_central 7 101 (time_h 10) None None None p.
Definition post_rapida (usuario : Z) (fecha : date) (h m : Z) : Request :=
  mk_request POST usuario (Some 1) (Some fecha) (Some (h, m)).

Definition db_vacia : DB := mk_db [cancha_central; cancha_cerrada] [].
Definition db_con_notas : DB := mk_db [cancha_central] [reserva_con_notas].
Definition db_una : DB := snd (objects_create kw_central db_vacia).
Definition db_once : DB :=
  mk_db [cancha_central] [reserva_ejemplo 1 cancha_central 101 11 0 confirmada].
Definition db_media : DB := snd (reserva_rapida (post_rapida 7 101 10 30) db_vacia).

Definition usuarios_tres : list Z := [7; 8; 9].
Definition sched_tres : list nat := [0; 1; 2; 1; 0; 2; 2; 1; 0]%nat.

(** * Further code of the application

    The remaining methods of [models.py], the availability check of
    [ReservaForm], [CanchaForm.clean_tarifa_hora], the views
    [cancelar_reserva], [eliminar_cancha], [calendario_reservas] and
    [get_horarios_disponibles] of [views.py] with their decorators, and the
    bulk action [cancelar_reservas] of [admin.py]. *)

From Stdlib Require Import Sorted Permutation.

(** ** [Usuario] *)

(** A [Usuario] with its [rol] column. *)
Record Cuenta : Type := mk_cuenta { cuenta_usuario : Usuario; rol : string }.

(** [Usuario.es_administrador] and [Usuario.es_jugador]. *)
Definition Usuario_es_administrador (self : Cuenta) : bool :=
  String.eqb (rol self) "administrador".
Definition Usuario_es_jugador (self : Cuenta) : bool :=
  String.eqb (rol self) "jugador".

(** [order_by] on a comparison of rows. *)
Fixpoint insert_by {A} (leb : A -> A -> bool) (x : A) (l : list A) : list A :=
  match l with
  | [] => [x]
  | y :: t => if leb x y then x :: l else y :: insert_by leb x t
  end.
Definition order_by {A} (leb : A -> A -> bool) (l : list A) : list A :=
  fold_right (insert_by leb) [] l.

(** [('fecha_reserva', 'hora_inicio')] and
    [('-fecha_reserva', '-hora_inicio')]. *)
Definition fecha_hora_leb (a b : Reserva) : bool :=
  (fecha_reserva a <? fecha_reserva b) ||
  ((fecha_reserva a =? fecha_reserva b) && time_leb (hora_inicio a) (hora_inicio b)).
Definition fecha_hora_geb (a b : Reserva) : bool := fecha_hora_leb b a.

(** [Usuario.get_reservas_activas]. *)
Definition get_reservas_activas (hoy : date) (self : Usuario) : M (list Reserva) :=
  rs <- reservas_filter (fun r =>
          (jugador r =? usuario_pk self) &&
          is_confirmada r && (hoy <=? fecha_reserva r)) ;;
  ret (order_by fecha_hora_leb rs).

(** [Usuario.get_historial_reservas]. *)
Definition get_historial_reservas (self : Usuario) : M (list Reserva) :=
  rs <- reservas_filter (fun r => jugador r =? usuario_pk self) ;;
  ret (order_by fecha_hora_geb rs).

(** ** Forms *)

(** [ReservaForm.clean] on the cleaned fields; a field that failed its own
    validation is [None]. *)
Definition ReservaForm_clean (c : option Cancha) (fecha : option date)
    (inicio : option time) : M unit :=
  match c, fecha, inicio with
  | Some c, Some fecha, Some inicio =>
      let fin := time_hm ((hour inicio + 1) mod 24) (minute inicio) in
      libre <- esta_disponible c fecha inicio (Some fin) ;;
      if negb libre
      then raise (ValidationError
             "La cancha no está disponible en el horario seleccionado. Por favor, selecciona otro horario.")
      else ret tt
  | _, _, _ => ret tt
  end.

(** [CanchaForm.clean_tarifa_hora]: [if tarifa and tarifa <= 0]; a zero
    amount is falsy. *)
Definition clean_tarifa_hora (tarifa : option Z) : Exc + option Z :=
  match tarifa with
  | Some t =>
      if negb (t =? 0) && (t <=? 0)
      then inl (ValidationError "La tarifa debe ser un valor positivo.")
      else inr tarifa
  | None => inr tarifa
  end.

(** ** Views *)

(** The decorated views take the user of the request, [None] for an
    anonymous one. *)
Definition es_administrador (usuario : option Cuenta) : bool :=
  match usuario with
  | Some u => Usuario_es_administrador u
  | None => false
  end.
Definition es_jugador_o_admin (usuario : option Cuenta) : bool :=
  match usuario with
  | Some u => Usuario_es_jugador u || Usuario_es_administrador u
  | None => false
  end.

Inductive Message : Type :=
| msg_success (s : string)
| msg_error (s : string).

(** What a view answers: the redirect to the login page of
    [login_required] and [user_passes_test], the 404 of
    [get_object_or_404], a 403, a redirect to a named URL with the flash
    message added on the way, a rendered template with its context, or a
    JSON body. *)
Inductive HttpResponse (A : Type) : Type :=
| RedirectLogin
| Http404
| HttpResponseForbidden (body : string)
| Redirect (to : string) (flash : option Message)
| Render (template : string) (context : A)
| Json (data : A).
Arguments RedirectLogin {A}.
Arguments Http404 {A}.
Arguments HttpResponseForbidden {A} body.
Arguments Redirect {A} to flash.
Arguments Render {A} template context.
Arguments Json {A} data.

(** [cancelar_reserva(request, reserva_id)]. *)
Definition cancelar_reserva (hoy : date) (usuario : option Cuenta) (metodo : Method)
    (reserva_id : Z) : M (HttpResponse unit) :=
  match usuario with
  | None => ret RedirectLogin
  | Some u =>
      found <- (fun db => (inr (find (has_pk reserva_id) (reservas db)), db)) ;;
      match found with
      | None => ret Http404
      | Some reserva =>
          if negb ((usuario_pk (cuenta_usuario u) =? jugador reserva) ||
                   Usuario_es_administrador u)
          then ret (HttpResponseForbidden "No tienes permiso para cancelar esta reserva.")
          else
            flash <- match metodo with
                     | POST =>
                         if puede_cancelar hoy reserva then
                           _ <- cancelar hoy reserva (Some (cuenta_usuario u)) ;;
                           ret (Some (msg_success "Reserva cancelada exitosamente."))
                         else ret (Some (msg_error "No se puede cancelar esta reserva."))
                     | GET => ret None
                     end ;;
            if Usuario_es_administrador u
            then ret (Redirect "admin_reservas" flash)
            else ret (Redirect "mis_reservas" flash)
      end
  end.

(** The annotations and the context of [eliminar_cancha]. *)
Record EliminarContext : Type := mk_eliminar_context
  { ctx_cancha : Cancha;
    total_reservas_cancha : nat;
    reservas_confirmadas_cancha : nat;
    reservas_completadas_cancha : nat;
    reservas_futuras_confirmadas_cancha : nat }.

Definition count_reservas (p : Reserva -> bool) : M nat :=
  rs <- reservas_filter p ;; ret (List.length rs).

(** [Model.save] of a [Cancha]: UPDATE of the row with its key, INSERT when
    there is none. The name is not changed by the callers here, so its
    unique index is not in play. *)
Definition Cancha_save (self : Cancha) : M unit :=
  fun db =>
    let same c := cancha_pk c =? cancha_pk self in
    if existsb same (canchas db)
    then (inr tt, mk_db (map (fun c => if same c then self else c) (canchas db))
                        (reservas db))
    else (inr tt, mk_db (canchas db ++ [self]) (reservas db)).

(** The double quote, character 34. *)
Definition comilla : string := String (ascii_of_nat 34) EmptyString.

Definition set_activa (b : bool) (c : Cancha) : Cancha :=
  mk_cancha (cancha_pk c) (nombre c) (tarifa_hora c) b.

(** [eliminar_cancha(request, cancha_id)]. *)
Definition eliminar_cancha (hoy : date) (usuario : option Cuenta) (metodo : Method)
    (cancha_id : Z) : M (HttpResponse EliminarContext) :=
  if negb (es_administrador usuario) then ret RedirectLogin
  else
    found <- (fun db => (inr (find (fun c => cancha_pk c =? cancha_id) (canchas db)), db)) ;;
    match found with
    | None => ret Http404
    | Some c =>
        let de_cancha r := cancha_pk (cancha r) =? cancha_pk c in
        total <- count_reservas de_cancha ;;
        confirmadas <- count_reservas (fun r => de_cancha r && is_confirmada r) ;;
        completadas <- count_reservas (fun r => de_cancha r &&
                                                 estado_eqb (estado r) completada) ;;
        futuras <- count_reservas (fun r => de_cancha r && is_confirmada r &&
                                             (hoy <=? fecha_reserva r)) ;;
        match metodo with
        | POST =>
            let c := set_activa false c in
            _ <- Cancha_save c ;;
            ret (Redirect "admin_canchas"
                   (Some (msg_success ("Cancha " ++ comilla ++ nombre c ++ comilla ++
                                       " desactivada exitosamente."))))
        | GET =>
            ret (Render "gestion/confirmar_eliminar_cancha.html"
                   (mk_eliminar_context c total confirmadas completadas futuras))
        end
    end.

(** [calendario_reservas(request)]. [GET_fecha] is [None] when the
    parameter is absent or empty, [Some None] when [strptime] raises on it,
    and the date read otherwise. Courts are ordered by name, byte-wise.
    The two neighbouring dates are computed after the rows, outside the
    [try] of the view. *)
Record Celda : Type := mk_celda
  { celda_hora : time; disponible : bool; celda_reserva : option Reserva }.

Record CalendarioContext : Type := mk_calendario_context
  { fecha_seleccionada : date;
    fecha_anterior : date;
    fecha_siguiente : date;
    calendario_data : list (Cancha * list Celda);
    horarios : list time }.

Fixpoint mapM {A B} (f : A -> M B) (l : list A) : M (list B) :=
  match l with
  | [] => ret []
  | x :: t => y <- f x ;; ys <- mapM f t ;; ret (y :: ys)
  end.

(** [{reserva.hora_inicio: reserva for reserva in reservas_del_dia}] and
    its lookup: a later reservation with the same key replaces an earlier
    one. *)
Definition horarios_ocupados_get (reservas_del_dia : list Reserva) (horario : time)
    : option Reserva :=
  find (fun r => time_eqb (hora_inicio r) horario) (rev reservas_del_dia).

Definition calendario_fila (fecha : date) (horarios : list time) (c : Cancha)
    : M (Cancha * list Celda) :=
  reservas_del_dia <- get_reservas_del_dia c fecha ;;
  ret (c, map (fun horario =>
                 match horarios_ocupados_get reservas_del_dia horario with
                 | Some r => mk_celda horario false (Some r)
                 | None => mk_celda horario true None
                 end) horarios).

(** [date.min] and [date.max] as ordinals (0001-01-01 and 9999-12-31),
    and [fecha + timedelta(days=n)], which raises [OverflowError] when the
    result leaves them. No handler of the views catches it. *)
Definition date_min : date := 1.
Definition date_max : date := 3652059.

Inductive Uncaught : Type := OverflowError.

Definition date_add_days (fecha : date) (n : Z) : Uncaught + date :=
  if (date_min <=? fecha + n) && (fecha + n <=? date_max)
  then inr (fecha + n)
  else inl OverflowError.

Definition calendario_reservas (hoy : date) (usuario : option Cuenta)
    (GET_fecha : option (option date))
    : M (Uncaught + HttpResponse CalendarioContext) :=
  if negb (es_jugador_o_admin usuario) then ret (inr RedirectLogin)
  else
    let fecha_seleccionada :=
      match GET_fecha with
      | Some (Some f) => f
      | Some None => hoy
      | None => hoy
      end in
    cs <- (fun db => (inr (order_by (fun a b => String.leb (nombre a) (nombre b))
                                    (filter activa (canchas db))), db)) ;;
    let horarios := map time_h (range 8 22) in
    calendario_data <- mapM (calendario_fila fecha_seleccionada horarios) cs ;;
    match date_add_days fecha_seleccionada (-1) with
    | inl e => ret (inl e)
    | inr fecha_anterior =>
        match date_add_days fecha_seleccionada 1 with
        | inl e => ret (inl e)
        | inr fecha_siguiente =>
            ret (inr (Render "gestion/calendario_reservas.html"
                        (mk_calendario_context fecha_seleccionada fecha_anterior
                           fecha_siguiente calendario_data horarios)))
        end
    end.

(** [time.strftime('%H:%M')] and [time.strftime('%I:%M %p')] (AM and PM
    as in the C locale). *)
Definition digito (d : Z) : ascii := ascii_of_nat (48 + Z.to_nat d).
Definition dos_digitos (n : Z) : string :=
  String (digito (n / 10)) (String (digito (n mod 10)) EmptyString).
Definition strftime_HM (t : time) : string :=
  dos_digitos (hour t) ++ ":" ++ dos_digitos (minute t).
Definition strftime_IMp (t : time) : string :=
  dos_digitos (if hour t mod 12 =? 0 then 12 else hour t mod 12) ++ ":" ++
  dos_digitos (minute t) ++ " " ++ (if hour t <? 12 then "AM" else "PM").

(** [datetime.strptime(s, '%H:%M')] on ASCII text: the hour is read by
    [2[0-3]|[0-1]\d|\d], the minute by [[0-5]\d|\d], alternatives tried
    in this order; text left over after the match is an error. *)
Definition digit_val (c : ascii) : option Z :=
  let n := Z.of_nat (nat_of_ascii c) in
  if (48 <=? n) && (n <=? 57) then Some (n - 48) else None.

Definition match_H (s : string) : list (Z * string) :=
  match s with
  | EmptyString => []
  | String a r =>
      match digit_val a with
      | None => []
      | Some x =>
          match r with
          | String b r' =>
              match digit_val b with
              | Some y =>
                  (if ((x =? 2) && (y <=? 3)) || (x <=? 1) then [(10 * x + y, r')] else [])
                  ++ [(x, r)]
              | None => [(x, r)]
              end
          | EmptyString => [(x, r)]
          end
      end
  end.

Definition match_M (s : string) : option (Z * string) :=
  match s with
  | EmptyString => None
  | String a r =>
      match digit_val a with
      | None => None
      | Some x =>
          match r with
          | String b r' =>
              match digit_val b with
              | Some y => if x <=? 5 then Some (10 * x + y, r') else Some (x, r)
              | None => Some (x, r)
              end
          | EmptyString => Some (x, r)
          end
      end
  end.

Fixpoint first_match (alts : list (Z * string)) : option (Z * Z * string) :=
  match alts with
  | [] => None
  | (h, String c r) :: rest =>
      if Ascii.eqb c ":"%char then
        match match_M r with
        | Some (m, r') => Some (h, m, r')
        | None => first_match rest
        end
      else first_match rest
  | (_, EmptyString) :: rest => first_match rest
  end.

Definition strptime_HM (s : string) : option (Z * Z) :=
  match first_match (match_H s) with
  | Some (h, m, EmptyString) => Some (h, m)
  | _ => None
  end.

(** [get_horarios_disponibles(request)] of [views.py]. [GET_cancha_id] and
    [GET_fecha] are [None] when the parameter is absent or cannot be read.
    The error answer stands for [{'success': False, 'error': str(e)}]; its
    text is left out. *)
Record HorarioData : Type := mk_horario_data { hora : string; hora_display : string }.

Inductive HorariosResponse : Type :=
| horarios_ok (horarios : list HorarioData)
| horarios_error.

Definition views_get_horarios_disponibles (usuario : option Cuenta)
    (GET_cancha_id : option Z) (GET_fecha : option date)
    : M (HttpResponse HorariosResponse) :=
  match usuario with
  | None => ret RedirectLogin
  | Some _ =>
      r <- try_except
             (c <- canchas_get (fun c =>
                     match GET_cancha_id with
                     | Some i => (cancha_pk c =? i) && activa c
                     | None => false
                     end) ;;
              fecha <- of_option GET_fecha ;;
              horarios_disponibles <- get_horarios_disponibles c fecha ;;
              ret (horarios_ok
                     (map (fun horario => mk_horario_data (strftime_HM horario)
                                                          (strftime_IMp horario))
                          horarios_disponibles)))
             (fun _ => ret horarios_error) ;;
      ret (Json r)
  end.

(** ** Admin *)

(** [ReservaAdmin.cancelar_reservas]: the rows of the queryset are read
    once, then cancelled one by one. *)
Fixpoint cancelar_cada (hoy : date) (rs : list Reserva) (count : nat) : M nat :=
  match rs with
  | [] => ret count
  | reserva :: t =>
      if puede_cancelar hoy reserva then
        _ <- cancelar hoy reserva None ;;
        cancelar_cada hoy t (S count)
      else cancelar_cada hoy t count
  end.
Definition cancelar_reservas (hoy : date) (queryset : Reserva -> bool) : M nat :=
  rs <- reservas_filter queryset ;;
  cancelar_cada hoy rs 0%nat.

(** ** Predicates of the statements below *)

(** A time whose four fields are not negative. *)
Definition time_nonneg (t : time) : Prop :=
  0 <= hour t /\ 0 <= minute t /\ 0 <= second t /\ 0 <= microsecond t.

(** The half-open overlap test of the availability queries, for a row [r]
    against the interval from [inicio] to [fin]. *)
Definition solapa (inicio fin : time) (r : Reserva) : bool :=
  time_ltb (hora_inicio r) fin &&
  match hora_fin r with Some e => time_ltb inicio e | None => false end.

(** The rows of a court on a date that count for availability. *)
Definition del_dia (c : Cancha) (fecha : date) (r : Reserva) : bool :=
  (cancha_pk (cancha r) =? cancha_pk c) && (fecha_reserva r =? fecha) && is_confirmada r.

(** No stored row has the key [k]. *)
Definition pk_libre (k : Z) (rows : list Reserva) : Prop :=
  forall x, In x rows -> pk x <> Some k.

(** The row a successful quick-book request appends, under the key [k]
    the store gives it. *)
Definition fila_con_pk (k : Z) (request : Request) (c : Cancha) (fecha : date)
    (h m : Z) : Reserva :=
  mk_reserva (Some k) c (user request) fecha (time_hm h m)
             (Some (time_hm ((h + 1) mod 24) m)) confirmada None (tarifa_hora c).

(** The same row under the key of the embedding. *)
Definition fila_rapida (request : Request) (c : Cancha) (fecha : date) (h m : Z)
    (db : DB) : Reserva :=
  mk_reserva (Some (next_pk (reservas db))) c (user request) fecha (time_hm h m)
             (Some (time_hm ((h + 1) mod 24) m)) confirmada None (tarifa_hora c).

(** The instance [cancelar] writes for a reservation it cancels. *)
Definition cancelada_de (u : option Usuario) (r : Reserva) : Reserva :=
  save_defaults
    (match u with
     | Some a => set_notas ("Cancelada por: " ++ get_full_name a) (set_estado cancelada r)
     | None => set_estado cancelada r
     end).

Definition cuenta_ana : Cuenta := mk_cuenta ana "jugador".
Definition cuenta_admin : Cuenta := mk_cuenta (mk_usuario 1 "Luis" "Mora") "administrador".
Definition cuenta_otro : Cuenta := mk_cuenta (mk_usuario 8 "Eva" "Ruiz") "jugador".

(** One round of the loop of [cancelar_reservas], on the rows. *)
Definition cancelar_fila (hoy : date) (rows : list Reserva) (r : Reserva) : list Reserva :=
  if puede_cancelar hoy r then
    match pk r with
    | Some k => replace_pk k (cancelada_de None r) rows
    | None => rows
    end
  else rows.

(** [r] is cancelled by the loop and has the key of [x]. *)
Definition cancela_a (hoy : date) (x r : Reserva) : bool :=
  match pk r with Some k => has_pk k x | None => false end && puede_cancelar hoy r.

(** Two stored reservations of one court and date, and a third one. *)
Definition reserva_dos : Reserva :=
  mk_reserva (Some 2) cancha_central 8 101 (time_h 12) (Some (time_h 13))
             confirmada None 8000.
Definition reserva_pasada : Reserva :=
  mk_reserva (Some 3) cancha_central 7 90 (time_h 12) (Some (time_h 13))
             confirmada None 8000.
Definition db_tres : DB :=
  snd (save reserva_pasada (snd (save reserva_dos db_una))).


(** ** Court actions of the admin site *)



(** ** Search and dashboard *)

(** [BusquedaAvanzadaForm.clean_fecha]. *)
Definition clean_fecha (hoy : date) (fecha : option date) : Exc + option date :=
  match fecha with
  | Some f =>
      if f <? hoy
      then inl (ValidationError "No se pueden buscar canchas para fechas pasadas.")
      else inr fecha
  | None => inr fecha
  end.

(** The query string of [buscar_canchas] as its fields read it: [fecha]
    and [hora_inicio] are [None] when absent or unreadable, [tipo_pista]
    is the empty string when absent, [tarifa_maxima] is [None] when
    unreadable and [Some None] when absent. Amounts are in cents. *)
Record BusquedaData : Type := mk_busqueda
  { q_fecha : option date;
    q_hora_inicio : option time;
    q_tipo_pista : string;
    q_tarifa_maxima : option (option Z) }.

Definition TIPOS_PISTA : list string := ["cristal"; "muro"; "mixta"].

(** [form.is_valid()] with the [cleaned_data] of a valid form: the two
    required fields are there, the date passes [clean_fecha], the court
    type is one of the choices. *)
Definition BusquedaAvanzadaForm_is_valid (hoy : date) (d : BusquedaData)
    : option (date * time * string * option Z) :=
  match q_fecha d, q_hora_inicio d, q_tarifa_maxima d with
  | Some f, Some h, Some tarifa =>
      match clean_fecha hoy (Some f) with
      | inr (Some f') =>
          if existsb (String.eqb (q_tipo_pista d)) (EmptyString :: TIPOS_PISTA)
          then Some (f', h, q_tipo_pista d, tarifa)
          else None
      | _ => None
      end
  | _, _, _ => None
  end.

Fixpoint filterM {A} (f : A -> M bool) (l : list A) : M (list A) :=
  match l with
  | [] => ret []
  | x :: t =>
      b <- f x ;;
      xs <- filterM f t ;;
      ret (if b then x :: xs else xs)
  end.

(** The default ordering of [Cancha], by name. *)
Definition nombre_leb (a b : Cancha) : bool := String.leb (nombre a) (nombre b).

(** The filters of [buscar_canchas]: an empty court type and a missing or
    zero maximum are falsy and add no filter. *)
Definition busqueda_filtro (tipo_pista_de : Cancha -> string) (tipo_pista : string)
    (tarifa_maxima : option Z) (c : Cancha) : bool :=
  activa c &&
  (if String.eqb tipo_pista EmptyString then true
   else String.eqb (tipo_pista_de c) tipo_pista) &&
  match tarifa_maxima with
  | Some t => if t =? 0 then true else tarifa_hora c <=? t
  | None => true
  end.

(** [buscar_canchas(request)]. [tipo_pista_de] is the column [tipo_pista]
    of a court. The context is given by [canchas_disponibles]. *)
Definition buscar_canchas (tipo_pista_de : Cancha -> string) (hoy : date)
    (usuario : option Cuenta) (d : BusquedaData) : M (HttpResponse (list Cancha)) :=
  if negb (es_jugador_o_admin usuario) then ret RedirectLogin
  else
    canchas_disponibles <-
      match BusquedaAvanzadaForm_is_valid hoy d with
      | Some (fecha, hora_inicio, tipo_pista, tarifa_maxima) =>
          canchas_queryset <-
            (fun db => (inr (order_by nombre_leb
                               (filter (busqueda_filtro tipo_pista_de tipo_pista
                                                        tarifa_maxima)
                                       (canchas db))), db)) ;;
          filterM (fun c => esta_disponible c fecha hora_inicio None) canchas_queryset
      | None => ret []
      end ;;
    ret (Render "gestion/buscar_canchas.html" canchas_disponibles).

(** [dashboard_jugador(request)]. *)
Record DashboardContext : Type := mk_dashboard_context
  { reservas_proximas : list Reserva;
    canchas_disponibles : list (Cancha * nat);
    total_reservas : nat;
    reservas_completadas : nat;
    reservas_canceladas : nat }.

Definition dashboard_fila (hoy : date) (c : Cancha) : M (Cancha * nat) :=
  horarios_disponibles <- get_horarios_disponibles c hoy ;;
  ret (c, List.length horarios_disponibles).

Definition dashboard_jugador (hoy : date) (usuario : option Cuenta)
    : M (HttpResponse DashboardContext) :=
  match usuario with
  | None => ret RedirectLogin
  | Some u =>
      if negb (es_jugador_o_admin usuario) then ret RedirectLogin
      else
        activas <- get_reservas_activas hoy (cuenta_usuario u) ;;
        let reservas_proximas := firstn 5 activas in
        cs <- (fun db => (inr (order_by nombre_leb (filter activa (canchas db))), db)) ;;
        filas <- mapM (dashboard_fila hoy) cs ;;
        let canchas_disponibles :=
          filter (fun fila => negb (Nat.eqb (snd fila) 0)) filas in
        let del_usuario r := jugador r =? usuario_pk (cuenta_usuario u) in
        total_reservas <- count_reservas del_usuario ;;
        reservas_completadas <-
          count_reservas (fun r => del_usuario r && estado_eqb (estado r) completada) ;;
        reservas_canceladas <-
          count_reservas (fun r => del_usuario r && estado_eqb (estado r) cancelada) ;;
        ret (Render "gestion/dashboard_jugador.html"
               (mk_dashboard_context reservas_proximas canchas_disponibles
                  total_reservas reservas_completadas reservas_canceladas))
  end.

(** The free slots of a court on a date, as [get_horarios_disponibles]
    computes them on the rows. *)
Definition slots_libres (c : Cancha) (fecha : date) (rows : list Reserva) : list time :=
  filter (fun t => negb (existsb (fun r => del_dia c fecha r && time_eqb (hora_inicio r) t)
                                 rows))
         operating_slots.

(** A search for glass courts at 10:00 on the date [fecha]. *)
Definition busqueda_ejemplo (fecha : date) (tarifa : option Z) : BusquedaData :=
  mk_busqueda (Some fecha) (Some (time_h 10)) "cristal" (Some tarifa).

(** * Properties *)

(** ** Basic facts *)

Lemma time_eqb_eq (a b : time) : time_eqb a b = true <-> a = b.
Proof.
  unfold time_eqb. destruct a, b; simpl.
  rewrite !andb_true_iff, !Z.eqb_eq. split.
  - intros [[[-> ->] ->] ->]. reflexivity.
  - intros H. injection H as -> -> -> ->. auto.
Qed.

Lemma time_eqb_refl (a : time) : time_eqb a a = true.
Proof. apply time_eqb_eq. reflexivity. Qed.

Lemma estado_eqb_eq (a b : Estado) : estado_eqb a b = true <-> a = b.
Proof. destruct a, b; simpl; split; congruence. Qed.

Lemma is_confirmada_iff (r : Reserva) : is_confirmada r = true <-> estado r = confirmada.
Proof. apply estado_eqb_eq. Qed.

Lemma exists_false_iff {A} (l : list A) : exists_ l = false <-> l = [].
Proof. destruct l; simpl; split; congruence. Qed.

Lemma filter_nil_iff {A} (p : A -> bool) (l : list A) :
  filter p l = [] <-> forall x, In x l -> p x = false.
Proof.
  induction l as [|a l IH]; simpl.
  - split; [intros _ x [] | reflexivity].
  - destruct (p a) eqn:E.
    + split; [discriminate|]. intros H. specialize (H a (or_introl eq_refl)). congruence.
    + rewrite IH. split.
      * intros H x [<-|Hx]; auto.
      * intros H x Hx. apply H. auto.
Qed.

Lemma exists_true_iff {A} (l : list A) : exists_ l = true <-> exists x, In x l.
Proof.
  destruct l as [|a l]; simpl; split; try congruence.
  - intros [x []].
  - intros _. exists a. auto.
Qed.

(** ** The tests of the repository, replayed on the embedding *)

(** [test_esta_disponible]: without reservations the court is free. *)
Example test_esta_disponible :
  esta_disponible cancha_central 101 (time_hm 10 0) None db_vacia = (inr true, db_vacia).
Proof. reflexivity. Qed.

(** [test_get_horarios_disponibles]: 14 slots, the first 08:00, the last
    21:00. *)
Example test_get_horarios_disponibles :
  exists horarios,
    get_horarios_disponibles cancha_central 101 db_vacia = (inr horarios, db_vacia) /\
    List.length horarios = 14%nat /\
    hd_error horarios = Some (time_hm 8 0) /\
    last horarios (time_h 0) = time_hm 21 0.
Proof. eexists. split; [vm_compute; reflexivity|]. repeat split. Qed.

(** [test_save_calculates_precio_total], [test_save_calculates_hora_fin],
    [test_puede_cancelar] and [test_cancelar] of [ReservaModelTest]. *)
Example test_reserva_model :
  exists reserva db,
    objects_create kw_central db_vacia = (inr reserva, db) /\
    precio_total reserva = tarifa_hora cancha_central /\
    hora_fin reserva = Some (time_hm 11 0) /\
    puede_cancelar 100 reserva = true /\
    puede_cancelar 100 (set_estado cancelada reserva) = false /\
    exists reserva' db',
      cancelar 100 reserva None db = (inr (true, reserva'), db') /\
      estado reserva' = cancelada.
Proof.
  eexists _, _. split; [vm_compute; reflexivity|]. repeat split.
  eexists _, _. split; [vm_compute; reflexivity|reflexivity].
Qed.

(** [test_reserva_form_fecha_pasada]: the form rejects yesterday. *)
Example test_reserva_form_fecha_pasada :
  clean_fecha_reserva 100 (Some 99) =
  inl (ValidationError "No se pueden hacer reservas para fechas pasadas.").
Proof. reflexivity. Qed.

(** What the two validators of the form reject. *)
Lemma clean_fecha_reserva_rejects (hoy f : date) :
  (exists msg, clean_fecha_reserva hoy (Some f) = inl (ValidationError msg)) <-> f < hoy.
Proof.
  unfold clean_fecha_reserva. destruct (f <? hoy) eqn:E.
  - apply Z.ltb_lt in E. split; [intros _; exact E | intros _; eauto].
  - apply Z.ltb_ge in E. split; [intros [msg H]; discriminate | lia].
Qed.

Lemma clean_hora_inicio_rejects (t : time) :
  (exists msg, clean_hora_inicio (Some t) = inl (ValidationError msg)) <->
  hour t < 8 \/ 22 <= hour t.
Proof.
  unfold clean_hora_inicio. destruct ((hour t <? 8) || (22 <=? hour t)) eqn:E.
  - apply orb_true_iff in E. rewrite Z.ltb_lt, Z.leb_le in E.
    split; [intros _; exact E | intros _; eauto].
  - apply orb_false_iff in E. rewrite Z.ltb_ge, Z.leb_gt in E.
    split; [intros [msg H]; discriminate | lia].
Qed.

(** ** Availability checker *)

(** C3. [esta_disponible] never raises and leaves the store as it found
    it; its answer is false exactly when the court is inactive or some
    confirmed reservation of that court and date starts before the end of
    the requested interval and ends after its start. The end of the
    requested interval is the one passed, or the default when none is. *)
Theorem esta_disponible_spec (self : Cancha) (fecha : date) (inicio : time)
    (fin : option time) (db : DB) :
  let fin' := match fin with
              | Some t => t
              | None => time_h ((hour inicio + 1) mod 24)
              end in
  exists b : bool,
    esta_disponible self fecha inicio fin db = (inr b, db) /\
    (b = false <->
     activa self = false \/
     exists r e, In r (reservas db) /\
                 cancha_pk (cancha r) = cancha_pk self /\
                 fecha_reserva r = fecha /\
                 estado r = confirmada /\
                 hora_fin r = Some e /\
                 time_ltb (hora_inicio r) fin' = true /\
                 time_ltb inicio e = true).
Proof.
  intros fin'. unfold esta_disponible.
  destruct (activa self) eqn:Ha; simpl.
  - unfold bind, reservas_filter, ret. eexists. split; [reflexivity|].
    rewrite negb_false_iff, exists_true_iff. fold fin'. split.
    + intros [r Hr]. apply filter_In in Hr. destruct Hr as [Hin Hp].
      rewrite !andb_true_iff in Hp.
      destruct Hp as [[[Hc Hf] He] [Hlt Hgt]].
      right. destruct (hora_fin r) as [e|] eqn:Hfin; [|discriminate].
      exists r, e. rewrite Z.eqb_eq in Hc, Hf. apply is_confirmada_iff in He.
      repeat split; assumption.
    + intros [Hfalse | (r & e & Hin & Hc & Hf & He & Hfin & Hlt & Hgt)];
        [discriminate|].
      exists r. apply filter_In. split; [assumption|].
      rewrite Hfin, !andb_true_iff, !Z.eqb_eq, is_confirmada_iff. auto.
  - exists false. split; [reflexivity|]. split; auto.
Qed.


Lemma horarios_funcionamiento_eq : map time_h (range 8 22) = operating_slots.
Proof. reflexivity. Qed.

(** C4. On a date without confirmed reservation of the court,
    [get_horarios_disponibles] returns the fourteen whole hours 08:00 to
    21:00 in ascending order when the court is active; for an inactive
    court it returns the empty list, whatever the store holds. The store
    is left unchanged. *)
Theorem get_horarios_disponibles_sin_reservas (self : Cancha) (fecha : date) (db : DB)
    (Hlibre : activa self = true ->
              forall r, In r (reservas db) ->
                        cancha_pk (cancha r) = cancha_pk self ->
                        fecha_reserva r = fecha ->
                        estado r <> confirmada) :
  get_horarios_disponibles self fecha db =
  (inr (if activa self then operating_slots else []), db).
Proof.
  unfold get_horarios_disponibles.
  destruct (activa self) eqn:Ha; simpl; [|reflexivity].
  unfold get_reservas_del_dia, bind, reservas_filter, ret.
  match goal with |- context [filter ?p (reservas db)] =>
    assert (Hnil : filter p (reservas db) = []) end.
  { apply filter_nil_iff. intros r Hr.
    destruct (cancha_pk (cancha r) =? cancha_pk self) eqn:Hc; [|reflexivity].
    destruct (fecha_reserva r =? fecha) eqn:Hf; [|reflexivity].
    simpl. apply not_true_is_false. intros He.
    apply is_confirmada_iff in He. rewrite Z.eqb_eq in Hc, Hf.
    exact (Hlibre eq_refl r Hr Hc Hf He). }
  rewrite Hnil. reflexivity.
Qed.



Lemma get_horarios_disponibles_sin_reservas_witness :
  let db := mk_db [cancha_central]
                  [reserva_ejemplo 1 cancha_central 100 10 0 cancelada;
                   reserva_ejemplo 2 cancha_central 101 10 0 confirmada] in
  (activa cancha_central = true ->
   forall r, In r (reservas db) ->
             cancha_pk (cancha r) = cancha_pk cancha_central ->
             fecha_reserva r = 100 ->
             estado r <> confirmada) /\
  get_horarios_disponibles cancha_central 100 db = (inr operating_slots, db).
Proof.
  intros db.
  assert (H : activa cancha_central = true ->
              forall r, In r (reservas db) ->
                        cancha_pk (cancha r) = cancha_pk cancha_central ->
                        fecha_reserva r = 100 ->
                        estado r <> confirmada).
  { intros _ r [<-|[<-|[]]] _ Hf; simpl in *; [discriminate | lia]. }
  split; [exact H|].
  exact (get_horarios_disponibles_sin_reservas cancha_central 100 db H).
Defined.

(** ** Writes *)

Lemma set_pk_same (k : Z) (r : Reserva) : pk r = Some k -> set_pk k r = r.
Proof. destruct r; simpl; intros ->; reflexivity. Qed.

Lemma In_replace_pk (k : Z) (r : Reserva) (rows : list Reserva) :
  existsb (has_pk k) rows = true -> In r (replace_pk k r rows).
Proof.
  induction rows as [|x t IH]; simpl; [discriminate|].
  destruct (has_pk k x); simpl; auto.
Qed.

(** What [Model.save] does with an instance that has an end time and
    passes the constraint. *)
Lemma Model_save_ok (self : Reserva) (db : DB) :
  hora_fin self <> None ->
  (forall rows, violates_unique_confirmed self rows = true ->
                incl rows (reservas db) -> False) ->
  exists self' db',
    Model_save self db = (inr self', db') /\
    In self' (reservas db') /\
    canchas db' = canchas db /\
    (self' = self \/ exists k, pk self = None /\ self' = set_pk k self).
Proof.
  intros Hfin Hok. unfold Model_save.
  destruct (hora_fin self) as [e|] eqn:He; [clear Hfin|congruence].
  destruct (pk self) as [k|] eqn:Hk.
  - destruct (existsb (has_pk k) (reservas db)) eqn:Hex.
    + unfold db_update. rewrite He.
      destruct (violates_unique_confirmed self _) eqn:Hv.
      * exfalso. apply (Hok _ Hv). apply incl_filter.
      * rewrite (set_pk_same k self Hk).
        eexists _, _. split; [reflexivity|]. simpl.
        split; [apply In_replace_pk; assumption|]. auto.
    + unfold db_insert. rewrite He, Hk, Hex.
      destruct (violates_unique_confirmed self _) eqn:Hv.
      * exfalso. apply (Hok _ Hv). apply incl_refl.
      * eexists _, _. split; [reflexivity|]. simpl.
        split; [apply in_or_app; right; left; reflexivity|]. auto.
  - unfold db_insert. rewrite He, Hk.
    destruct (violates_unique_confirmed self _) eqn:Hv.
    + exfalso. apply (Hok _ Hv). apply incl_refl.
    + eexists _, _. split; [reflexivity|]. simpl.
      split; [apply in_or_app; right; left; reflexivity|].
      split; [reflexivity|]. right. eexists. split; reflexivity.
Qed.

Lemma save_unfold (self : Reserva) (db : DB) :
  save self db = Model_save (save_defaults self) db.
Proof. reflexivity. Qed.

Lemma save_defaults_hora_fin (self : Reserva) : hora_fin (save_defaults self) <> None.
Proof.
  unfold save_defaults.
  destruct (precio_total self =? 0); simpl;
    destruct (hora_fin self) eqn:E; simpl; congruence.
Qed.

Lemma save_defaults_fields (self : Reserva) :
  pk (save_defaults self) = pk self /\
  cancha (save_defaults self) = cancha self /\
  jugador (save_defaults self) = jugador self /\
  fecha_reserva (save_defaults self) = fecha_reserva self /\
  hora_inicio (save_defaults self) = hora_inicio self /\
  estado (save_defaults self) = estado self /\
  notas (save_defaults self) = notas self.
Proof.
  unfold save_defaults.
  destruct (precio_total self =? 0); simpl;
    destruct (hora_fin self); simpl; repeat split; reflexivity.
Qed.

(** ** Lifecycle *)

Lemma puede_cancelar_iff (hoy : date) (self : Reserva) :
  puede_cancelar hoy self = true <->
  estado self = confirmada /\ hoy <= fecha_reserva self.
Proof.
  unfold puede_cancelar. rewrite andb_true_iff, is_confirmada_iff, Z.leb_le.
  reflexivity.
Qed.

(** A successful [cancelar]: the instance after the call and the store
    after the call. *)
Lemma cancelar_true (hoy : date) (self : Reserva) (u : option Usuario) (db : DB) :
  puede_cancelar hoy self = true ->
  exists self' db',
    cancelar hoy self u db = (inr (true, self'), db') /\
    estado self' = cancelada /\
    notas self' = match u with
                  | Some a => Some ("Cancelada por: " ++ get_full_name a)
                  | None => notas self
                  end /\
    cancha self' = cancha self /\ fecha_reserva self' = fecha_reserva self /\
    hora_inicio self' = hora_inicio self /\
    In self' (reservas db') /\
    canchas db' = canchas db /\
    (forall k, pk self = Some k -> existsb (has_pk k) (reservas db) = true ->
               pk self' = Some k /\ reservas db' = replace_pk k self' (reservas db)).
Proof.
  intros Hp. unfold cancelar. rewrite Hp.
  set (s1 := match u with
             | Some a => set_notas ("Cancelada por: " ++ get_full_name a)
                                   (set_estado cancelada self)
             | None => set_estado cancelada self
             end).
  assert (Hs1 : estado s1 = cancelada /\ cancha s1 = cancha self /\
                fecha_reserva s1 = fecha_reserva self /\
                hora_inicio s1 = hora_inicio self /\ pk s1 = pk self /\
                notas s1 = match u with
                           | Some a => Some ("Cancelada por: " ++ get_full_name a)
                           | None => notas self
                           end).
  { unfold s1. destruct u; simpl; repeat split; reflexivity. }
  destruct Hs1 as (He & Hc & Hf & Hh & Hk & Hn).
  destruct (save_defaults_fields s1) as (Dk & Dc & _ & Df & Dh & De & Dn).
  unfold bind. rewrite save_unfold.
  assert (Hnc : is_confirmada (save_defaults s1) = false).
  { unfold is_confirmada. rewrite De, He. reflexivity. }
  destruct (Model_save_ok (save_defaults s1) db (save_defaults_hora_fin s1))
    as (s' & db' & Hsave & Hin & Hcs & Hs').
  { intros rows Hv _. unfold violates_unique_confirmed in Hv.
    rewrite Hnc in Hv. discriminate. }
  exists s', db'. rewrite Hsave. unfold ret.
  assert (Hsame : estado s' = estado (save_defaults s1) /\
                  notas s' = notas (save_defaults s1) /\
                  cancha s' = cancha (save_defaults s1) /\
                  fecha_reserva s' = fecha_reserva (save_defaults s1) /\
                  hora_inicio s' = hora_inicio (save_defaults s1)).
  { destruct Hs' as [->|(k & _ & ->)]; simpl; repeat split; reflexivity. }
  destruct Hsame as (Se & Sn & Sc & Sf & Sh).
  split; [reflexivity|].
  split; [congruence|]. split; [congruence|]. split; [congruence|].
  split; [congruence|]. split; [congruence|]. split; [assumption|].
  split; [assumption|].
  intros k Hpk Hex.
  assert (Hpk' : pk (save_defaults s1) = Some k) by congruence.
  unfold Model_save in Hsave. rewrite Hpk', Hex in Hsave.
  unfold db_update in Hsave.
  destruct (hora_fin (save_defaults s1)); [|discriminate].
  destruct (violates_unique_confirmed _ _); [discriminate|].
  rewrite (set_pk_same k _ Hpk') in Hsave.
  injection Hsave as <- <-. simpl. auto.
Qed.

(** C6 (amended). [puede_cancelar] holds exactly for a confirmed
    reservation dated today or later. When it does not hold, [cancelar]
    returns false and changes neither the instance nor the store. When it
    holds, [cancelar] returns true, the status is cancelled, the notes are
    REPLACED by the attribution note when an actor is given (and kept
    otherwise), the instance is in the store after the call, and a second
    [cancelar] on it returns false and changes nothing. *)
Theorem cancelar_spec (hoy : date) (self : Reserva) (u : option Usuario) (db : DB) :
  (puede_cancelar hoy self = true <->
   estado self = confirmada /\ hoy <= fecha_reserva self) /\
  (puede_cancelar hoy self = false ->
   cancelar hoy self u db = (inr (false, self), db)) /\
  (puede_cancelar hoy self = true ->
   exists self' db',
     cancelar hoy self u db = (inr (true, self'), db') /\
     estado self' = cancelada /\
     notas self' = match u with
                   | Some a => Some ("Cancelada por: " ++ get_full_name a)
                   | None => notas self
                   end /\
     In self' (reservas db') /\
     forall u2, cancelar hoy self' u2 db' = (inr (false, self'), db')).
Proof.
  split; [apply puede_cancelar_iff|]. split.
  - intros Hp. unfold cancelar. rewrite Hp. reflexivity.
  - intros Hp.
    destruct (cancelar_true hoy self u db Hp)
      as (s' & db' & Hc & He & Hn & _ & _ & _ & Hin & _).
    exists s', db'. repeat split; try assumption.
    intros u2. unfold cancelar, puede_cancelar, is_confirmada.
    rewrite He. reflexivity.
Qed.

Lemma cancelar_spec_witness :
  puede_cancelar 100 reserva_con_notas = true /\
  exists self' db',
    cancelar 100 reserva_con_notas (Some ana) db_con_notas = (inr (true, self'), db') /\
    estado self' = cancelada /\
    notas self' = Some ("Cancelada por: " ++ get_full_name ana) /\
    In self' (reservas db') /\
    forall u2, cancelar 100 self' u2 db' = (inr (false, self'), db').
Proof.
  split; [reflexivity|].
  exact (proj2 (proj2 (cancelar_spec 100 reserva_con_notas (Some ana) db_con_notas))
               eq_refl).
Defined.

(** C6 as stated fails on the attribution note: a reservation that
    carries the note "Traer pelotas" and is cancelled by Ana Diaz ends with
    the note "Cancelada por: Ana Diaz"; the earlier note is gone, so the
    result is no extension of it. *)
Lemma cancelar_overwrites_notas :
  exists self' db',
    cancelar 100 reserva_con_notas (Some ana) db_con_notas = (inr (true, self'), db') /\
    notas reserva_con_notas = Some "Traer pelotas" /\
    notas self' = Some "Cancelada por: Ana Diaz" /\
    forall suffix, notas self' <> Some ("Traer pelotas" ++ suffix).
Proof.
  eexists _, _. split; [vm_compute; reflexivity|].
  split; [reflexivity|]. split; [reflexivity|].
  intros suffix H. simpl in H. discriminate H.
Qed.

(** ** The partial unique constraint on reachable stores *)

Lemma confirmed_at_set_pk c f h k r :
  confirmed_at c f h (set_pk k r) = confirmed_at c f h r.
Proof. reflexivity. Qed.

Lemma same_slot_confirmed_at (x r : Reserva) c f h :
  confirmed_at c f h r = true -> confirmed_at c f h x = true ->
  is_confirmada x && same_slot x r = true.
Proof.
  unfold confirmed_at, same_slot. rewrite !andb_true_iff, !Z.eqb_eq, !time_eqb_eq.
  intros [[[_ Hc] Hf] Hh] [[[Hx Hc'] Hf'] Hh'].
  repeat split; try assumption; congruence.
Qed.

Lemma unviolated_no_confirmed_at (r : Reserva) (rows : list Reserva) c f h :
  violates_unique_confirmed r rows = false ->
  confirmed_at c f h r = true ->
  filter (confirmed_at c f h) rows = [].
Proof.
  intros Hv Hr. apply filter_nil_iff. intros x Hx.
  destruct (confirmed_at c f h x) eqn:E; [|reflexivity].
  unfold violates_unique_confirmed in Hv.
  assert (Hcr : is_confirmada r = true).
  { unfold confirmed_at in Hr. rewrite !andb_true_iff in Hr. tauto. }
  rewrite Hcr in Hv. simpl in Hv.
  assert (Hex : existsb (fun x => is_confirmada x && same_slot x r) rows = true).
  { apply existsb_exists. exists x. split; [assumption|].
    apply (same_slot_confirmed_at x r c f h); assumption. }
  congruence.
Qed.

Lemma length_filter_filter {A} (p q : A -> bool) (l : list A) :
  (List.length (filter p (filter q l)) <= List.length (filter p l))%nat.
Proof.
  induction l as [|a l IH]; simpl; [lia|].
  destruct (q a), (p a) eqn:E; simpl; rewrite ?E; simpl; lia.
Qed.

Lemma has_pk_false_of_notin (k : Z) (rows : list Reserva) :
  ~ In (Some k) (map pk rows) -> forall y, In y rows -> has_pk k y = false.
Proof.
  intros Hn y Hy. unfold has_pk. destruct (pk y) as [k'|] eqn:E; [|reflexivity].
  apply Z.eqb_neq. intros ->. apply Hn. rewrite <- E. apply in_map. assumption.
Qed.

Lemma has_pk_true (k : Z) (x : Reserva) : has_pk k x = true <-> pk x = Some k.
Proof.
  unfold has_pk. destruct (pk x) as [k'|].
  - rewrite Z.eqb_eq. split; congruence.
  - split; discriminate.
Qed.

Lemma replace_pk_id (k : Z) (r : Reserva) (rows : list Reserva) :
  (forall y, In y rows -> has_pk k y = false) -> replace_pk k r rows = rows.
Proof.
  intros H. unfold replace_pk. induction rows as [|x t IH]; simpl; [reflexivity|].
  rewrite (H x (or_introl eq_refl)). f_equal. apply IH. intros y Hy. apply H. right. exact Hy.
Qed.

Lemma filter_id {A} (q : A -> bool) (l : list A) :
  (forall y, In y l -> q y = true) -> filter q l = l.
Proof.
  intros H. induction l as [|x t IH]; simpl; [reflexivity|].
  rewrite (H x (or_introl eq_refl)). f_equal. apply IH. intros y Hy. apply H. right. exact Hy.
Qed.

(** With unique keys an UPDATE rewrites one row at most. *)
Lemma length_filter_replace_pk (p : Reserva -> bool) (k : Z) (r : Reserva)
    (rows : list Reserva) :
  NoDup (map pk rows) ->
  (List.length (filter p (replace_pk k r rows)) <=
   List.length (filter p (filter (fun x => negb (has_pk k x)) rows)) +
   (if p r then 1 else 0))%nat.
Proof.
  induction rows as [|x t IH]; simpl; intros Hnd; [lia|].
  inversion Hnd as [|? ? Hnotin Hnd']; subst.
  destruct (has_pk k x) eqn:Hx; simpl.
  - apply has_pk_true in Hx. rewrite Hx in Hnotin.
    pose proof (has_pk_false_of_notin k t Hnotin) as Hall.
    fold (replace_pk k r t). rewrite (replace_pk_id k r t Hall).
    rewrite (filter_id (fun x => negb (has_pk k x)) t).
    + destruct (p r); simpl; lia.
    + intros y Hy. rewrite (Hall y Hy). reflexivity.
  - fold (replace_pk k r t). specialize (IH Hnd').
    destruct (p x); simpl; lia.
Qed.

Lemma map_pk_replace_pk (k : Z) (r : Reserva) (rows : list Reserva) :
  map pk (replace_pk k (set_pk k r) rows) = map pk rows.
Proof.
  unfold replace_pk. induction rows as [|x t IH]; simpl; [reflexivity|].
  rewrite IH. destruct (has_pk k x) eqn:Hx; [|reflexivity].
  apply has_pk_true in Hx. simpl. congruence.
Qed.

Lemma In_replace_pk_inv (k : Z) (r x : Reserva) (rows : list Reserva) :
  In x (replace_pk k r rows) -> x = r \/ (In x rows /\ has_pk k x = false).
Proof.
  unfold replace_pk. induction rows as [|y t IH]; simpl; [tauto|].
  destruct (has_pk k y) eqn:Hy; intros [<-|Hx]; auto.
  - destruct (IH Hx) as [->|[? ?]]; auto.
  - destruct (IH Hx) as [->|[? ?]]; auto.
Qed.

Lemma next_pk_gt (rows : list Reserva) (r : Reserva) (k : Z) :
  In r rows -> pk r = Some k -> k < next_pk rows.
Proof.
  unfold next_pk. intros Hr Hk.
  enough (k <= fold_right (fun r acc => match pk r with
                                        | Some k => Z.max k acc
                                        | None => acc
                                        end) 0 rows) by lia.
  induction rows as [|x t IH]; [destruct Hr|].
  cbn [fold_right]. destruct Hr as [->|Hr].
  - rewrite Hk. lia.
  - specialize (IH Hr). destruct (pk x); lia.
Qed.

Lemma next_pk_fresh (rows : list Reserva) : ~ In (Some (next_pk rows)) (map pk rows).
Proof.
  intros H. apply in_map_iff in H. destruct H as (r & Hk & Hr).
  pose proof (next_pk_gt rows r _ Hr Hk). lia.
Qed.

Lemma NoDup_snoc {A} (l : list A) (a : A) : NoDup l -> ~ In a l -> NoDup (l ++ [a]).
Proof.
  induction l as [|x t IH]; simpl; intros Hnd Hn.
  - constructor; [tauto|constructor].
  - inversion Hnd as [|? ? Hx Ht]; subst. constructor.
    + intros Hin. apply in_app_or in Hin. destruct Hin as [Hin|[->|[]]]; tauto.
    + apply IH; tauto.
Qed.

Lemma NoDup_map_filter {A B} (f : A -> B) (q : A -> bool) (l : list A) :
  NoDup (map f l) -> NoDup (map f (filter q l)).
Proof.
  induction l as [|x t IH]; simpl; intros Hnd; [constructor|].
  inversion Hnd as [|? ? Hx Ht]; subst.
  destruct (q x); simpl; [|auto]. constructor; [|auto].
  intros Hin. apply Hx. apply in_map_iff in Hin. destruct Hin as (y & <- & Hy).
  apply in_map. apply filter_In in Hy. tauto.
Qed.

Lemma length_filter_map_le {A} (p : A -> bool) (g : A -> A) (l : list A) :
  (forall x, p (g x) = true -> p x = true) ->
  (List.length (filter p (map g l)) <= List.length (filter p l))%nat.
Proof.
  intros H. induction l as [|x t IH]; simpl; [lia|].
  destruct (p (g x)) eqn:E.
  - rewrite (H x E). simpl. lia.
  - destruct (p x); simpl; lia.
Qed.

Lemma db_inv_append (cs : list Cancha) (rows : list Reserva) (r : Reserva) (db : DB) :
  reservas db = rows -> db_inv db ->
  violates_unique_confirmed r rows = false ->
  ~ In (pk r) (map pk rows) -> pk r <> None ->
  db_inv (mk_db cs (rows ++ [r])).
Proof.
  intros <- [Hu Hn Hp] Hv Hfresh Hsome. constructor; simpl.
  - intros c f h. simpl. rewrite filter_app, length_app. simpl.
    destruct (confirmed_at c f h r) eqn:E; simpl.
    + rewrite (unviolated_no_confirmed_at r _ c f h Hv E). simpl. lia.
    + specialize (Hu c f h). lia.
  - rewrite map_app. simpl. apply NoDup_snoc; assumption.
  - intros x Hx. apply in_app_or in Hx. destruct Hx as [Hx|[<-|[]]]; auto.
Qed.

Lemma db_inv_replace (cs : list Cancha) (k : Z) (r : Reserva) (db : DB) :
  db_inv db ->
  violates_unique_confirmed r (filter (fun x => negb (has_pk k x)) (reservas db)) = false ->
  db_inv (mk_db cs (replace_pk k (set_pk k r) (reservas db))).
Proof.
  intros [Hu Hn Hp] Hv. constructor; simpl.
  - intros c f h. simpl.
    pose proof (length_filter_replace_pk (confirmed_at c f h) k (set_pk k r) _ Hn) as Hle.
    rewrite confirmed_at_set_pk in Hle.
    destruct (confirmed_at c f h r) eqn:E.
    + rewrite (unviolated_no_confirmed_at r _ c f h Hv E) in Hle. simpl in Hle. exact Hle.
    + pose proof (length_filter_filter (confirmed_at c f h)
                    (fun x => negb (has_pk k x)) (reservas db)).
      specialize (Hu c f h). lia.
  - rewrite map_pk_replace_pk. assumption.
  - intros x Hx. apply In_replace_pk_inv in Hx.
    destruct Hx as [->|[Hx _]]; [simpl; discriminate|auto].
Qed.

Lemma db_insert_inv (r : Reserva) (x : Exc + Reserva) (db db' : DB) :
  db_insert r db = (x, db') -> db_inv db -> db_inv db'.
Proof.
  unfold db_insert. intros H Hinv.
  destruct (hora_fin r); [|injection H as _ <-; assumption].
  destruct (violates_unique_confirmed r (reservas db)) eqn:Hv;
    [injection H as _ <-; assumption|].
  destruct (pk r) as [k|] eqn:Hk.
  - destruct (existsb (has_pk k) (reservas db)) eqn:Hex;
      [injection H as _ <-; assumption|].
    injection H as _ <-.
    apply (db_inv_append _ _ r db eq_refl Hinv Hv); [|congruence].
    rewrite Hk. intros Hin. apply in_map_iff in Hin. destruct Hin as (y & Hy & Hyin).
    assert (existsb (has_pk k) (reservas db) = true); [|congruence].
    apply existsb_exists. exists y. split; [assumption|]. apply has_pk_true. assumption.
  - injection H as _ <-.
    apply (db_inv_append _ _ (set_pk (next_pk (reservas db)) r) db eq_refl Hinv).
    + exact Hv.
    + simpl. apply next_pk_fresh.
    + simpl. discriminate.
Qed.

Lemma db_update_inv (k : Z) (r : Reserva) (x : Exc + Reserva) (db db' : DB) :
  db_update k r db = (x, db') -> db_inv db -> db_inv db'.
Proof.
  unfold db_update. intros H Hinv.
  destruct (hora_fin r); [|injection H as _ <-; assumption].
  destruct (violates_unique_confirmed r _) eqn:Hv;
    injection H as _ <-; [assumption|].
  apply db_inv_replace; assumption.
Qed.

Lemma Model_save_inv (self : Reserva) (x : Exc + Reserva) (db db' : DB) :
  Model_save self db = (x, db') -> db_inv db -> db_inv db'.
Proof.
  unfold Model_save. destruct (pk self) as [k|].
  - destruct (existsb (has_pk k) (reservas db)).
    + apply db_update_inv.
    + apply db_insert_inv.
  - apply db_insert_inv.
Qed.

Lemma db_step_inv (db db' : DB) : db_step db db' -> db_inv db -> db_inv db'.
Proof.
  intros Hstep Hinv. destruct Hstep as [self x db db' H | q e db He | q db | cs db].
  - exact (Model_save_inv self x db db' H Hinv).
  - destruct Hinv as [Hu Hn Hp]. unfold queryset_update_estado. simpl.
    set (g := fun r : Reserva => if q r && is_confirmada r then set_estado e r else r).
    constructor; simpl.
    + intros c f h. simpl.
      pose proof (length_filter_map_le (confirmed_at c f h) g (reservas db)) as Hle.
      specialize (Hu c f h).
      enough (forall y, confirmed_at c f h (g y) = true -> confirmed_at c f h y = true)
        by (specialize (Hle H); lia).
      intros y. unfold g. destruct (q y && is_confirmada y); [|auto].
      unfold confirmed_at, is_confirmada. simpl.
      destruct He as [-> | ->]; simpl; discriminate.
    + rewrite map_map.
      replace (map (fun r => pk (g r)) (reservas db)) with (map pk (reservas db));
        [assumption|].
      apply map_ext. intros y. unfold g. destruct (q y && is_confirmada y); reflexivity.
    + intros r Hr. apply in_map_iff in Hr. destruct Hr as (y & <- & Hy).
      unfold g. destruct (q y && is_confirmada y); simpl; auto.
  - destruct Hinv as [Hu Hn Hp]. constructor; simpl.
    + intros c f h. simpl.
      pose proof (length_filter_filter (confirmed_at c f h)
                    (fun r => negb (q r)) (reservas db)).
      specialize (Hu c f h). lia.
    + apply NoDup_map_filter. assumption.
    + intros r Hr. apply filter_In in Hr. apply Hp. tauto.
  - destruct Hinv as [Hu Hn Hp]. constructor; assumption.
Qed.

Lemma reachable_inv (db : DB) : reachable db -> db_inv db.
Proof.
  induction 1 as [cs | db db' _ IH Hstep].
  - constructor; simpl.
    + intros c f h. simpl. lia.
    + constructor.
    + intros r [].
  - exact (db_step_inv db db' Hstep IH).
Qed.

(** The methods that write move the store along [db_step]. *)
Lemma save_reachable (self : Reserva) (db : DB) :
  reachable db -> reachable (snd (save self db)).
Proof.
  intros H. rewrite save_unfold.
  destruct (Model_save (save_defaults self) db) as [x db'] eqn:E. simpl.
  exact (reach_step db db' H (step_save _ x db db' E)).
Qed.

Lemma cancelar_reachable (hoy : date) (self : Reserva) (u : option Usuario) (db : DB) :
  reachable db -> reachable (snd (cancelar hoy self u db)).
Proof.
  intros H. unfold cancelar. destruct (puede_cancelar hoy self); [|exact H].
  unfold bind.
  match goal with |- context [save ?s db] =>
    pose proof (save_reachable s db H) as Hs; destruct (save s db) as [[e|s'] db'] end;
    exact Hs.
Qed.

Lemma same_slot_iff (a b : Reserva) :
  same_slot a b = true <->
  cancha_pk (cancha a) = cancha_pk (cancha b) /\
  fecha_reserva a = fecha_reserva b /\
  hora_inicio a = hora_inicio b.
Proof.
  unfold same_slot. rewrite !andb_true_iff, !Z.eqb_eq, time_eqb_eq. tauto.
Qed.

Lemma confirmed_at_own_slot (r : Reserva) :
  estado r = confirmada ->
  confirmed_at (cancha_pk (cancha r)) (fecha_reserva r) (hora_inicio r) r = true.
Proof.
  intros H. unfold confirmed_at.
  rewrite !andb_true_iff, !Z.eqb_eq, time_eqb_eq, is_confirmada_iff. auto.
Qed.

Lemma length_le_1_In {A} (l : list A) (a b : A) :
  (List.length l <= 1)%nat -> In a l -> In b l -> a = b.
Proof.
  destruct l as [|x [|y t]]; simpl; intros Hl Ha Hb.
  - destruct Ha.
  - destruct Ha as [<-|[]], Hb as [<-|[]]. reflexivity.
  - lia.
Qed.

(** Rows in another status do not block the slot: a new confirmed
    reservation is accepted as soon as no confirmed row has its court,
    date and start time. *)
Lemma save_nuevo_ok (db : DB) (nuevo : Reserva) :
  reachable db ->
  pk nuevo = None -> estado nuevo = confirmada ->
  (forall r, In r (reservas db) -> same_slot r nuevo = true -> estado r <> confirmada) ->
  exists nuevo' db',
    save nuevo db = (inr nuevo', db') /\
    In nuevo' (reservas db') /\
    estado nuevo' = confirmada /\
    same_slot nuevo' nuevo = true /\
    reachable db'.
Proof.
  intros Hreach Hpk He Hfree.
  destruct (save_defaults_fields nuevo) as (Dk & Dc & _ & Df & Dh & De & _).
  destruct (Model_save_ok (save_defaults nuevo) db (save_defaults_hora_fin nuevo))
    as (n' & db' & Hsave & Hin & _ & Hn').
  { intros rows Hv Hincl. unfold violates_unique_confirmed in Hv.
    apply andb_true_iff in Hv. destruct Hv as [_ Hex].
    apply existsb_exists in Hex. destruct Hex as (x & Hx & Hxs).
    apply andb_true_iff in Hxs. destruct Hxs as [Hxc Hxs].
    apply (Hfree x (Hincl x Hx)).
    - apply same_slot_iff. apply same_slot_iff in Hxs. rewrite Dc, Df, Dh in Hxs. exact Hxs.
    - apply is_confirmada_iff. exact Hxc. }
  exists n', db'. rewrite save_unfold. split; [exact Hsave|]. split; [exact Hin|].
  assert (Hsame : estado n' = estado (save_defaults nuevo) /\
                  same_slot n' (save_defaults nuevo) = true).
  { destruct Hn' as [->|(k & _ & ->)]; (split; [reflexivity|]);
      apply same_slot_iff; simpl; auto. }
  destruct Hsame as [Se Ss]. split; [congruence|]. split.
  - apply same_slot_iff. apply same_slot_iff in Ss. rewrite Dc, Df, Dh in Ss. exact Ss.
  - exact (reach_step db db' Hreach (step_save _ _ db db' Hsave)).
Qed.

(** C1. In every reachable store at most one confirmed reservation has
    a given court, date and start time. Reservations in another status do
    not count: once the confirmed reservation of a slot is cancelled, the
    store accepts a new confirmed reservation with the same court, date and
    start time. *)
Theorem unique_confirmed_reservation_reachable (db : DB) (Hreach : reachable db) :
  unique_confirmed_reservation db /\
  forall hoy self u,
    In self (reservas db) -> puede_cancelar hoy self = true ->
    exists self' db',
      cancelar hoy self u db = (inr (true, self'), db') /\
      estado self' = cancelada /\
      reachable db' /\
      forall nuevo,
        pk nuevo = None -> estado nuevo = confirmada -> same_slot nuevo self = true ->
        exists nuevo' db'',
          save nuevo db' = (inr nuevo', db'') /\
          In nuevo' (reservas db'') /\
          estado nuevo' = confirmada /\
          same_slot nuevo' self = true /\
          unique_confirmed_reservation db''.
Proof.
  pose proof (reachable_inv db Hreach) as [Hu Hn Hp].
  split; [exact Hu|].
  intros hoy self u Hin Hcan.
  destruct (cancelar_true hoy self u db Hcan)
    as (s' & db' & Hc & He & _ & Sc & Sf & Sh & Hin' & _ & Hrows).
  pose proof (cancelar_reachable hoy self u db Hreach) as Hreach'.
  rewrite Hc in Hreach'. simpl in Hreach'.
  exists s', db'. split; [exact Hc|]. split; [exact He|]. split; [exact Hreach'|].
  destruct (pk self) as [k|] eqn:Hk; [|exfalso; exact (Hp self Hin Hk)].
  assert (Hex : existsb (has_pk k) (reservas db) = true).
  { apply existsb_exists. exists self. split; [exact Hin|]. apply has_pk_true. exact Hk. }
  destruct (Hrows k eq_refl Hex) as [_ Hrows'].
  apply puede_cancelar_iff in Hcan. destruct Hcan as [Hconf _].
  intros nuevo Npk Ne Ns.
  destruct (save_nuevo_ok db' nuevo Hreach' Npk Ne) as (n' & db'' & Hs & Hi & Hne & Hns & Hr'').
  { intros r Hr Hrs Hre. rewrite Hrows' in Hr.
    apply In_replace_pk_inv in Hr. destruct Hr as [->|[Hr Hrk]]; [congruence|].
    assert (Hrself : same_slot r self = true).
    { apply same_slot_iff. apply same_slot_iff in Hrs. apply same_slot_iff in Ns.
      destruct Hrs as (? & ? & ?), Ns as (? & ? & ?). repeat split; congruence. }
    apply same_slot_iff in Hrself. destruct Hrself as (Rc & Rf & Rh).
    assert (r = self).
    { apply (length_le_1_In _ r self
               (Hu (cancha_pk (cancha self)) (fecha_reserva self) (hora_inicio self))).
      - apply filter_In. split; [exact Hr|].
        rewrite <- Rc, <- Rf, <- Rh. apply confirmed_at_own_slot. exact Hre.
      - apply filter_In. split; [exact Hin|]. apply confirmed_at_own_slot. exact Hconf. }
    subst r. assert (has_pk k self = true) by (apply has_pk_true; exact Hk). congruence. }
  exists n', db''. split; [exact Hs|]. split; [exact Hi|]. split; [exact Hne|]. split.
  - apply same_slot_iff. apply same_slot_iff in Hns. apply same_slot_iff in Ns.
    destruct Hns as (? & ? & ?), Ns as (? & ? & ?). repeat split; congruence.
  - exact (inv_unique db'' (reachable_inv db'' Hr'')).
Qed.

Lemma db_una_eq : db_una = mk_db [cancha_central; cancha_cerrada] [reserva_una].
Proof. reflexivity. Qed.

Lemma unique_confirmed_reservation_reachable_witness :
  reachable db_una /\
  unique_confirmed_reservation db_una /\
  In reserva_una (reservas db_una) /\
  puede_cancelar 100 reserva_una = true /\
  exists self' db',
    cancelar 100 reserva_una None db_una = (inr (true, self'), db') /\
    estado self' = cancelada /\
    reachable db' /\
    forall nuevo,
      pk nuevo = None -> estado nuevo = confirmada -> same_slot nuevo reserva_una = true ->
      exists nuevo' db'',
        save nuevo db' = (inr nuevo', db'') /\
        In nuevo' (reservas db'') /\
        estado nuevo' = confirmada /\
        same_slot nuevo' reserva_una = true /\
        unique_confirmed_reservation db''.
Proof.
  assert (Hreach : reachable db_una).
  { unfold db_una, objects_create. apply save_reachable. constructor. }
  assert (Hin : In reserva_una (reservas db_una)) by (left; reflexivity).
  split; [exact Hreach|].
  split; [exact (proj1 (unique_confirmed_reservation_reachable db_una Hreach))|].
  split; [exact Hin|]. split; [reflexivity|].
  exact (proj2 (unique_confirmed_reservation_reachable db_una Hreach)
               100 reserva_una None Hin eq_refl).
Defined.

(** ** Defaults of the writer *)

Lemma Model_save_inr (self r : Reserva) (db db' : DB) :
  Model_save self db = (inr r, db') ->
  In r (reservas db') /\ (r = self \/ exists k, r = set_pk k self).
Proof.
  unfold Model_save, db_update, db_insert. intros H.
  destruct (hora_fin self) as [e|].
  - destruct (pk self) as [k|] eqn:Hk.
    + destruct (existsb (has_pk k) (reservas db)) eqn:Hex.
      * destruct (violates_unique_confirmed self _); [discriminate|].
        injection H as <- <-. simpl. split; [|auto].
        rewrite (set_pk_same k self Hk). apply In_replace_pk. exact Hex.
      * destruct (violates_unique_confirmed self _); [discriminate|].
        injection H as <- <-. simpl. split; [|auto].
        apply in_or_app. right. left. reflexivity.
    + destruct (violates_unique_confirmed self _); [discriminate|].
      injection H as <- <-. simpl. split; [|eauto].
      apply in_or_app. right. left. reflexivity.
  - destruct (pk self) as [k|]; [destruct (existsb _ _)|]; discriminate.
Qed.

Lemma ReservaForm_save_eq (usuario : Z) (c : Cancha) (fecha : date) (inicio : time)
    (nota : option string) (db : DB) :
  ReservaForm_save usuario c fecha inicio nota db =
  objects_create (mk_kwargs c usuario fecha inicio
                            (Some (time_hm ((hour inicio + 1) mod 24) (minute inicio)))
                            None nota None) db.
Proof. reflexivity. Qed.

(** C8 (amended). A reservation created without an explicit status is
    stored with status confirmed. Its stored price is the tariff of the
    court when no price is passed, and also when the price passed is 0;
    a price passed that is not 0 is stored unchanged. *)
Theorem objects_create_defaults (kw : ReservaKwargs) (db db' : DB) (r : Reserva)
    (Hestado : kw_estado kw = None)
    (Hok : objects_create kw db = (inr r, db')) :
  In r (reservas db') /\
  estado r = confirmada /\
  precio_total r = match kw_precio_total kw with
                   | Some p => if p =? 0 then tarifa_hora (kw_cancha kw) else p
                   | None => tarifa_hora (kw_cancha kw)
                   end.
Proof.
  unfold objects_create in Hok. rewrite save_unfold in Hok.
  apply Model_save_inr in Hok. destruct Hok as [Hin Hr].
  split; [exact Hin|].
  assert (He : estado r = estado (save_defaults (Reserva_init kw)) /\
               precio_total r = precio_total (save_defaults (Reserva_init kw))).
  { destruct Hr as [->|[k ->]]; split; reflexivity. }
  destruct He as [-> ->].
  destruct (save_defaults_fields (Reserva_init kw)) as (_ & _ & _ & _ & _ & De & _).
  rewrite De. destruct kw as [c j f h hf e n p]. simpl in Hestado. subst e.
  split; [reflexivity|].
  unfold save_defaults, Reserva_init. simpl.
  destruct p as [p|]; simpl.
  - destruct (p =? 0) eqn:E; simpl; destruct hf; reflexivity.
  - destruct hf; reflexivity.
Qed.

Lemma objects_create_defaults_witness :
  exists r db',
    kw_estado (kw_precio (Some 5000)) = None /\
    objects_create (kw_precio (Some 5000)) db_vacia = (inr r, db') /\
    In r (reservas db') /\ estado r = confirmada /\ precio_total r = 5000.
Proof.
  eexists _, _. split; [reflexivity|]. split; [vm_compute; reflexivity|].
  exact (objects_create_defaults (kw_precio (Some 5000)) db_vacia _ _ eq_refl eq_refl).
Defined.

(** C8 as stated fails for an explicit price of 0: on the court Central
    (tariff 80.00) the reservation created with [precio_total = 0] is
    stored with the price 80.00. *)
Lemma objects_create_precio_cero :
  exists r db',
    kw_precio_total (kw_precio (Some 0)) = Some 0 /\
    objects_create (kw_precio (Some 0)) db_vacia = (inr r, db') /\
    In r (reservas db') /\
    precio_total r = 8000 /\ precio_total r <> 0.
Proof.
  eexists _, _. split; [reflexivity|]. split; [vm_compute; reflexivity|].
  split; [left; reflexivity|]. split; [reflexivity|]. simpl. discriminate.
Qed.

(** ** The defaulted end time *)

(** The end time [Reserva.save] fills in is start + 1 hour for a start
    time on a whole minute. *)
Lemma save_defaults_hora_fin_eq (self : Reserva) :
  hora_fin self = None ->
  second (hora_inicio self) = 0 -> microsecond (hora_inicio self) = 0 ->
  hora_fin (save_defaults self) = Some (spec_computeEnd (hora_inicio self)).
Proof.
  intros Hf Hs Hu. unfold save_defaults, spec_computeEnd, time_hm.
  destruct (precio_total self =? 0); simpl; rewrite Hf; simpl; rewrite Hs, Hu; reflexivity.
Qed.

(** The end time [esta_disponible] assumes is [time(hour=h+1)]. *)
Lemma esta_disponible_default (self : Cancha) (fecha : date) (inicio : time) (db : DB) :
  esta_disponible self fecha inicio None db =
  esta_disponible self fecha inicio (Some (time_h ((hour inicio + 1) mod 24))) db.
Proof. reflexivity. Qed.

Lemma time_h_computeEnd_iff (inicio : time) :
  time_h ((hour inicio + 1) mod 24) = spec_computeEnd inicio <->
  minute inicio = 0 /\ second inicio = 0 /\ microsecond inicio = 0.
Proof.
  unfold time_h, spec_computeEnd. split.
  - intros H. injection H as -> -> ->. auto.
  - intros (-> & -> & ->). reflexivity.
Qed.

(** C7. The availability check drops the minutes of the start time
    when it defaults the end time. On a court with a confirmed reservation
    11:00-12:00, a request starting at 10:30 is checked against
    [10:30, 11:00) and found free, whereas [10:30, 11:30), the interval of
    start + 1 hour, is taken; the quick-book view then stores the
    reservation 10:30-11:30 on top of the one at 11:00. *)
Theorem esta_disponible_default_drops_minute :
  let inicio := time_hm 10 30 in
  spec_computeEnd inicio = time_hm 11 30 /\
  esta_disponible cancha_central 101 inicio None db_once =
    esta_disponible cancha_central 101 inicio (Some (time_h 11)) db_once /\
  esta_disponible cancha_central 101 inicio None db_once = (inr true, db_once) /\
  esta_disponible cancha_central 101 inicio (Some (spec_computeEnd inicio)) db_once =
    (inr false, db_once) /\
  exists r,
    reserva_rapida (post_rapida 7 101 10 30) db_once =
      (inr json_ok, mk_db (canchas db_once) (reservas db_once ++ [r])) /\
    estado r = confirmada /\
    hora_inicio r = time_hm 10 30 /\ hora_fin r = Some (time_hm 11 30).
Proof.
  intros inicio. repeat split.
  eexists. split; [vm_compute; reflexivity|]. repeat split.
Qed.

(** ** Slot listing against the interval check *)

Lemma time_ltb_time_h (a b : Z) : time_ltb (time_h a) (time_h b) = (a <? b).
Proof.
  unfold time_ltb, time_h. simpl. rewrite andb_false_r, orb_false_r. reflexivity.
Qed.

Lemma time_h_inj (a b : Z) : time_h a = time_h b -> a = b.
Proof. unfold time_h. congruence. Qed.

Lemma In_range (a b k : Z) : a <= k < b -> In k (range a b).
Proof.
  intros H. unfold range. apply in_map_iff. exists (Z.to_nat (k - a)). split.
  - lia.
  - apply in_seq. lia.
Qed.

Lemma In_insert_by_hora_inicio (x r : Reserva) (l : list Reserva) :
  In x (insert_by_hora_inicio r l) <-> x = r \/ In x l.
Proof.
  induction l as [|y t IH]; simpl.
  - intuition congruence.
  - destruct (time_leb (hora_inicio r) (hora_inicio y)); simpl.
    + intuition congruence.
    + rewrite IH. intuition congruence.
Qed.

Lemma In_order_by_hora_inicio (x : Reserva) (l : list Reserva) :
  In x (order_by_hora_inicio l) <-> In x l.
Proof.
  unfold order_by_hora_inicio. induction l as [|y t IH]; simpl; [tauto|].
  rewrite In_insert_by_hora_inicio, IH. intuition congruence.
Qed.

(** C9 (amended). When every confirmed reservation of the court on
    the date starts on a whole hour and lasts one hour, an operating-window
    slot is listed by [get_horarios_disponibles] exactly when
    [esta_disponible] answers true for the one-hour interval of the slot. *)
Theorem horarios_disponibles_iff_esta_disponible (self : Cancha) (fecha : date)
    (db : DB) (k : Z)
    (Hk : 8 <= k < 22)
    (Hwhole : forall r, In r (reservas db) ->
                        cancha_pk (cancha r) = cancha_pk self ->
                        fecha_reserva r = fecha ->
                        estado r = confirmada ->
                        whole_hour r) :
  exists slots b,
    get_horarios_disponibles self fecha db = (inr slots, db) /\
    esta_disponible self fecha (time_h k) None db = (inr b, db) /\
    esta_disponible self fecha (time_h k) (Some (time_h (k + 1))) db = (inr b, db) /\
    (In (time_h k) slots <-> b = true).
Proof.
  assert (Hmod : (k + 1) mod 24 = k + 1) by (apply Z.mod_small; lia).
  unfold get_horarios_disponibles, esta_disponible.
  destruct (activa self) eqn:Ha; cbn [negb].
  2:{ exists [], false. repeat split; simpl; try tauto; discriminate. }
  unfold get_reservas_del_dia, bind, reservas_filter, ret.
  change (hour (time_h k)) with k. rewrite Hmod.
  eexists _, _. split; [reflexivity|]. split; [reflexivity|]. split; [reflexivity|].
  rewrite filter_In, !negb_true_iff, exists_false_iff, filter_nil_iff.
  split.
  - intros [_ Hno] r Hr.
    destruct (cancha_pk (cancha r) =? cancha_pk self) eqn:Hc; [|reflexivity].
    destruct (fecha_reserva r =? fecha) eqn:Hf; [|reflexivity].
    destruct (is_confirmada r) eqn:He; [|reflexivity]. simpl.
    rewrite Z.eqb_eq in Hc, Hf. pose proof He as He'. apply is_confirmada_iff in He'.
    destruct (Hwhole r Hr Hc Hf He') as (h & Hh & Hi & Hfin).
    rewrite Hi, Hfin, !time_ltb_time_h.
    destruct (Z.eq_dec h k) as [->|Hne].
    + exfalso. assert (Hex : existsb (time_eqb (time_h k))
        (map hora_inicio (order_by_hora_inicio
           (filter (fun r => (cancha_pk (cancha r) =? cancha_pk self) &&
                             (fecha_reserva r =? fecha) && is_confirmada r)
                   (reservas db)))) = true); [|congruence].
      apply existsb_exists. exists (time_h k). split; [|apply time_eqb_refl].
      rewrite <- Hi. apply in_map. apply In_order_by_hora_inicio. apply filter_In.
      split; [exact Hr|]. rewrite !andb_true_iff, !Z.eqb_eq. auto.
    + apply andb_false_iff. destruct (Z_lt_le_dec h k).
      * right. apply Z.ltb_ge. lia.
      * left. apply Z.ltb_ge. lia.
  - intros Hno. split.
    + apply in_map. apply In_range. exact Hk.
    + apply not_true_is_false. intros Hex. apply existsb_exists in Hex.
      destruct Hex as (t & Ht & Heq). apply time_eqb_eq in Heq. subst t.
      apply in_map_iff in Ht. destruct Ht as (r & Hi & Hr).
      apply (proj1 (In_order_by_hora_inicio _ _)) in Hr.
      apply filter_In in Hr. destruct Hr as [Hr Hp].
      pose proof (Hno r Hr) as Hconf. rewrite Hp in Hconf. simpl in Hconf.
      rewrite !andb_true_iff, !Z.eqb_eq, is_confirmada_iff in Hp.
      destruct Hp as [[Hc Hf] He].
      destruct (Hwhole r Hr Hc Hf He) as (h & Hh & Hi' & Hfin).
      rewrite Hi' in Hi. apply time_h_inj in Hi. subst h.
      rewrite Hi', Hfin, !time_ltb_time_h in Hconf.
      apply andb_false_iff in Hconf. destruct Hconf as [H|H]; apply Z.ltb_ge in H; lia.
Qed.

Lemma horarios_disponibles_iff_esta_disponible_witness :
  8 <= 10 < 22 /\
  (forall r, In r (reservas db_una) ->
             cancha_pk (cancha r) = cancha_pk cancha_central ->
             fecha_reserva r = 101 ->
             estado r = confirmada ->
             whole_hour r) /\
  exists slots b,
    get_horarios_disponibles cancha_central 101 db_una = (inr slots, db_una) /\
    esta_disponible cancha_central 101 (time_h 10) None db_una = (inr b, db_una) /\
    esta_disponible cancha_central 101 (time_h 10) (Some (time_h (10 + 1))) db_una =
      (inr b, db_una) /\
    (In (time_h 10) slots <-> b = true).
Proof.
  assert (Hk : 8 <= 10 < 22) by lia.
  assert (Hwhole : forall r, In r (reservas db_una) ->
                             cancha_pk (cancha r) = cancha_pk cancha_central ->
                             fecha_reserva r = 101 ->
                             estado r = confirmada ->
                             whole_hour r).
  { intros r [<-|[]] _ _ _. exists 10. repeat split; lia. }
  split; [exact Hk|]. split; [exact Hwhole|].
  exact (horarios_disponibles_iff_esta_disponible cancha_central 101 db_una 10 Hk Hwhole).
Defined.

(** ** The quick-book view *)

Lemma rapida_parse_db (request : Request) (db : DB) :
  snd (rapida_parse request db) = db.
Proof.
  unfold rapida_parse, bind, canchas_get, of_option, ret, raise.
  destruct (find _ (canchas db)); [|reflexivity].
  destruct (POST_fecha request); [|reflexivity].
  destruct (POST_hora request); reflexivity.
Qed.

Lemma esta_disponible_db (self : Cancha) (fecha : date) (inicio : time)
    (fin : option time) (db : DB) :
  exists b, esta_disponible self fecha inicio fin db = (inr b, db).
Proof.
  unfold esta_disponible. destruct (activa self); cbn [negb].
  - unfold bind, reservas_filter, ret. eexists. reflexivity.
  - exists false. reflexivity.
Qed.

(** The store after [reserva_rapida] is the store before, or the store
    after the [save] of one new instance. *)
Lemma reserva_rapida_db (request : Request) (db : DB) :
  snd (reserva_rapida request db) = db \/
  exists self, snd (reserva_rapida request db) = snd (save self db).
Proof.
  unfold reserva_rapida. destruct (method request); [left; reflexivity|].
  unfold try_except, bind.
  pose proof (rapida_parse_db request db) as Hp.
  destruct (rapida_parse request db) as [[e|[[c f] i]] db1]; simpl in Hp; subst db1;
    [left; reflexivity|].
  destruct (esta_disponible_db c f i None db) as [b ->].
  destruct b; [|left; reflexivity].
  unfold rapida_create, objects_create.
  right.
  exists (Reserva_init (mk_kwargs c (user request) f i None None None
                                  (Some (tarifa_hora c)))).
  destruct (save _ db) as [[e|r] db2]; reflexivity.
Qed.

Lemma reserva_rapida_reachable (request : Request) (db : DB) :
  reachable db -> reachable (snd (reserva_rapida request db)).
Proof.
  intros H. destruct (reserva_rapida_db request db) as [-> | [self ->]].
  - exact H.
  - apply save_reachable. exact H.
Qed.

(** C9 as stated fails on a reachable store: after the quick-book
    request for 10:30 on an empty day, the slot 10:00 is listed by
    [get_horarios_disponibles], yet [esta_disponible] answers false for
    10:00-11:00, which overlaps the reservation 10:30-11:30. *)
Lemma horarios_disponibles_not_esta_disponible :
  reachable db_media /\
  exists slots,
    get_horarios_disponibles cancha_central 101 db_media = (inr slots, db_media) /\
    In (time_h 10) slots /\
    esta_disponible cancha_central 101 (time_h 10) None db_media = (inr false, db_media) /\
    esta_disponible cancha_central 101 (time_h 10) (Some (time_h 11)) db_media =
      (inr false, db_media).
Proof.
  split.
  - unfold db_media. apply reserva_rapida_reachable. constructor.
  - eexists. split; [vm_compute; reflexivity|].
    split; [right; right; left; reflexivity|]. split; reflexivity.
Qed.

(** On an active court and a free slot the quick-book view stores the
    reservation, whatever the date and the start time are. *)
Lemma reserva_rapida_free_slot (usuario cid : Z) (c : Cancha) (fecha : date)
    (h m : Z) (db : DB) :
  find (fun c' => (cancha_pk c' =? cid) && activa c') (canchas db) = Some c ->
  esta_disponible c fecha (time_hm h m) None db = (inr true, db) ->
  (forall x, In x (reservas db) -> estado x = confirmada ->
             cancha_pk (cancha x) = cancha_pk c -> fecha_reserva x = fecha ->
             hora_inicio x <> time_hm h m) ->
  exists r,
    reserva_rapida (mk_request POST usuario (Some cid) (Some fecha) (Some (h, m))) db =
      (inr json_ok, mk_db (canchas db) (reservas db ++ [r])) /\
    r = mk_reserva (Some (next_pk (reservas db))) c usuario fecha (time_hm h m)
                   (Some (time_hm ((h + 1) mod 24) m)) confirmada None (tarifa_hora c).
Proof.
  intros Hfind Hlibre Hfree.
  unfold reserva_rapida, try_except, bind, rapida_parse, canchas_get, bind. simpl.
  rewrite Hfind. simpl. rewrite Hlibre.
  unfold rapida_create, objects_create. rewrite save_unfold.
  set (self := save_defaults _).
  assert (Hself : self = mk_reserva None c usuario fecha (time_hm h m)
                           (Some (time_hm ((h + 1) mod 24) m)) confirmada None
                           (tarifa_hora c)).
  { unfold self, save_defaults, Reserva_init. simpl.
    destruct (tarifa_hora c =? 0) eqn:E; simpl; [|reflexivity].
    apply Z.eqb_eq in E. rewrite E. reflexivity. }
  rewrite Hself. unfold Model_save, db_insert. simpl.
  destruct (violates_unique_confirmed _ (reservas db)) eqn:Hv.
  - exfalso. unfold violates_unique_confirmed in Hv. simpl in Hv.
    apply existsb_exists in Hv. destruct Hv as (x & Hx & Hxs).
    apply andb_true_iff in Hxs. destruct Hxs as [Hxc Hxs].
    apply same_slot_iff in Hxs. simpl in Hxs. destruct Hxs as (Hc & Hf & Hh).
    apply is_confirmada_iff in Hxc. exact (Hfree x Hx Hxc Hc Hf Hh).
  - eexists. split; reflexivity.
Qed.

(** C10. The quick-book view stores a confirmed reservation for every
    date and every start time on a free active court: it consults
    [esta_disponible] only. In particular it stores a reservation dated
    before today, which [ReservaForm.clean_fecha_reserva] and
    [Reserva.clean] reject, and a reservation starting at 03:15, which
    [ReservaForm.clean_hora_inicio] rejects. *)
Theorem reserva_rapida_sin_validaciones :
  (forall usuario fecha h m, exists r,
     reserva_rapida (post_rapida usuario fecha h m) db_vacia =
       (inr json_ok, mk_db (canchas db_vacia) [r]) /\
     estado r = confirmada /\ fecha_reserva r = fecha /\ hora_inicio r = time_hm h m) /\
  (exists hoy r db',
     reserva_rapida (post_rapida 7 50 10 0) db_vacia = (inr json_ok, db') /\
     In r (reservas db') /\ estado r = confirmada /\ fecha_reserva r < hoy /\
     clean_fecha_reserva hoy (Some (fecha_reserva r)) =
       inl (ValidationError "No se pueden hacer reservas para fechas pasadas.") /\
     fst (clean hoy r db_vacia) =
       inl (ValidationError "No se pueden hacer reservas para fechas pasadas.")) /\
  (exists hoy r db',
     reserva_rapida (post_rapida 7 101 3 15) db_vacia = (inr json_ok, db') /\
     In r (reservas db') /\ estado r = confirmada /\ hoy <= fecha_reserva r /\
     hour (hora_inicio r) < 8 /\
     clean_hora_inicio (Some (hora_inicio r)) =
       inl (ValidationError "El horario de funcionamiento es de 8:00 AM a 10:00 PM.")).
Proof.
  split; [|split].
  - intros usuario fecha h m.
    destruct (reserva_rapida_free_slot usuario 1 cancha_central fecha h m db_vacia)
      as (r & Hr & ->); try reflexivity.
    + intros x [].
    + eexists. split; [exact Hr|]. repeat split.
  - exists 100. eexists _, _. split; [vm_compute; reflexivity|].
    split; [left; reflexivity|]. repeat split.
  - exists 100. eexists _, _. split; [vm_compute; reflexivity|].
    split; [left; reflexivity|]. repeat split. simpl. lia.
Qed.

(** C5. With today = 100, [ReservaForm.clean_fecha_reserva] rejects
    the date 99 and [ReservaForm.clean_hora_inicio] rejects 23:00; the
    quick-book view accepts both requests and stores a confirmed
    reservation for each, the second one ending at 00:00. *)
Theorem reserva_rapida_fecha_pasada :
  clean_fecha_reserva 100 (Some 99) =
    inl (ValidationError "No se pueden hacer reservas para fechas pasadas.") /\
  (exists r,
     reserva_rapida (post_rapida 7 99 10 0) db_vacia =
       (inr json_ok, mk_db (canchas db_vacia) [r]) /\
     estado r = confirmada /\ fecha_reserva r = 99) /\
  clean_hora_inicio (Some (time_hm 23 0)) =
    inl (ValidationError "El horario de funcionamiento es de 8:00 AM a 10:00 PM.") /\
  (exists r,
     reserva_rapida (post_rapida 7 101 23 0) db_vacia =
       (inr json_ok, mk_db (canchas db_vacia) [r]) /\
     estado r = confirmada /\ hora_inicio r = time_hm 23 0 /\
     hora_fin r = Some (time_h 0)).
Proof.
  split; [reflexivity|]. split.
  - eexists. split; [vm_compute; reflexivity|]. split; reflexivity.
  - split; [reflexivity|].
    eexists. split; [vm_compute; reflexivity|]. repeat split.
Qed.

(** ** Concurrent quick-book requests *)

Lemma set_nth_length {A} (i : nat) (x : A) (l : list A) :
  List.length (set_nth i x l) = List.length l.
Proof.
  revert i. induction l as [|y t IH]; intros [|i]; simpl; auto.
Qed.

Lemma set_nth_same {A} (i : nat) (x : A) (l : list A) :
  nth_error l i = Some x -> set_nth i x l = l.
Proof.
  revert i. induction l as [|y t IH]; intros [|i]; simpl; try discriminate.
  - intros H. injection H as ->. reflexivity.
  - intros H. rewrite (IH i H). reflexivity.
Qed.

Lemma set_nth_Forall {A} (P : A -> Prop) (i : nat) (x : A) (l : list A) :
  Forall P l -> P x -> Forall P (set_nth i x l).
Proof.
  intros Hl Hx. revert i. induction Hl as [|y t Hy Ht IH]; intros [|i]; simpl;
    constructor; auto.
Qed.

Lemma set_nth_count_same {A} (p : A -> bool) (i : nat) (x y : A) (l : list A) :
  nth_error l i = Some y -> p y = p x ->
  List.length (filter p (set_nth i x l)) = List.length (filter p l).
Proof.
  revert i. induction l as [|z t IH]; intros [|i]; simpl; try discriminate.
  - intros H E. injection H as ->. rewrite E. destruct (p x); reflexivity.
  - intros H E. destruct (p z); simpl; rewrite (IH i H E); reflexivity.
Qed.

Lemma set_nth_count_first {A} (p : A -> bool) (i : nat) (x y : A) (l : list A) :
  nth_error l i = Some y -> Forall (fun t => p t = false) l -> p x = true ->
  List.length (filter p (set_nth i x l)) = 1%nat.
Proof.
  intros Hn Hall Hx.
  assert (Hnil : forall l', Forall (fun t => p t = false) l' -> filter p l' = []).
  { intros l' H. apply filter_nil_iff. apply Forall_forall. exact H. }
  revert i Hn. induction Hall as [|z t Hz Ht IH]; intros [|i]; simpl; try discriminate.
  - intros _. rewrite Hx. simpl. rewrite (Hnil t Ht). reflexivity.
  - intros Hn. rewrite Hz. apply IH. exact Hn.
Qed.

(** The statement a request sends last is the INSERT of this row. *)
Lemma rapida_create_insert (cid : Z) (c : Cancha) (fecha : date) (h m u : Z) (db : DB) :
  rapida_create (req_slot cid fecha h m u) c fecha (time_hm h m) db =
  db_insert (mk_reserva None c u fecha (time_hm h m)
                        (Some (time_hm ((h + 1) mod 24) m)) confirmada None
                        (tarifa_hora c)) db.
Proof.
  unfold rapida_create, objects_create. rewrite save_unfold.
  set (self := save_defaults _).
  assert (Hself : self = mk_reserva None c u fecha (time_hm h m)
                           (Some (time_hm ((h + 1) mod 24) m)) confirmada None
                           (tarifa_hora c)).
  { unfold self, save_defaults, Reserva_init. simpl.
    destruct (tarifa_hora c =? 0) eqn:E; simpl; [|reflexivity].
    apply Z.eqb_eq in E. rewrite E. reflexivity. }
  rewrite Hself. reflexivity.
Qed.

(** [esta_disponible] reads the table of reservations only. *)
Lemma esta_disponible_ext (self : Cancha) (fecha : date) (inicio : time)
    (fin : option time) (db1 db2 : DB) :
  reservas db1 = reservas db2 ->
  fst (esta_disponible self fecha inicio fin db1) =
  fst (esta_disponible self fecha inicio fin db2).
Proof.
  intros H. unfold esta_disponible. destruct (activa self); simpl; [|reflexivity].
  unfold bind, reservas_filter, ret. simpl. rewrite H. reflexivity.
Qed.

Lemma is_ok_false_of_not_done (l : list Thread) :
  Forall (fun t => is_done t = false) l -> Forall (fun t => is_ok t = false) l.
Proof.
  apply Forall_impl. intros t. unfold is_done, is_ok.
  destruct (th_pc t); congruence.
Qed.

Lemma sys_step_length (i : nat) (s : Sys) :
  List.length (sys_threads (sys_step i s)) = List.length (sys_threads s).
Proof.
  unfold sys_step. destruct (nth_error (sys_threads s) i) as [t|]; [|reflexivity].
  destruct (thread_step t (sys_db s)). simpl. apply set_nth_length.
Qed.

Lemma run_length (sched : list nat) (s : Sys) :
  List.length (sys_threads (run sched s)) = List.length (sys_threads s).
Proof.
  unfold run. revert s. induction sched as [|i sched IH]; intros s; simpl.
  - reflexivity.
  - rewrite IH. apply sys_step_length.
Qed.

Lemma nth_error_set_nth_eq {A} (i : nat) (x y : A) (l : list A) :
  nth_error l i = Some y -> nth_error (set_nth i x l) i = Some x.
Proof.
  revert i. induction l as [|z t IH]; intros [|i]; simpl; try discriminate.
  - reflexivity.
  - apply IH.
Qed.

Lemma nth_error_set_nth_neq {A} (i j : nat) (x : A) (l : list A) :
  i <> j -> nth_error (set_nth j x l) i = nth_error l i.
Proof.
  revert i j. induction l as [|z t IH]; intros [|i] [|j] H; simpl; try reflexivity.
  - congruence.
  - apply IH. congruence.
Qed.

Lemma sys_step_other (i j : nat) (s : Sys) :
  i <> j -> nth_error (sys_threads (sys_step j s)) i = nth_error (sys_threads s) i.
Proof.
  intros H. unfold sys_step.
  destruct (nth_error (sys_threads s) j) as [t|]; [|reflexivity].
  destruct (thread_step t (sys_db s)). simpl. apply nth_error_set_nth_neq. exact H.
Qed.

Lemma sys_step_self (i : nat) (s : Sys) (t : Thread) :
  nth_error (sys_threads s) i = Some t ->
  sys_db (sys_step i s) = snd (thread_step t (sys_db s)) /\
  nth_error (sys_threads (sys_step i s)) i =
  Some (mk_thread (th_request t) (fst (thread_step t (sys_db s)))).
Proof.
  intros H. unfold sys_step. rewrite H.
  destruct (thread_step t (sys_db s)) as [pc' db']. simpl.
  split; [reflexivity|]. apply (nth_error_set_nth_eq i _ t). exact H.
Qed.

(** A request that has answered keeps its answer. *)
Lemma sys_step_done (i j : nat) (s : Sys) (t : Thread) :
  nth_error (sys_threads s) i = Some t -> is_done t = true ->
  nth_error (sys_threads (sys_step j s)) i = Some t.
Proof.
  intros H Hd. destruct (Nat.eq_dec i j) as [<-|Hij].
  - rewrite (proj2 (sys_step_self i s t H)). f_equal.
    destruct t as [req pc]. unfold is_done in Hd. simpl in *.
    destruct pc; try discriminate. reflexivity.
  - rewrite sys_step_other by exact Hij. exact H.
Qed.

Lemma run_done (sched : list nat) (i : nat) (s : Sys) (t : Thread) :
  nth_error (sys_threads s) i = Some t -> is_done t = true ->
  nth_error (sys_threads (run sched s)) i = Some t.
Proof.
  unfold run. revert s. induction sched as [|j sched IH]; intros s H Hd; simpl.
  - exact H.
  - apply IH; [|exact Hd]. apply sys_step_done; assumption.
Qed.

Lemma run_app (a b : list nat) (s : Sys) : run (a ++ b) s = run b (run a s).
Proof. unfold run. apply fold_left_app. Qed.

(** The statement with which a request answers. *)
Lemma answer_step (sched : list nat) (i : nat) (s : Sys) (t0 t : Thread)
    (resp : JsonResponse) :
  nth_error (sys_threads s) i = Some t0 -> is_done t0 = false ->
  nth_error (sys_threads (run sched s)) i = Some t -> th_pc t = PcDone resp ->
  exists antes despues t1,
    sched = (antes ++ i :: despues)%list /\
    nth_error (sys_threads (run antes s)) i = Some t1 /\
    is_done t1 = false /\
    fst (thread_step t1 (sys_db (run antes s))) = PcDone resp.
Proof.
  revert s t0. induction sched as [|j sched IH]; intros s t0 H0 Hnd Ht Hpc.
  - unfold run in Ht. simpl in Ht. rewrite H0 in Ht. injection Ht as ->.
    unfold is_done in Hnd. rewrite Hpc in Hnd. discriminate.
  - change (run (j :: sched) s) with (run sched (sys_step j s)) in Ht.
    destruct (Nat.eq_dec i j) as [<-|Hij].
    + pose proof (proj2 (sys_step_self i s t0 H0)) as Hself.
      destruct (is_done (mk_thread (th_request t0) (fst (thread_step t0 (sys_db s)))))
        eqn:Hd.
      * rewrite (run_done sched i _ _ Hself Hd) in Ht. injection Ht as <-.
        exists [], sched, t0. simpl in Hpc. auto.
      * destruct (IH _ _ Hself Hd Ht Hpc) as (antes & despues & t1 & -> & H1 & Hd1 & Hs).
        exists (i :: antes), despues, t1. auto.
    + rewrite <- (sys_step_other i j s Hij) in H0.
      destruct (IH _ _ H0 Hnd Ht Hpc) as (antes & despues & t1 & -> & H1 & Hd1 & Hs).
      exists (j :: antes), despues, t1. auto.
Qed.

Section Race.
Variables (db0 : DB) (cid : Z) (c : Cancha) (fecha : date) (h m : Z).

(** The court exists and is active, the slot is free. *)
Hypothesis Hfind :
  find (fun c' => (cancha_pk c' =? cid) && activa c') (canchas db0) = Some c.
Hypothesis Hlibre :
  esta_disponible c fecha (time_hm h m) None db0 = (inr true, db0).
Hypothesis Hfree :
  forall x, In x (reservas db0) -> estado x = confirmada ->
            cancha_pk (cancha x) = cancha_pk c -> fecha_reserva x = fecha ->
            hora_inicio x <> time_hm h m.

Lemma nueva_not_violates (u : Z) :
  violates_unique_confirmed (nueva_reserva c fecha h m u) (reservas db0) = false.
Proof.
  apply not_true_is_false. intros Hv.
  unfold violates_unique_confirmed in Hv. simpl in Hv.
  apply existsb_exists in Hv. destruct Hv as (x & Hx & Hxs).
  apply andb_true_iff in Hxs. destruct Hxs as [Hxc Hxs].
  apply same_slot_iff in Hxs. simpl in Hxs. destruct Hxs as (Hc & Hf & Hh).
  apply is_confirmada_iff in Hxc. exact (Hfree x Hx Hxc Hc Hf Hh).
Qed.

Lemma nueva_violates (u : Z) (r : Reserva) (rows : list Reserva) :
  slot_row c fecha h m r -> In r rows ->
  violates_unique_confirmed (nueva_reserva c fecha h m u) rows = true.
Proof.
  intros (He & Hc & Hf & Hh) Hin. unfold violates_unique_confirmed. simpl.
  apply existsb_exists. exists r. split; [exact Hin|].
  apply andb_true_iff. split; [apply is_confirmada_iff; exact He|].
  apply same_slot_iff. simpl. rewrite Hc. auto.
Qed.

Lemma race_init (usuarios : list Z) :
  race_inv db0 cid c fecha h m (spawn (map (req_slot cid fecha h m) usuarios) db0).
Proof.
  unfold race_inv, spawn. simpl. split; [reflexivity|]. split.
  - apply Forall_forall. intros t Ht. apply in_map_iff in Ht.
    destruct Ht as (r & <- & Hr). apply in_map_iff in Hr. destruct Hr as (u & <- & _).
    split; simpl; eauto.
  - left. split; [reflexivity|]. apply Forall_forall. intros t Ht.
    apply in_map_iff in Ht. destruct Ht as (r & <- & _). reflexivity.
Qed.

Lemma race_step (i : nat) (s : Sys) :
  race_inv db0 cid c fecha h m s -> race_inv db0 cid c fecha h m (sys_step i s).
Proof.
  intros Hinv. unfold sys_step.
  destruct (nth_error (sys_threads s) i) as [t|] eqn:Hn; [|exact Hinv].
  destruct s as [db ths]. destruct Hinv as (Hcs & Hgood & Hphase). simpl in *.
  pose proof (proj1 (Forall_forall _ _) Hgood t (nth_error_In _ _ Hn)) as [[u Hreq] Hpc].
  destruct t as [req pc]. simpl in Hreq, Hpc. subst req.
  assert (Hkeep : forall pc', is_ok (mk_thread (req_slot cid fecha h m u) pc) = false ->
            is_done (mk_thread (req_slot cid fecha h m u) pc') = false \/
            (is_ok (mk_thread (req_slot cid fecha h m u) pc') = false /\
             exists r, reservas db = (reservas db0 ++ [r])%list) ->
            good_thread cid c fecha h m (mk_thread (req_slot cid fecha h m u) pc') ->
            race_inv db0 cid c fecha h m
              (mk_sys db (set_nth i (mk_thread (req_slot cid fecha h m u) pc') ths))).
  { intros pc' Hold Hnew Hg. split; [exact Hcs|]. split.
    - apply set_nth_Forall; assumption.
    - simpl. destruct Hphase as [[Hr Hnd]|(r & Hr & Hs & Hcount)].
      + destruct Hnew as [Hnew|[_ [r' Hr']]].
        * left. split; [exact Hr|]. apply set_nth_Forall; assumption.
        * exfalso. rewrite Hr in Hr'.
          apply (f_equal (@List.length Reserva)) in Hr'.
          rewrite length_app in Hr'. simpl in Hr'. lia.
      + right. exists r. split; [exact Hr|]. split; [exact Hs|].
        rewrite <- Hcount. apply (set_nth_count_same is_ok i _ _ ths Hn).
        rewrite Hold. destruct Hnew as [Hnew|[Hnew _]]; [|congruence].
        unfold is_done, is_ok in *. simpl in *. destruct pc'; congruence. }
  destruct Hpc as [->|[->|[->|Hdone]]].
  - (* the court is read, the date and the hour are parsed *)
    unfold thread_step. simpl.
    unfold rapida_parse, bind, canchas_get. simpl. rewrite Hcs, Hfind. simpl.
    apply Hkeep; [reflexivity|left; reflexivity|].
    split; simpl; eauto.
  - (* the availability check *)
    unfold thread_step. simpl.
    destruct (esta_disponible_db c fecha (time_hm h m) None db) as [b Hb].
    rewrite Hb. destruct b.
    + apply Hkeep; [reflexivity|left; reflexivity|]. split; simpl; eauto.
    + apply Hkeep; [reflexivity| |split; simpl; eauto 7].
      right. split; [reflexivity|].
      destruct Hphase as [[Hr _]|(r & Hr & _)]; [|eauto].
      exfalso.
      pose proof (esta_disponible_ext c fecha (time_hm h m) None db db0 Hr) as He.
      rewrite Hb, Hlibre in He. simpl in He. discriminate.
  - (* the insert *)
    unfold thread_step. simpl. rewrite rapida_create_insert. fold (nueva_reserva c fecha h m u).
    unfold db_insert. simpl.
    destruct (violates_unique_confirmed (nueva_reserva c fecha h m u) (reservas db)) eqn:Hv.
    + apply Hkeep; [reflexivity| |split; simpl; eauto 7].
      right. split; [reflexivity|].
      destruct Hphase as [[Hr _]|(r & Hr & _)]; [|eauto].
      exfalso. rewrite Hr, nueva_not_violates in Hv. discriminate.
    + destruct Hphase as [[Hr Hnd]|(r & Hr & Hs & _)].
      * split; [exact Hcs|]. split.
        -- apply set_nth_Forall; [exact Hgood|]. split; simpl; eauto 7.
        -- right. simpl. eexists. split; [rewrite Hr; reflexivity|].
           split; [repeat split|].
           apply (set_nth_count_first is_ok i _ _ ths Hn);
             [apply is_ok_false_of_not_done; exact Hnd|reflexivity].
      * exfalso. rewrite (nueva_violates u r (reservas db) Hs) in Hv; [discriminate|].
        rewrite Hr. apply in_or_app. right. left. reflexivity.
  - (* the request has answered *)
    assert (Hpc : exists resp, pc = PcDone resp).
    { destruct Hdone as [->|[->| ->]]; eauto. }
    destruct Hpc as [resp ->]. unfold thread_step. simpl.
    rewrite (set_nth_same i _ ths Hn).
    split; [exact Hcs|]. split; [exact Hgood|exact Hphase].
Qed.

Lemma race_run (sched : list nat) (s : Sys) :
  race_inv db0 cid c fecha h m s -> race_inv db0 cid c fecha h m (run sched s).
Proof.
  unfold run. revert s. induction sched as [|i sched IH]; intros s Hs; simpl.
  - exact Hs.
  - apply IH. apply race_step. exact Hs.
Qed.

(** The statement with which a request for the slot answers is a failed
    check, a refused insert or an insert that goes through. *)
Lemma race_step_answer (s : Sys) (i : nat) (t : Thread) (resp : JsonResponse) :
  race_inv db0 cid c fecha h m s ->
  nth_error (sys_threads s) i = Some t -> is_done t = false ->
  fst (thread_step t (sys_db s)) = PcDone resp ->
  (resp = json_no_disponible /\
   th_pc t = PcParsed c fecha (time_hm h m) /\
   esta_disponible c fecha (time_hm h m) None (sys_db s) = (inr false, sys_db s)) \/
  (resp = json_error /\
   th_pc t = PcChecked c fecha (time_hm h m) /\
   existsb (confirmed_at (cancha_pk c) fecha (time_hm h m)) (reservas (sys_db s)) = true /\
   rapida_create (th_request t) c fecha (time_hm h m) (sys_db s) =
     (inl IntegrityError, sys_db s)) \/
  resp = json_ok.
Proof.
  intros (Hcs & Hgood & _) Hn Hnd Hstep.
  pose proof (proj1 (Forall_forall _ _) Hgood t (nth_error_In _ _ Hn)) as [[u Hreq] Hpc].
  destruct t as [req pc]. simpl in Hreq, Hpc. subst req.
  unfold is_done in Hnd. simpl in Hnd.
  destruct Hpc as [->|[->|[->|Hdone]]].
  - exfalso. revert Hstep. unfold thread_step. simpl.
    unfold rapida_parse, bind, canchas_get. simpl. rewrite Hcs, Hfind. simpl.
    discriminate.
  - revert Hstep. unfold thread_step. simpl.
    destruct (esta_disponible_db c fecha (time_hm h m) None (sys_db s)) as [b Hb].
    rewrite Hb. destruct b; simpl; [discriminate|].
    intros H. injection H as <-. left. auto.
  - revert Hstep. unfold thread_step. simpl. rewrite rapida_create_insert.
    fold (nueva_reserva c fecha h m u). unfold db_insert. simpl.
    destruct (violates_unique_confirmed (nueva_reserva c fecha h m u)
                (reservas (sys_db s))) eqn:Hv; simpl.
    + intros H. injection H as <-. right. left.
      split; [reflexivity|]. split; [reflexivity|]. split; [|reflexivity].
      unfold violates_unique_confirmed in Hv. simpl in Hv.
      apply existsb_exists in Hv. destruct Hv as (x & Hx & Hxs).
      apply existsb_exists. exists x. split; [exact Hx|].
      apply andb_true_iff in Hxs. destruct Hxs as [Hxc Hxs].
      apply same_slot_iff in Hxs. simpl in Hxs. destruct Hxs as (Hc & Hf & Hh).
      unfold confirmed_at. rewrite Hxc, Hc, Hf, Hh, !Z.eqb_refl, time_eqb_refl.
      reflexivity.
    + intros H. injection H as <-. right. right. reflexivity.
  - exfalso. destruct Hdone as [->|[->| ->]]; discriminate.
Qed.

Lemma race_answers (usuarios : list Z) (sched : list nat) :
  answers_by_cause (spawn (map (req_slot cid fecha h m) usuarios) db0) sched.
Proof.
  set (s0 := spawn (map (req_slot cid fecha h m) usuarios) db0).
  intros i t Hn.
  assert (Hcase : forall resp, response t = Some resp ->
            exists antes despues t1,
              sched = (antes ++ i :: despues)%list /\
              nth_error (sys_threads (run antes s0)) i = Some t1 /\
              ((resp = json_no_disponible /\
                th_pc t1 = PcParsed c fecha (time_hm h m) /\
                esta_disponible c fecha (time_hm h m) None (sys_db (run antes s0)) =
                  (inr false, sys_db (run antes s0))) \/
               (resp = json_error /\
                th_pc t1 = PcChecked c fecha (time_hm h m) /\
                existsb (confirmed_at (cancha_pk c) fecha (time_hm h m))
                        (reservas (sys_db (run antes s0))) = true /\
                rapida_create (th_request t1) c fecha (time_hm h m)
                              (sys_db (run antes s0)) =
                  (inl IntegrityError, sys_db (run antes s0))) \/
               resp = json_ok)).
  { intros resp Hresp.
    assert (Hpc : th_pc t = PcDone resp).
    { unfold response in Hresp. destruct (th_pc t); try discriminate. congruence. }
    assert (Hlt : (i < List.length (sys_threads s0))%nat).
    { rewrite <- (run_length sched s0). apply nth_error_Some. congruence. }
    destruct (nth_error (sys_threads s0) i) as [t0|] eqn:H0;
      [|apply nth_error_None in H0; lia].
    assert (Hnd : is_done t0 = false).
    { apply nth_error_In in H0. unfold s0, spawn in H0. simpl in H0.
      apply in_map_iff in H0. destruct H0 as (r & <- & _). reflexivity. }
    destruct (answer_step sched i s0 t0 t resp H0 Hnd Hn Hpc)
      as (antes & despues & t1 & Hsched & H1 & Hd1 & Hstep).
    exists antes, despues, t1. split; [exact Hsched|]. split; [exact H1|].
    apply (race_step_answer (run antes s0) i t1 resp); try assumption.
    apply race_run. apply race_init. }
  assert (Hback : forall antes despues t1 pc',
            sched = (antes ++ i :: despues)%list ->
            nth_error (sys_threads (run antes s0)) i = Some t1 ->
            fst (thread_step t1 (sys_db (run antes s0))) = pc' ->
            is_done (mk_thread (th_request t1) pc') = true ->
            th_pc t = pc').
  { intros antes despues t1 pc' Hsched H1 Hstep Hd.
    rewrite Hsched, run_app in Hn.
    change (run (i :: despues) (run antes s0))
      with (run despues (sys_step i (run antes s0))) in Hn.
    pose proof (proj2 (sys_step_self i _ t1 H1)) as Hself. rewrite Hstep in Hself.
    rewrite (run_done despues i _ _ Hself Hd) in Hn. injection Hn as <-. reflexivity. }
  split; split.
  - intros Hresp. destruct (Hcase _ Hresp) as (antes & despues & t1 & Hs & H1 & Hc).
    exists antes, despues. split; [exact Hs|].
    destruct Hc as [(_ & Hpc & He)|[(E & _)|E]]; [|discriminate E|discriminate E].
    exists t1, c, fecha, (time_hm h m). auto.
  - intros (antes & despues & Hs & t1 & c' & f' & i' & H1 & Hpc & He).
    unfold response.
    rewrite (Hback antes despues t1 (PcDone json_no_disponible) Hs H1); [reflexivity| |reflexivity].
    unfold thread_step. rewrite Hpc, He. reflexivity.
  - intros Hresp. destruct (Hcase _ Hresp) as (antes & despues & t1 & Hs & H1 & Hc).
    exists antes, despues. split; [exact Hs|].
    destruct Hc as [(E & _)|[(_ & Hpc & Hex & He)|E]]; [discriminate E| |discriminate E].
    exists t1, c, fecha, (time_hm h m). auto.
  - intros (antes & despues & Hs & t1 & c' & f' & i' & H1 & Hpc & _ & He).
    unfold response.
    rewrite (Hback antes despues t1 (PcDone json_error) Hs H1); [reflexivity| |reflexivity].
    unfold thread_step. rewrite Hpc, He. reflexivity.
Qed.
End Race.

Lemma filter_negb_length {A} (p : A -> bool) (l : list A) :
  (List.length (filter p l) + List.length (filter (fun x => negb (p x)) l) =
   List.length l)%nat.
Proof.
  induction l as [|x t IH]; simpl; [reflexivity|].
  destruct (p x); simpl; lia.
Qed.

(** One request running alone goes through its three statements and
    ends where [reserva_rapida] ends. *)
Lemma solo_run (request : Request) (db : DB) :
  exists resp db',
    reserva_rapida request db = (inr resp, db') /\
    run [0; 0; 0]%nat (spawn [request] db) = mk_sys db' [mk_thread request (PcDone resp)].
Proof.
  unfold run, spawn, sys_step, thread_step, reserva_rapida, try_except, bind. simpl.
  destruct (method request); simpl; [eexists _, _; split; reflexivity|].
  pose proof (rapida_parse_db request db) as Hp.
  destruct (rapida_parse request db) as [[e|[[c f] i]] db1]; simpl in Hp; subst db1; simpl;
    [eexists _, _; split; reflexivity|].
  destruct (esta_disponible_db c f i None db) as [b ->].
  destruct b; simpl; [|eexists _, _; split; reflexivity].
  destruct (rapida_create request c f i db) as [[e|r] db2]; simpl;
    eexists _, _; split; reflexivity.
Qed.

(** C2 (amended). N >= 1 quick-book requests for one free slot of an
    active court, their statements interleaved in any order and all run to
    their answer: exactly one request answers with success, the store
    gains exactly one confirmed row for the slot, and each of the other
    N - 1 requests answers with a failure. The failure names its cause: a
    request answers "El horario ya no está disponible." exactly when its
    availability check fails, and the generic "Error al crear la reserva."
    exactly when its own insert breaks the partial unique constraint. *)
Theorem reserva_rapida_race (db0 : DB) (cid : Z) (c : Cancha) (fecha : date)
    (h m : Z) (usuarios : list Z) (sched : list nat)
    (Hfind : find (fun c' => (cancha_pk c' =? cid) && activa c') (canchas db0) = Some c)
    (Hlibre : esta_disponible c fecha (time_hm h m) None db0 = (inr true, db0))
    (Hfree : forall x, In x (reservas db0) -> estado x = confirmada ->
                       cancha_pk (cancha x) = cancha_pk c -> fecha_reserva x = fecha ->
                       hora_inicio x <> time_hm h m)
    (Hn : usuarios <> [])
    (Hdone : Forall (fun t => is_done t = true)
               (sys_threads (run sched
                  (spawn (map (req_slot cid fecha h m) usuarios) db0)))) :
  let s := run sched (spawn (map (req_slot cid fecha h m) usuarios) db0) in
  List.length (filter is_ok (sys_threads s)) = 1%nat /\
  List.length (filter (fun t => negb (is_ok t)) (sys_threads s)) =
    (List.length usuarios - 1)%nat /\
  Forall (fun t => is_ok t = true /\ response t = Some json_ok \/
                   is_ok t = false /\ failed_response t) (sys_threads s) /\
  answers_by_cause (spawn (map (req_slot cid fecha h m) usuarios) db0) sched /\
  exists r, reservas (sys_db s) = (reservas db0 ++ [r])%list /\ slot_row c fecha h m r.
Proof.
  intros s.
  pose proof (race_answers db0 cid c fecha h m Hfind Hlibre Hfree usuarios sched)
    as Hcause.
  pose proof (race_run db0 cid c fecha h m Hfind Hlibre Hfree sched _
                (race_init db0 cid c fecha h m usuarios)) as Hinv.
  fold s in Hinv, Hdone. destruct Hinv as (_ & Hgood & Hphase).
  assert (Hlen : List.length (sys_threads s) = List.length usuarios).
  { unfold s. rewrite run_length. unfold spawn. simpl. rewrite !length_map. reflexivity. }
  destruct Hphase as [[_ Hnd]|(r & Hr & Hs & Hcount)].
  - exfalso. destruct (sys_threads s) as [|t ths] eqn:E.
    + destruct usuarios; [congruence|discriminate].
    + inversion Hdone; subst. inversion Hnd; subst. congruence.
  - split; [exact Hcount|]. split.
    + pose proof (filter_negb_length is_ok (sys_threads s)). lia.
    + split; [|split; [exact Hcause|exists r; auto]].
      apply Forall_forall. intros t Ht.
      pose proof (proj1 (Forall_forall _ _) Hgood t Ht) as [_ Hpc].
      pose proof (proj1 (Forall_forall _ _) Hdone t Ht) as Hd.
      unfold is_done in Hd. unfold is_ok, failed_response, response.
      destruct Hpc as [E|[E|[E|[E|[E|E]]]]]; rewrite E in *; try discriminate; simpl; auto.
Qed.

Lemma reserva_rapida_race_witness :
  let s := run sched_tres (spawn (map (req_slot 1 101 10 0) usuarios_tres) db_vacia) in
  Forall (fun t => is_done t = true) (sys_threads s) /\
  List.length (filter is_ok (sys_threads s)) = 1%nat /\
  List.length (filter (fun t => negb (is_ok t)) (sys_threads s)) = 2%nat /\
  Forall (fun t => is_ok t = true /\ response t = Some json_ok \/
                   is_ok t = false /\ failed_response t) (sys_threads s) /\
  answers_by_cause (spawn (map (req_slot 1 101 10 0) usuarios_tres) db_vacia) sched_tres /\
  exists r, reservas (sys_db s) = (reservas db_vacia ++ [r])%list /\
            slot_row cancha_central 101 10 0 r.
Proof.
  intros s.
  assert (Hdone : Forall (fun t => is_done t = true) (sys_threads s)).
  { repeat constructor. }
  split; [exact Hdone|].
  refine (reserva_rapida_race db_vacia 1 cancha_central 101 10 0 usuarios_tres sched_tres
            eq_refl eq_refl _ _ Hdone).
  - intros x [].
  - discriminate.
Defined.

(** C2 as stated fails on the answer of the loser: two requests that
    both pass the availability check before either inserts. The second
    insert breaks the constraint, and its request answers with the generic
    "Error al crear la reserva.", not with the slot-taken message. *)
Lemma carrera_error_generico :
  let s := run [0; 1; 0; 1; 0; 1]%nat
               (spawn (map (req_slot 1 101 10 0) [7; 8]) db_vacia) in
  map response (sys_threads s) = [Some json_ok; Some json_error] /\
  json_error <> json_no_disponible /\
  List.length (reservas (sys_db s)) = 1%nat.
Proof.
  intros s. split; [reflexivity|]. split; [discriminate|reflexivity].
Qed.

(** * Properties of the further code *)

(** ** Order on times *)

Lemma time_ltb_iff (a b : time) :
  time_ltb a b = true <->
  hour a < hour b \/
  (hour a = hour b /\
   (minute a < minute b \/
    (minute a = minute b /\
     (second a < second b \/
      (second a = second b /\ microsecond a < microsecond b))))).
Proof.
  unfold time_ltb.
  rewrite !orb_true_iff, !andb_true_iff, !orb_true_iff, !andb_true_iff,
          !orb_true_iff, !andb_true_iff, !Z.ltb_lt, !Z.eqb_eq.
  reflexivity.
Qed.

Lemma time_eq_iff (a b : time) :
  a = b <->
  hour a = hour b /\ minute a = minute b /\ second a = second b /\
  microsecond a = microsecond b.
Proof.
  split; [intros ->; auto|].
  destruct a, b; simpl. intros (-> & -> & -> & ->). reflexivity.
Qed.

Lemma time_leb_iff (a b : time) :
  time_leb a b = true <-> time_ltb a b = true \/ a = b.
Proof. unfold time_leb. rewrite orb_true_iff, time_eqb_eq. reflexivity. Qed.

Lemma time_leb_false_iff (a b : time) :
  time_leb a b = false <-> time_ltb b a = true.
Proof.
  rewrite <- not_true_iff_false, time_leb_iff, !time_ltb_iff, time_eq_iff. lia.
Qed.

Lemma time_leb_total (a b : time) : time_leb a b = true \/ time_leb b a = true.
Proof.
  destruct (time_leb a b) eqn:E; [auto|].
  right. apply time_leb_false_iff in E. apply time_leb_iff. auto.
Qed.

Lemma time_ltb_trans (a b c : time) :
  time_ltb a b = true -> time_ltb b c = true -> time_ltb a c = true.
Proof. rewrite !time_ltb_iff. lia. Qed.

Lemma time_ltb_leb_trans (a b c : time) :
  time_ltb a b = true -> time_leb b c = true -> time_ltb a c = true.
Proof.
  intros H1 H2. apply time_leb_iff in H2. destruct H2 as [H2 | <-]; [|exact H1].
  exact (time_ltb_trans a b c H1 H2).
Qed.

Lemma time_ltb_irrefl (a : time) : time_ltb a a = false.
Proof. apply not_true_iff_false. rewrite time_ltb_iff. lia. Qed.

(** ** The availability check, evaluated *)

Lemma exists_filter {A} (p : A -> bool) (l : list A) :
  exists_ (filter p l) = existsb p l.
Proof.
  induction l as [|x t IH]; simpl; [reflexivity|].
  destruct (p x); simpl; [reflexivity|exact IH].
Qed.

Lemma esta_disponible_eval (self : Cancha) (fecha : date) (inicio : time)
    (fin : option time) (db : DB) :
  esta_disponible self fecha inicio fin db =
  (inr (activa self &&
        negb (existsb (fun r => del_dia self fecha r &&
                                solapa inicio
                                  (match fin with
                                   | Some t => t
                                   | None => time_h ((hour inicio + 1) mod 24)
                                   end) r)
                      (reservas db))), db).
Proof.
  unfold esta_disponible. destruct (activa self); cbn [negb andb]; [|reflexivity].
  unfold bind, reservas_filter, ret. rewrite exists_filter. reflexivity.
Qed.

Lemma rapida_create_eval (request : Request) (c : Cancha) (fecha : date)
    (inicio : time) (db : DB) :
  rapida_create request c fecha inicio db =
  db_insert (mk_reserva None c (user request) fecha inicio
                        (Some (time_hm ((hour inicio + 1) mod 24) (minute inicio)))
                        confirmada None (tarifa_hora c)) db.
Proof.
  unfold rapida_create, objects_create. rewrite save_unfold.
  set (self := save_defaults _).
  assert (Hself : self = mk_reserva None c (user request) fecha inicio
                           (Some (time_hm ((hour inicio + 1) mod 24) (minute inicio)))
                           confirmada None (tarifa_hora c)).
  { unfold self, save_defaults, Reserva_init. simpl.
    destruct (tarifa_hora c =? 0) eqn:E; simpl; [|reflexivity].
    apply Z.eqb_eq in E. rewrite E. reflexivity. }
  rewrite Hself. reflexivity.
Qed.

(** What [reserva_rapida] did when it answers with success. *)
Lemma reserva_rapida_success_inv (request : Request) (db db' : DB) (resp : JsonResponse) :
  reserva_rapida request db = (inr resp, db') -> success resp = true ->
  exists c fecha h m,
    resp = json_ok /\ method request = POST /\
    POST_cancha_id request = Some (cancha_pk c) /\
    In c (canchas db) /\ activa c = true /\
    POST_fecha request = Some fecha /\ POST_hora request = Some (h, m) /\
    esta_disponible c fecha (time_hm h m) None db = (inr true, db) /\
    find (fun c' => (cancha_pk c' =? cancha_pk c) && activa c') (canchas db) = Some c /\
    violates_unique_confirmed
      (mk_reserva None c (user request) fecha (time_hm h m)
                  (Some (time_hm ((h + 1) mod 24) m)) confirmada None (tarifa_hora c))
      (reservas db) = false /\
    db' = mk_db (canchas db) (reservas db ++ [fila_rapida request c fecha h m db]).
Proof.
  unfold reserva_rapida. destruct (method request) eqn:Hm;
    [intros H; injection H as <- <-; discriminate|].
  unfold try_except, bind at 1.
  unfold rapida_parse, bind, canchas_get, of_option, ret, raise.
  destruct (find _ (canchas db)) as [c|] eqn:Hfind;
    [|intros H; injection H as <- <-; discriminate].
  destruct (POST_fecha request) as [fecha|] eqn:Hf;
    [|intros H; injection H as <- <-; discriminate].
  destruct (POST_hora request) as [[h m]|] eqn:Hh;
    [|intros H; injection H as <- <-; discriminate].
  cbn [fst snd].
  destruct (esta_disponible_db c fecha (time_hm h m) None db) as [b Hb].
  rewrite Hb. destruct b; [|intros H; injection H as <- <-; discriminate].
  rewrite rapida_create_eval. unfold db_insert. cbn [hora_fin pk hour minute time_hm].
  destruct (violates_unique_confirmed _ (reservas db)) eqn:Hv;
    [intros H; injection H as <- <-; discriminate|].
  intros H _. injection H as <- <-.
  pose proof (find_some _ _ Hfind) as [Hin Hp].
  destruct (POST_cancha_id request) as [i|]; [|discriminate].
  apply andb_true_iff in Hp. destruct Hp as [Hi Ha]. apply Z.eqb_eq in Hi. subst i.
  exists c, fecha, h, m. repeat split; auto.
Qed.

(** ** The quick-book view, in full *)

Lemma next_pk_libre (rows : list Reserva) : pk_libre (next_pk rows) rows.
Proof.
  intros x Hx Hk. apply (next_pk_fresh rows). rewrite <- Hk. apply in_map. exact Hx.
Qed.

(** X1. [reserva_rapida] never raises. When its answer is a failure the
    store is the one it found. When its answer is a success, the request
    was a POST naming an active court of the table, a date and an hour, and
    the store has gained exactly one row, under a key no stored row has:
    confirmed, for that court, user, date and start, ending one hour later
    with the minutes kept, priced at the tariff of the court. *)
Theorem reserva_rapida_outcome (request : Request) (db : DB) :
  exists resp db',
    reserva_rapida request db = (inr resp, db') /\
    ((success resp = false /\ db' = db) \/
     (resp = json_ok /\ method request = POST /\
      exists c fecha h m k,
        POST_cancha_id request = Some (cancha_pk c) /\
        In c (canchas db) /\ activa c = true /\
        POST_fecha request = Some fecha /\ POST_hora request = Some (h, m) /\
        pk_libre k (reservas db) /\
        db' = mk_db (canchas db)
                    (reservas db ++ [fila_con_pk k request c fecha h m]))).
Proof.
  destruct (solo_run request db) as (resp & db' & Hr & _).
  exists resp, db'. split; [exact Hr|].
  destruct (success resp) eqn:Hs.
  - right.
    destruct (reserva_rapida_success_inv request db db' resp Hr Hs)
      as (c & fecha & h & m & -> & Hm & Hc & Hin & Ha & Hf & Hh & _ & _ & _ & Hdb).
    split; [reflexivity|]. split; [exact Hm|].
    exists c, fecha, h, m, (next_pk (reservas db)).
    repeat split; try assumption. apply next_pk_libre.
  - left. split; [reflexivity|].
    revert Hr. unfold reserva_rapida. destruct (method request);
      [intros H; injection H as _ <-; reflexivity|].
    unfold try_except, bind.
    pose proof (rapida_parse_db request db) as Hp.
    destruct (rapida_parse request db) as [[e|[[c f] i]] db1]; simpl in Hp; subst db1;
      [intros H; injection H as _ <-; reflexivity|].
    destruct (esta_disponible_db c f i None db) as [b Hb]. rewrite Hb.
    destruct b; [|intros H; injection H as _ <-; reflexivity].
    rewrite rapida_create_eval. unfold db_insert. cbn [hora_fin pk].
    destruct (violates_unique_confirmed _ (reservas db));
      [intros H; injection H as _ <-; reflexivity|].
    intros H. injection H as <- _. discriminate.
Qed.

Lemma esta_disponible_true_inv (c : Cancha) (fecha : date) (inicio : time)
    (fin : option time) (db db' : DB) :
  esta_disponible c fecha inicio fin db = (inr true, db') ->
  activa c = true /\
  existsb (fun r => del_dia c fecha r &&
                    solapa inicio (match fin with
                                   | Some t => t
                                   | None => time_h ((hour inicio + 1) mod 24)
                                   end) r) (reservas db) = false.
Proof.
  rewrite esta_disponible_eval. intros H. injection H as H _.
  apply andb_true_iff in H. destruct H as [Ha Hn].
  apply negb_true_iff in Hn. auto.
Qed.

(** X2. The same quick-book request sent again after it succeeded is
    refused and changes nothing. For a start hour below 23 the answer is
    the slot-taken message. For the start hour 23 the availability check
    passes a second time, because the end it assumes is 00:00, and the
    request is stopped only by the constraint, with the generic error. *)
Theorem reserva_rapida_twice (request : Request) (db db1 : DB) (h m : Z)
    (Hhora : POST_hora request = Some (h, m))
    (Hh : 0 <= h <= 23)
    (Hfirst : reserva_rapida request db = (inr json_ok, db1)) :
  reserva_rapida request db1 =
  (inr (if h <? 23 then json_no_disponible else json_error), db1).
Proof.
  destruct (reserva_rapida_success_inv request db db1 json_ok Hfirst eq_refl)
    as (c & fecha & h' & m' & _ & Hm & Hc & _ & Ha & Hf & Hh' & Hlibre & Hfind & _ & Hdb).
  rewrite Hhora in Hh'. injection Hh' as <- <-.
  apply esta_disponible_true_inv in Hlibre. destruct Hlibre as [_ Hno].
  cbn [hour time_hm] in Hno.
  unfold reserva_rapida. rewrite Hm.
  unfold try_except, bind, rapida_parse, bind, canchas_get, of_option, ret.
  rewrite Hc, Hf, Hhora.
  assert (Hcs : canchas db1 = canchas db) by (rewrite Hdb; reflexivity).
  rewrite Hcs, Hfind. cbn [fst snd].
  rewrite esta_disponible_eval, Ha. cbn [andb hour time_hm].
  assert (Hrows : reservas db1 =
                  (reservas db ++ [fila_rapida request c fecha h m db])%list)
    by (rewrite Hdb; reflexivity).
  rewrite Hrows, existsb_app, Hno. cbn [existsb orb].
  assert (Hdia : del_dia c fecha (fila_rapida request c fecha h m db) = true).
  { unfold del_dia, fila_rapida. simpl. rewrite !Z.eqb_refl. reflexivity. }
  rewrite Hdia, orb_false_r. cbn [andb].
  destruct (h <? 23) eqn:E.
  - apply Z.ltb_lt in E.
    assert (Hs : solapa (time_hm h m) (time_h ((h + 1) mod 24))
                        (fila_rapida request c fecha h m db) = true).
    { unfold solapa, fila_rapida. cbn [hora_inicio hora_fin].
      rewrite (Z.mod_small (h + 1) 24) by lia.
      apply andb_true_iff. split; apply time_ltb_iff; simpl; lia. }
    rewrite Hs. reflexivity.
  - apply Z.ltb_ge in E. assert (h = 23) by lia. subst h.
    assert (Hs : solapa (time_hm 23 m) (time_h ((23 + 1) mod 24))
                        (fila_rapida request c fecha 23 m db) = false).
    { unfold solapa, fila_rapida. cbn [hora_inicio hora_fin].
      apply andb_false_iff. left. apply not_true_iff_false.
      change ((23 + 1) mod 24) with 0.
      rewrite time_ltb_iff. unfold time_hm, time_h. cbn [hour minute second microsecond].
      lia. }
    rewrite Hs. cbn [negb].
    rewrite rapida_create_eval. unfold db_insert. cbn [hora_fin pk hour minute time_hm].
    rewrite Hrows.
    assert (Hv : violates_unique_confirmed
                   (mk_reserva None c (user request) fecha (time_hm 23 m)
                      (Some (time_hm ((23 + 1) mod 24) m)) confirmada None (tarifa_hora c))
                   (reservas db ++ [fila_rapida request c fecha 23 m db])%list = true).
    { unfold violates_unique_confirmed. cbn [is_confirmada estado estado_eqb andb].
      rewrite existsb_app. apply orb_true_iff. right. cbn [existsb].
      rewrite orb_false_r. apply andb_true_iff. split; [reflexivity|].
      apply same_slot_iff. simpl. auto. }
    rewrite Hv. reflexivity.
Qed.

Lemma reserva_rapida_twice_witness :
  let request := post_rapida 7 101 23 30 in
  let db1 := mk_db (canchas db_vacia) [fila_rapida request cancha_central 101 23 30 db_vacia] in
  POST_hora request = Some (23, 30) /\ 0 <= 23 <= 23 /\
  reserva_rapida request db_vacia = (inr json_ok, db1) /\
  reserva_rapida request db1 = (inr json_error, db1).
Proof.
  intros request db1.
  assert (Hh : 0 <= 23 <= 23) by lia.
  assert (Hfirst : reserva_rapida request db_vacia = (inr json_ok, db1))
    by (vm_compute; reflexivity).
  split; [reflexivity|]. split; [exact Hh|]. split; [exact Hfirst|].
  exact (reserva_rapida_twice request db_vacia db1 23 30 eq_refl Hh Hfirst).
Defined.

Lemma existsb_false_iff {A} (p : A -> bool) (l : list A) :
  existsb p l = false <-> forall x, In x l -> p x = false.
Proof.
  rewrite <- not_true_iff_false, existsb_exists. split.
  - intros H x Hx. apply not_true_iff_false. intros Hp. apply H. eauto.
  - intros H [x [Hx Hp]]. rewrite (H x Hx) in Hp. discriminate.
Qed.

(** X3. For a start time in the hour 23 the availability check with the
    defaulted end time answers true on every active court, whatever is
    booked: the end it assumes is 00:00, and no reservation starts before
    00:00. *)
Theorem esta_disponible_hora_23 (self : Cancha) (fecha : date) (inicio : time) (db : DB)
    (Ha : activa self = true)
    (H23 : hour inicio = 23)
    (Hrows : forall r, In r (reservas db) -> time_nonneg (hora_inicio r)) :
  esta_disponible self fecha inicio None db = (inr true, db).
Proof.
  rewrite esta_disponible_eval, Ha, H23. change ((23 + 1) mod 24) with 0.
  assert (Hno : existsb (fun r => del_dia self fecha r && solapa inicio (time_h 0) r)
                        (reservas db) = false).
  { apply existsb_false_iff. intros r Hr. apply andb_false_iff. right.
    unfold solapa. apply andb_false_iff. left. apply not_true_iff_false.
    rewrite time_ltb_iff. destruct (Hrows r Hr) as (? & ? & ? & ?).
    unfold time_h. cbn [hour minute second microsecond]. lia. }
  rewrite Hno. reflexivity.
Qed.

Lemma esta_disponible_hora_23_witness :
  activa cancha_central = true /\
  hour (time_hm 23 0) = 23 /\
  (forall r, In r (reservas db_media) -> time_nonneg (hora_inicio r)) /\
  esta_disponible cancha_central 101 (time_hm 23 0) None db_media = (inr true, db_media).
Proof.
  assert (Hrows : forall r, In r (reservas db_media) -> time_nonneg (hora_inicio r)).
  { intros r [<-|[]]. unfold time_nonneg. simpl. lia. }
  split; [reflexivity|]. split; [reflexivity|]. split; [exact Hrows|].
  exact (esta_disponible_hora_23 cancha_central 101 (time_hm 23 0) db_media
           eq_refl eq_refl Hrows).
Defined.

(** ** The slot listing, in full *)

Lemma StronglySorted_filter {A} (R : A -> A -> Prop) (p : A -> bool) (l : list A) :
  StronglySorted R l -> StronglySorted R (filter p l).
Proof.
  induction 1 as [|x t Ht IH Hx]; simpl; [constructor|].
  destruct (p x); [|exact IH]. constructor; [exact IH|].
  apply Forall_forall. intros y Hy. apply filter_In in Hy.
  exact (proj1 (Forall_forall _ _) Hx y (proj1 Hy)).
Qed.

Lemma operating_slots_sorted :
  StronglySorted (fun a b => time_ltb a b = true) operating_slots.
Proof. unfold operating_slots. repeat constructor. Qed.

(** X4. [get_horarios_disponibles] never raises and leaves the store as
    it is. A time is listed exactly when the court is active, the time is
    one of the whole hours 08:00 to 21:00, and no confirmed reservation of
    the court on the date starts at that very time. The list is strictly
    ascending, hence without repetition. *)
Theorem get_horarios_disponibles_spec (self : Cancha) (fecha : date) (db : DB) :
  exists slots,
    get_horarios_disponibles self fecha db = (inr slots, db) /\
    (forall t, In t slots <->
               activa self = true /\ In t operating_slots /\
               forall r, In r (reservas db) -> del_dia self fecha r = true ->
                         hora_inicio r <> t) /\
    StronglySorted (fun a b => time_ltb a b = true) slots.
Proof.
  unfold get_horarios_disponibles. destruct (activa self) eqn:Ha; cbn [negb].
  2:{ exists []. split; [reflexivity|]. split; [|constructor].
      intros t. simpl. split; [tauto|]. intros [H _]. discriminate. }
  unfold get_reservas_del_dia, bind, reservas_filter, ret.
  rewrite horarios_funcionamiento_eq.
  eexists. split; [reflexivity|]. split.
  - intros t. rewrite filter_In, negb_true_iff, existsb_false_iff. split.
    + intros [Hin Hno]. split; [reflexivity|]. split; [exact Hin|].
      intros r Hr Hd Heq.
      assert (Ht : time_eqb t (hora_inicio r) = false).
      { apply Hno. apply in_map. apply In_order_by_hora_inicio.
        apply filter_In. split; [exact Hr|exact Hd]. }
      rewrite Heq, time_eqb_refl in Ht. discriminate.
    + intros (_ & Hin & Hno). split; [exact Hin|].
      intros x Hx. apply in_map_iff in Hx. destruct Hx as (r & <- & Hr).
      apply (proj1 (In_order_by_hora_inicio _ _)) in Hr.
      apply filter_In in Hr. destruct Hr as [Hr Hd].
      apply not_true_iff_false. intros Heq. apply time_eqb_eq in Heq.
      exact (Hno r Hr Hd (eq_sym Heq)).
  - apply StronglySorted_filter. exact operating_slots_sorted.
Qed.

(** ** Model validation *)

Lemma same_pk_iff (a : option Z) (r : Reserva) :
  same_pk a r = true <-> exists k, a = Some k /\ pk r = Some k.
Proof.
  unfold same_pk. destruct a as [k|], (pk r) as [k'|]; split;
    try discriminate; try (intros (k0 & H1 & H2); discriminate).
  - intros H. apply Z.eqb_eq in H. subst. eauto.
  - intros (k0 & H1 & H2). injection H1 as ->. injection H2 as ->. apply Z.eqb_refl.
Qed.

(** [Reserva.clean] on an instance with an end time, as one expression. *)
Lemma clean_eval (hoy : date) (self : Reserva) (fin : time) (db : DB) :
  hora_fin self = Some fin ->
  clean hoy self db =
  (if fecha_reserva self <? hoy
   then inl (ValidationError "No se pueden hacer reservas para fechas pasadas.")
   else if time_leb fin (hora_inicio self)
   then inl (ValidationError "La hora de fin debe ser posterior a la hora de inicio.")
   else if existsb (fun r => del_dia (cancha self) (fecha_reserva self) r &&
                             solapa (hora_inicio self) fin r &&
                             negb (same_pk (pk self) r)) (reservas db)
   then inl (ValidationError "La cancha no está disponible en el horario seleccionado.")
   else inr tt, db).
Proof.
  intros Hfin. unfold clean. rewrite Hfin.
  destruct (fecha_reserva self <? hoy); [reflexivity|].
  destruct (time_leb fin (hora_inicio self)); [reflexivity|].
  unfold bind. rewrite esta_disponible_eval.
  destruct (activa (cancha self) && negb (existsb _ (reservas db))) eqn:E; cbn [negb].
  - apply andb_true_iff in E. destruct E as [_ E]. apply negb_true_iff in E.
    match goal with |- _ = (if ?b then _ else _, _) => assert (Hb : b = false) end.
    { apply existsb_false_iff. intros r Hr.
      pose proof (proj1 (existsb_false_iff _ _) E r Hr) as Hx.
      rewrite Hx. reflexivity. }
    rewrite Hb. reflexivity.
  - unfold reservas_filter. rewrite exists_filter.
    match goal with |- (if ?a then _ else _) _ = (if ?b then _ else _, _) =>
      replace a with b by reflexivity; destruct b; reflexivity end.
Qed.

(** X5. [Reserva.clean] on an instance with an end time never changes
    the store and raises nothing but a [ValidationError]. It accepts the
    instance exactly when its date is not before today, its end is after
    its start, and every confirmed reservation of its court and date that
    overlaps it has the primary key of the instance itself. Whether the
    court is active plays no part. *)
Theorem Reserva_clean_spec (hoy : date) (self : Reserva) (fin : time) (db : DB)
    (Hfin : hora_fin self = Some fin) :
  exists res,
    clean hoy self db = (res, db) /\
    (res = inr tt <->
     hoy <= fecha_reserva self /\
     time_ltb (hora_inicio self) fin = true /\
     forall r, In r (reservas db) ->
               del_dia (cancha self) (fecha_reserva self) r = true ->
               solapa (hora_inicio self) fin r = true ->
               exists k, pk self = Some k /\ pk r = Some k) /\
    (forall e, res = inl e -> exists msg, e = ValidationError msg).
Proof.
  rewrite (clean_eval hoy self fin db Hfin).
  eexists. split; [reflexivity|].
  destruct (fecha_reserva self <? hoy) eqn:Ef.
  { apply Z.ltb_lt in Ef. split.
    - split; [discriminate|]. intros [H _]. lia.
    - intros e H. injection H as <-. eauto. }
  apply Z.ltb_ge in Ef.
  destruct (time_leb fin (hora_inicio self)) eqn:El.
  { split.
    - split; [discriminate|]. intros (_ & H & _).
      apply time_leb_false_iff in H. congruence.
    - intros e H. injection H as <-. eauto. }
  apply time_leb_false_iff in El.
  destruct (existsb _ (reservas db)) eqn:Ex.
  - split.
    + split; [discriminate|]. intros (_ & _ & H). exfalso.
      apply existsb_exists in Ex. destruct Ex as (r & Hr & Hp).
      rewrite !andb_true_iff, negb_true_iff in Hp. destruct Hp as [[Hd Hs] Hn].
      pose proof (proj2 (same_pk_iff (pk self) r) (H r Hr Hd Hs)). congruence.
    + intros e H. injection H as <-. eauto.
  - split; [|discriminate]. split; [|reflexivity].
    intros _. split; [exact Ef|]. split; [exact El|].
    intros r Hr Hd Hs. apply same_pk_iff.
    pose proof (proj1 (existsb_false_iff _ _) Ex r Hr) as Hx.
    cbv beta in Hx. rewrite Hd, Hs in Hx. simpl in Hx. apply negb_false_iff in Hx. exact Hx.
Qed.

Lemma Reserva_clean_spec_witness :
  hora_fin reserva_una = Some (time_h 11) /\
  clean 100 reserva_una db_una = (inr tt, db_una) /\
  exists res,
    clean 100 reserva_una db_una = (res, db_una) /\
    (res = inr tt <->
     100 <= fecha_reserva reserva_una /\
     time_ltb (hora_inicio reserva_una) (time_h 11) = true /\
     forall r, In r (reservas db_una) ->
               del_dia (cancha reserva_una) (fecha_reserva reserva_una) r = true ->
               solapa (hora_inicio reserva_una) (time_h 11) r = true ->
               exists k, pk reserva_una = Some k /\ pk r = Some k) /\
    (forall e, res = inl e -> exists msg, e = ValidationError msg).
Proof.
  split; [reflexivity|]. split; [reflexivity|].
  exact (Reserva_clean_spec 100 reserva_una (time_h 11) db_una eq_refl).
Defined.

(** ** The booking form *)

Lemma ReservaForm_save_eval (usuario : Z) (c : Cancha) (fecha : date) (inicio : time)
    (nota : option string) (db : DB) :
  ReservaForm_save usuario c fecha inicio nota db =
  db_insert (mk_reserva None c usuario fecha inicio
                        (Some (time_hm ((hour inicio + 1) mod 24) (minute inicio)))
                        confirmada nota (tarifa_hora c)) db.
Proof.
  unfold ReservaForm_save. rewrite save_unfold. reflexivity.
Qed.

Lemma ReservaForm_clean_ok_inv (c : Cancha) (fecha : date) (inicio : time) (db db1 : DB) :
  ReservaForm_clean (Some c) (Some fecha) (Some inicio) db = (inr tt, db1) ->
  db1 = db /\ activa c = true /\
  existsb (fun r => del_dia c fecha r &&
                    solapa inicio (time_hm ((hour inicio + 1) mod 24) (minute inicio)) r)
          (reservas db) = false.
Proof.
  unfold ReservaForm_clean, bind. rewrite esta_disponible_eval.
  destruct (activa c && negb (existsb _ (reservas db))) eqn:E; cbn [negb];
    [|discriminate].
  intros H. injection H as <-.
  apply andb_true_iff in E. destruct E as [Ha E]. apply negb_true_iff in E. auto.
Qed.

(** X6. The form path, check then save: when [ReservaForm.clean] accepts
    the court, date and start time and [ReservaForm.save] then succeeds,
    the check changed nothing, the save appended one confirmed reservation
    under a key no stored row has, running from the start time to one hour
    later (minutes kept) at the tariff of the court, and no confirmed
    reservation that the court already had on that date overlaps it. *)
Theorem ReservaForm_clean_then_save (usuario : Z) (c : Cancha) (fecha : date)
    (inicio : time) (nota : option string) (db db1 db2 : DB) (r : Reserva)
    (Hclean : ReservaForm_clean (Some c) (Some fecha) (Some inicio) db = (inr tt, db1))
    (Hsave : ReservaForm_save usuario c fecha inicio nota db1 = (inr r, db2)) :
  let fin := time_hm ((hour inicio + 1) mod 24) (minute inicio) in
  db1 = db /\
  reservas db2 = (reservas db ++ [r])%list /\ canchas db2 = canchas db /\
  (exists k, pk_libre k (reservas db) /\
             r = mk_reserva (Some k) c usuario fecha inicio (Some fin)
                            confirmada nota (tarifa_hora c)) /\
  forall x, In x (reservas db) -> del_dia c fecha x = true ->
            solapa (hora_inicio r) fin x = false.
Proof.
  intros fin.
  apply ReservaForm_clean_ok_inv in Hclean. destruct Hclean as (-> & _ & Hno).
  rewrite ReservaForm_save_eval in Hsave. unfold db_insert in Hsave.
  cbn [hora_fin pk] in Hsave.
  destruct (violates_unique_confirmed _ (reservas db)); [discriminate|].
  injection Hsave as <- <-. split; [reflexivity|]. split; [reflexivity|].
  split; [reflexivity|].
  split; [exists (next_pk (reservas db)); split; [apply next_pk_libre|reflexivity]|].
  intros x Hx Hd. cbn [hora_inicio set_pk].
  pose proof (proj1 (existsb_false_iff _ _) Hno x Hx) as H. cbv beta in H.
  rewrite Hd in H. exact H.
Qed.

Lemma ReservaForm_clean_then_save_witness :
  exists r db2,
    ReservaForm_clean (Some cancha_central) (Some 101) (Some (time_hm 11 30)) db_una =
      (inr tt, db_una) /\
    ReservaForm_save 8 cancha_central 101 (time_hm 11 30) None db_una = (inr r, db2) /\
    reservas db2 = (reservas db_una ++ [r])%list /\
    hora_fin r = Some (time_hm 12 30) /\
    forall x, In x (reservas db_una) -> del_dia cancha_central 101 x = true ->
              solapa (hora_inicio r) (time_hm 12 30) x = false.
Proof.
  eexists _, _.
  assert (Hclean : ReservaForm_clean (Some cancha_central) (Some 101)
                     (Some (time_hm 11 30)) db_una = (inr tt, db_una))
    by (vm_compute; reflexivity).
  split; [exact Hclean|].
  assert (Hsave : ReservaForm_save 8 cancha_central 101 (time_hm 11 30) None db_una =
                  (inr (mk_reserva (Some 2) cancha_central 8 101 (time_hm 11 30)
                          (Some (time_hm 12 30)) confirmada None 8000),
                   mk_db (canchas db_una)
                         (reservas db_una ++
                          [mk_reserva (Some 2) cancha_central 8 101 (time_hm 11 30)
                             (Some (time_hm 12 30)) confirmada None 8000])))
    by (vm_compute; reflexivity).
  split; [exact Hsave|].
  destruct (ReservaForm_clean_then_save 8 cancha_central 101 (time_hm 11 30) None
              db_una db_una _ _ Hclean Hsave) as (_ & Hrows & _ & Hr & Hno).
  split; [exact Hrows|]. split; [reflexivity|]. exact Hno.
Defined.

Lemma time_h_leb_time_hm (h m : Z) : 0 <= m -> time_leb (time_h h) (time_hm h m) = true.
Proof.
  intros Hm. apply time_leb_iff. destruct (Z.eq_dec m 0) as [->|Hne].
  - right. reflexivity.
  - left. apply time_ltb_iff. unfold time_h, time_hm. simpl. lia.
Qed.

(** X7. What the booking form accepts, the quick-book check accepts too:
    when [ReservaForm.clean] passes for a court, date and start time with
    minutes not negative, [esta_disponible] with the defaulted end answers
    true for them. *)
Theorem ReservaForm_clean_implies_esta_disponible (c : Cancha) (fecha : date)
    (inicio : time) (db : DB)
    (Hmin : 0 <= minute inicio)
    (Hclean : ReservaForm_clean (Some c) (Some fecha) (Some inicio) db = (inr tt, db)) :
  esta_disponible c fecha inicio None db = (inr true, db).
Proof.
  apply ReservaForm_clean_ok_inv in Hclean. destruct Hclean as (_ & Ha & Hno).
  rewrite esta_disponible_eval, Ha.
  assert (H : existsb (fun r => del_dia c fecha r &&
                                solapa inicio (time_h ((hour inicio + 1) mod 24)) r)
                      (reservas db) = false).
  { apply existsb_false_iff. intros r Hr.
    pose proof (proj1 (existsb_false_iff _ _) Hno r Hr) as Hx. cbv beta in Hx.
    destruct (del_dia c fecha r); [|reflexivity]. simpl in *.
    unfold solapa in *. destruct (time_ltb (hora_inicio r) (time_h _)) eqn:E;
      [|reflexivity].
    rewrite (time_ltb_leb_trans _ _ _ E (time_h_leb_time_hm _ _ Hmin)) in Hx.
    exact Hx. }
  rewrite H. reflexivity.
Qed.

Lemma ReservaForm_clean_implies_esta_disponible_witness :
  0 <= minute (time_hm 11 30) /\
  ReservaForm_clean (Some cancha_central) (Some 101) (Some (time_hm 11 30)) db_una =
    (inr tt, db_una) /\
  esta_disponible cancha_central 101 (time_hm 11 30) None db_una = (inr true, db_una).
Proof.
  assert (Hmin : 0 <= minute (time_hm 11 30)) by (simpl; lia).
  assert (Hclean : ReservaForm_clean (Some cancha_central) (Some 101)
                     (Some (time_hm 11 30)) db_una = (inr tt, db_una))
    by (vm_compute; reflexivity).
  split; [exact Hmin|]. split; [exact Hclean|].
  exact (ReservaForm_clean_implies_esta_disponible cancha_central 101 (time_hm 11 30)
           db_una Hmin Hclean).
Defined.

(** ** Cancellation, row by row *)

Lemma cancelada_de_fields (u : option Usuario) (r : Reserva) :
  pk (cancelada_de u r) = pk r /\
  cancha (cancelada_de u r) = cancha r /\
  jugador (cancelada_de u r) = jugador r /\
  fecha_reserva (cancelada_de u r) = fecha_reserva r /\
  hora_inicio (cancelada_de u r) = hora_inicio r /\
  estado (cancelada_de u r) = cancelada /\
  notas (cancelada_de u r) =
    match u with
    | Some a => Some ("Cancelada por: " ++ get_full_name a)
    | None => notas r
    end /\
  precio_total (cancelada_de u r) =
    (if precio_total r =? 0 then tarifa_hora (cancha r) else precio_total r) /\
  (hora_fin r <> None -> hora_fin (cancelada_de u r) = hora_fin r).
Proof.
  unfold cancelada_de, save_defaults.
  destruct u; simpl; destruct (precio_total r =? 0); simpl;
    destruct (hora_fin r) eqn:E; simpl; rewrite ?E; repeat split;
    try reflexivity; intros H; congruence.
Qed.

Lemma cancelar_eval (hoy : date) (r : Reserva) (u : option Usuario) (k : Z) (db : DB) :
  puede_cancelar hoy r = true -> pk r = Some k ->
  existsb (has_pk k) (reservas db) = true ->
  cancelar hoy r u db =
  (inr (true, cancelada_de u r),
   mk_db (canchas db) (replace_pk k (cancelada_de u r) (reservas db))).
Proof.
  intros Hp Hk Hex. unfold cancelar. rewrite Hp. unfold bind.
  rewrite save_unfold. fold (cancelada_de u r).
  destruct (cancelada_de_fields u r) as (Ck & _ & _ & _ & _ & Ce & _).
  rewrite Hk in Ck.
  unfold Model_save. rewrite Ck, Hex. unfold db_update.
  pose proof (save_defaults_hora_fin
                (match u with
                 | Some a => set_notas ("Cancelada por: " ++ get_full_name a)
                                       (set_estado cancelada r)
                 | None => set_estado cancelada r
                 end)) as Hfin.
  fold (cancelada_de u r) in Hfin.
  destruct (hora_fin (cancelada_de u r)); [|congruence].
  unfold violates_unique_confirmed, is_confirmada. rewrite Ce.
  cbn [estado_eqb andb]. rewrite (set_pk_same k _ Ck). reflexivity.
Qed.

Lemma pk_unique_In (rows : list Reserva) (x y : Reserva) :
  NoDup (map pk rows) -> In x rows -> In y rows -> pk x = pk y -> x = y.
Proof.
  induction rows as [|z t IH]; simpl; intros Hnd Hx Hy Hk; [tauto|].
  inversion Hnd as [|? ? Hz Ht]; subst.
  destruct Hx as [<-|Hx], Hy as [<-|Hy].
  - reflexivity.
  - exfalso. apply Hz. rewrite Hk. apply in_map. exact Hy.
  - exfalso. apply Hz. rewrite <- Hk. apply in_map. exact Hx.
  - exact (IH Ht Hx Hy Hk).
Qed.

Lemma replace_pk_length (k : Z) (r : Reserva) (rows : list Reserva) :
  List.length (replace_pk k r rows) = List.length rows.
Proof. unfold replace_pk. apply length_map. Qed.

Lemma In_replace_pk_iff (k : Z) (r r' : Reserva) (rows : list Reserva) :
  NoDup (map pk rows) -> In r rows -> pk r = Some k ->
  forall x, In x (replace_pk k r' rows) <-> x = r' \/ (In x rows /\ x <> r).
Proof.
  intros Hnd Hr Hk x. split.
  - intros Hx. apply In_replace_pk_inv in Hx. destruct Hx as [->|[Hx Hkx]]; [auto|].
    right. split; [exact Hx|]. intros ->.
    assert (has_pk k r = true) by (apply has_pk_true; exact Hk). congruence.
  - intros [->|[Hx Hne]].
    + apply In_replace_pk. apply existsb_exists. exists r. split; [exact Hr|].
      apply has_pk_true. exact Hk.
    + unfold replace_pk. apply in_map_iff. exists x. split; [|exact Hx].
      destruct (has_pk k x) eqn:E; [|reflexivity].
      exfalso. apply Hne. apply has_pk_true in E.
      apply (pk_unique_In rows x r Hnd Hx Hr). congruence.
Qed.

(** X8. [cancelar] touches one row. On a reachable store, cancelling a
    stored reservation that can be cancelled keeps the table of courts and
    the number of reservations; the reservation keeps its key, the key of
    its court, its player, date and start time, and a price other than 0;
    every other reservation is in the store after the call exactly as
    before. *)
Theorem cancelar_frame (hoy : date) (r : Reserva) (u : option Usuario) (db : DB)
    (Hreach : reachable db)
    (Hin : In r (reservas db))
    (Hcan : puede_cancelar hoy r = true) :
  exists r' db',
    cancelar hoy r u db = (inr (true, r'), db') /\
    canchas db' = canchas db /\
    List.length (reservas db') = List.length (reservas db) /\
    pk r' = pk r /\ cancha_pk (cancha r') = cancha_pk (cancha r) /\
    jugador r' = jugador r /\
    fecha_reserva r' = fecha_reserva r /\ hora_inicio r' = hora_inicio r /\
    (precio_total r <> 0 -> precio_total r' = precio_total r) /\
    forall x, In x (reservas db') <-> x = r' \/ (In x (reservas db) /\ x <> r).
Proof.
  pose proof (reachable_inv db Hreach) as [_ Hnd Hpk].
  destruct (pk r) as [k|] eqn:Hk; [|exfalso; exact (Hpk r Hin Hk)].
  assert (Hex : existsb (has_pk k) (reservas db) = true).
  { apply existsb_exists. exists r. split; [exact Hin|]. apply has_pk_true. exact Hk. }
  exists (cancelada_de u r), (mk_db (canchas db) (replace_pk k (cancelada_de u r) (reservas db))).
  destruct (cancelada_de_fields u r) as (Ck & Cc & Cj & Cf & Ch & _ & _ & Cp & _).
  split; [exact (cancelar_eval hoy r u k db Hcan Hk Hex)|].
  split; [reflexivity|]. split; [apply replace_pk_length|].
  split; [congruence|]. split; [rewrite Cc; reflexivity|]. split; [exact Cj|].
  split; [exact Cf|]. split; [exact Ch|]. split.
  { intros Hp. rewrite Cp. apply Z.eqb_neq in Hp. rewrite Hp. reflexivity. }
  exact (In_replace_pk_iff k r (cancelada_de u r) (reservas db) Hnd Hin Hk).
Qed.

Lemma db_una_reachable : reachable db_una.
Proof. unfold db_una, objects_create. apply save_reachable. constructor. Qed.

Lemma cancelar_frame_witness :
  reachable db_una /\ In reserva_una (reservas db_una) /\
  puede_cancelar 100 reserva_una = true /\
  exists r' db',
    cancelar 100 reserva_una (Some ana) db_una = (inr (true, r'), db') /\
    canchas db' = canchas db_una /\
    List.length (reservas db') = List.length (reservas db_una) /\
    pk r' = pk reserva_una /\
    cancha_pk (cancha r') = cancha_pk (cancha reserva_una) /\
    jugador r' = jugador reserva_una /\
    fecha_reserva r' = fecha_reserva reserva_una /\
    hora_inicio r' = hora_inicio reserva_una /\
    (precio_total reserva_una <> 0 -> precio_total r' = precio_total reserva_una) /\
    forall x, In x (reservas db') <-> x = r' \/ (In x (reservas db_una) /\ x <> reserva_una).
Proof.
  assert (Hin : In reserva_una (reservas db_una)) by (left; reflexivity).
  split; [exact db_una_reachable|]. split; [exact Hin|]. split; [reflexivity|].
  exact (cancelar_frame 100 reserva_una (Some ana) db_una db_una_reachable Hin eq_refl).
Defined.

(** X9. Cancelling gives the slot back. On a reachable store, let a
    stored reservation that can be cancelled be the only confirmed
    reservation of its court and date that overlaps its own interval, the
    court being active. Before the cancellation [esta_disponible] answers
    false for that interval; after it, true. *)
Theorem cancelar_libera_horario (hoy : date) (r : Reserva) (u : option Usuario)
    (db : DB) (c : Cancha) (fin : time)
    (Hreach : reachable db)
    (Hin : In r (reservas db))
    (Hcan : puede_cancelar hoy r = true)
    (Hfin : hora_fin r = Some fin)
    (Hlt : time_ltb (hora_inicio r) fin = true)
    (Hc : cancha_pk c = cancha_pk (cancha r))
    (Ha : activa c = true)
    (Honly : forall x, In x (reservas db) -> del_dia c (fecha_reserva r) x = true ->
                       solapa (hora_inicio r) fin x = true -> x = r) :
  esta_disponible c (fecha_reserva r) (hora_inicio r) (Some fin) db = (inr false, db) /\
  exists r' db',
    cancelar hoy r u db = (inr (true, r'), db') /\
    esta_disponible c (fecha_reserva r) (hora_inicio r) (Some fin) db' = (inr true, db').
Proof.
  pose proof (reachable_inv db Hreach) as [_ _ Hpk].
  destruct (pk r) as [k|] eqn:Hk; [|exfalso; exact (Hpk r Hin Hk)].
  assert (Hex : existsb (has_pk k) (reservas db) = true).
  { apply existsb_exists. exists r. split; [exact Hin|]. apply has_pk_true. exact Hk. }
  apply puede_cancelar_iff in Hcan as Hconf. destruct Hconf as [Hconf _].
  split.
  - rewrite esta_disponible_eval, Ha.
    assert (H : existsb (fun x => del_dia c (fecha_reserva r) x &&
                                  solapa (hora_inicio r) fin x) (reservas db) = true).
    { apply existsb_exists. exists r. split; [exact Hin|].
      unfold del_dia, solapa. rewrite Hfin, Hlt, Hc, !Z.eqb_refl.
      apply is_confirmada_iff in Hconf. rewrite Hconf. reflexivity. }
    rewrite H. reflexivity.
  - eexists _, _. split; [exact (cancelar_eval hoy r u k db Hcan Hk Hex)|].
    rewrite esta_disponible_eval, Ha. cbn [reservas].
    assert (H : existsb (fun x => del_dia c (fecha_reserva r) x &&
                                  solapa (hora_inicio r) fin x)
                        (replace_pk k (cancelada_de u r) (reservas db)) = false).
    { apply existsb_false_iff. intros x Hx.
      apply In_replace_pk_inv in Hx. destruct Hx as [->|[Hx Hkx]].
      - destruct (cancelada_de_fields u r) as (_ & _ & _ & _ & _ & Ce & _).
        unfold del_dia, is_confirmada. rewrite Ce. cbn [estado_eqb].
        rewrite andb_false_r. reflexivity.
      - destruct (del_dia c (fecha_reserva r) x) eqn:Hd; [|reflexivity].
        destruct (solapa (hora_inicio r) fin x) eqn:Hs; [|reflexivity].
        exfalso. rewrite (Honly x Hx Hd Hs) in Hkx.
        assert (has_pk k r = true) by (apply has_pk_true; exact Hk). congruence. }
    rewrite H. reflexivity.
Qed.

Lemma cancelar_libera_horario_witness :
  reachable db_una /\ In reserva_una (reservas db_una) /\
  puede_cancelar 100 reserva_una = true /\
  (forall x, In x (reservas db_una) -> del_dia cancha_central 101 x = true ->
             solapa (time_h 10) (time_h 11) x = true -> x = reserva_una) /\
  esta_disponible cancha_central 101 (time_h 10) (Some (time_h 11)) db_una =
    (inr false, db_una) /\
  exists r' db',
    cancelar 100 reserva_una None db_una = (inr (true, r'), db') /\
    esta_disponible cancha_central 101 (time_h 10) (Some (time_h 11)) db' = (inr true, db').
Proof.
  assert (Hin : In reserva_una (reservas db_una)) by (left; reflexivity).
  assert (Honly : forall x, In x (reservas db_una) ->
                            del_dia cancha_central 101 x = true ->
                            solapa (time_h 10) (time_h 11) x = true -> x = reserva_una).
  { intros x [<-|[]] _ _. reflexivity. }
  split; [exact db_una_reachable|]. split; [exact Hin|]. split; [reflexivity|].
  split; [exact Honly|].
  exact (cancelar_libera_horario 100 reserva_una None db_una cancha_central (time_h 11)
           db_una_reachable Hin eq_refl eq_refl eq_refl eq_refl eq_refl Honly).
Defined.

(** ** The view [cancelar_reserva] *)

Lemma find_has_pk (k : Z) (rows : list Reserva) (r : Reserva) :
  find (has_pk k) rows = Some r ->
  In r rows /\ pk r = Some k /\ existsb (has_pk k) rows = true.
Proof.
  intros H. apply find_some in H. destruct H as [Hin Hk].
  split; [exact Hin|]. split; [apply has_pk_true; exact Hk|].
  apply existsb_exists. eauto.
Qed.

(** X10. [cancelar_reserva] never raises, and it changes the store in one
    situation only: the request is a POST of a logged-in user who is the
    player of the reservation or an administrator, the reservation exists
    and can be cancelled. In every other situation (anonymous user, unknown
    key, another player, another method, a reservation that is cancelled,
    finished or past) the store after the view is the store before. *)
Theorem cancelar_reserva_guard (hoy : date) (usuario : option Cuenta) (metodo : Method)
    (reserva_id : Z) (db : DB) :
  exists resp db',
    cancelar_reserva hoy usuario metodo reserva_id db = (inr resp, db') /\
    (db' = db \/
     exists u r,
       usuario = Some u /\ metodo = POST /\
       find (has_pk reserva_id) (reservas db) = Some r /\
       (usuario_pk (cuenta_usuario u) = jugador r \/ rol u = "administrador") /\
       puede_cancelar hoy r = true).
Proof.
  unfold cancelar_reserva. destruct usuario as [u|];
    [|eexists _, _; split; [reflexivity|left; reflexivity]].
  unfold bind at 1.
  destruct (find (has_pk reserva_id) (reservas db)) as [r|] eqn:Hfind;
    [|eexists _, _; split; [reflexivity|left; reflexivity]].
  destruct ((usuario_pk (cuenta_usuario u) =? jugador r) || Usuario_es_administrador u)
    eqn:Hauth; cbn [negb];
    [|eexists _, _; split; [reflexivity|left; reflexivity]].
  assert (Hauth' : usuario_pk (cuenta_usuario u) = jugador r \/ rol u = "administrador").
  { apply orb_true_iff in Hauth. destruct Hauth as [H|H].
    - left. apply Z.eqb_eq. exact H.
    - right. apply String.eqb_eq. exact H. }
  destruct metodo.
  - unfold bind, ret. destruct (Usuario_es_administrador u);
      eexists _, _; (split; [reflexivity|left; reflexivity]).
  - destruct (puede_cancelar hoy r) eqn:Hcan.
    + destruct (find_has_pk _ _ _ Hfind) as (_ & Hk & Hex).
      unfold bind. rewrite (cancelar_eval hoy r _ reserva_id db Hcan Hk Hex).
      unfold ret. destruct (Usuario_es_administrador u);
        eexists _, _; (split; [reflexivity|]); right; exists u, r; auto.
    + unfold bind, ret. destruct (Usuario_es_administrador u);
        eexists _, _; (split; [reflexivity|left; reflexivity]).
Qed.

Lemma find_replace_pk (k : Z) (r' : Reserva) (rows : list Reserva) :
  existsb (has_pk k) rows = true -> has_pk k r' = true ->
  find (has_pk k) (replace_pk k r' rows) = Some r'.
Proof.
  intros Hex Hk. unfold replace_pk.
  induction rows as [|x t IH]; simpl in *; [discriminate|].
  destruct (has_pk k x) eqn:Hx.
  - rewrite Hk. reflexivity.
  - rewrite Hx. apply IH. exact Hex.
Qed.

(** X11. The effect of [cancelar_reserva]. On a reachable store, a POST
    by the player of a reservation, or by an administrator, for a
    reservation that can be cancelled redirects with the success message
    (administrators to [admin_reservas], players to [mis_reservas]); the
    row with that key is then cancelled and carries the note "Cancelada
    por: " followed by the full name of the user, every other row is
    unchanged, and the same POST sent again answers with the error message
    and changes nothing. *)
Theorem cancelar_reserva_effect (hoy : date) (u : Cuenta) (reserva_id : Z)
    (db : DB) (r : Reserva)
    (Hreach : reachable db)
    (Hfind : find (has_pk reserva_id) (reservas db) = Some r)
    (Hauth : usuario_pk (cuenta_usuario u) = jugador r \/ rol u = "administrador")
    (Hcan : puede_cancelar hoy r = true) :
  let destino := if Usuario_es_administrador u then "admin_reservas" else "mis_reservas" in
  exists r' db',
    cancelar_reserva hoy (Some u) POST reserva_id db =
      (inr (Redirect destino (Some (msg_success "Reserva cancelada exitosamente."))), db') /\
    find (has_pk reserva_id) (reservas db') = Some r' /\
    estado r' = cancelada /\
    notas r' = Some ("Cancelada por: " ++ get_full_name (cuenta_usuario u)) /\
    (forall x, In x (reservas db') <-> x = r' \/ (In x (reservas db) /\ x <> r)) /\
    cancelar_reserva hoy (Some u) POST reserva_id db' =
      (inr (Redirect destino (Some (msg_error "No se puede cancelar esta reserva."))), db').
Proof.
  intros destino.
  pose proof (reachable_inv db Hreach) as [_ Hnd _].
  destruct (find_has_pk _ _ _ Hfind) as (Hin & Hk & Hex).
  set (r' := cancelada_de (Some (cuenta_usuario u)) r).
  destruct (cancelada_de_fields (Some (cuenta_usuario u)) r)
    as (Ck & _ & Cj & _ & _ & Ce & Cn & _). fold r' in Ck, Cj, Ce, Cn.
  assert (Hk' : has_pk reserva_id r' = true) by (apply has_pk_true; congruence).
  assert (Hauthb : (usuario_pk (cuenta_usuario u) =? jugador r)
                   || Usuario_es_administrador u = true).
  { apply orb_true_iff. destruct Hauth as [H|H].
    - left. apply Z.eqb_eq. exact H.
    - right. apply String.eqb_eq. exact H. }
  exists r', (mk_db (canchas db) (replace_pk reserva_id r' (reservas db))).
  assert (Hfind' : find (has_pk reserva_id) (replace_pk reserva_id r' (reservas db)) = Some r')
    by (apply find_replace_pk; assumption).
  split.
  { unfold cancelar_reserva, bind at 1. rewrite Hfind, Hauthb. cbn [negb].
    rewrite Hcan. unfold bind.
    rewrite (cancelar_eval hoy r _ reserva_id db Hcan Hk Hex). fold r'.
    unfold ret, destino. destruct (Usuario_es_administrador u); reflexivity. }
  split; [exact Hfind'|]. split; [exact Ce|]. split; [exact Cn|].
  split; [exact (In_replace_pk_iff reserva_id r r' (reservas db) Hnd Hin Hk)|].
  unfold cancelar_reserva, bind at 1. cbn [reservas]. rewrite Hfind'.
  rewrite Cj, Hauthb. cbn [negb].
  assert (Hno : puede_cancelar hoy r' = false).
  { unfold puede_cancelar, is_confirmada. rewrite Ce. reflexivity. }
  rewrite Hno. unfold bind, ret, destino.
  destruct (Usuario_es_administrador u); reflexivity.
Qed.

Lemma cancelar_reserva_effect_witness :
  reachable db_una /\
  find (has_pk 1) (reservas db_una) = Some reserva_una /\
  (usuario_pk (cuenta_usuario cuenta_ana) = jugador reserva_una \/
   rol cuenta_ana = "administrador") /\
  puede_cancelar 100 reserva_una = true /\
  exists r' db',
    cancelar_reserva 100 (Some cuenta_ana) POST 1 db_una =
      (inr (Redirect "mis_reservas" (Some (msg_success "Reserva cancelada exitosamente."))),
       db') /\
    find (has_pk 1) (reservas db') = Some r' /\
    estado r' = cancelada /\
    notas r' = Some ("Cancelada por: " ++ get_full_name (cuenta_usuario cuenta_ana)) /\
    (forall x, In x (reservas db') <-> x = r' \/ (In x (reservas db_una) /\ x <> reserva_una)) /\
    cancelar_reserva 100 (Some cuenta_ana) POST 1 db' =
      (inr (Redirect "mis_reservas" (Some (msg_error "No se puede cancelar esta reserva."))),
       db').
Proof.
  assert (Hauth : usuario_pk (cuenta_usuario cuenta_ana) = jugador reserva_una \/
                  rol cuenta_ana = "administrador") by (left; reflexivity).
  split; [exact db_una_reachable|]. split; [reflexivity|]. split; [exact Hauth|].
  split; [reflexivity|].
  exact (cancelar_reserva_effect 100 cuenta_ana 1 db_una reserva_una
           db_una_reachable eq_refl Hauth eq_refl).
Defined.

(** ** Bulk actions of the admin *)

Lemma length_filter_map_split {A} (pc hit : A -> bool) (g : A -> A) (l : list A) :
  (forall r, pc (g r) = pc r && negb (hit r)) ->
  (forall r, hit r = true -> pc r = true) ->
  (List.length (filter pc (map g l)) + List.length (filter hit l) =
   List.length (filter pc l))%nat.
Proof.
  intros Hg Hh. induction l as [|x t IH]; [reflexivity|].
  simpl. rewrite Hg. destruct (hit x) eqn:Ex.
  - rewrite (Hh x Ex). simpl. lia.
  - rewrite andb_true_r. destruct (pc x); simpl; lia.
Qed.

Lemma queryset_update_estado_facts (q : Reserva -> bool) (e : Estado) (db : DB) :
  e <> confirmada ->
  let hit r := q r && is_confirmada r in
  let db' := snd (queryset_update_estado q e db) in
  queryset_update_estado q e db = (inr (List.length (filter hit (reservas db))), db') /\
  canchas db' = canchas db /\
  List.length (reservas db') = List.length (reservas db) /\
  (forall i r, nth_error (reservas db) i = Some r ->
               nth_error (reservas db') i = Some (if hit r then set_estado e r else r)) /\
  (List.length (filter is_confirmada (reservas db')) +
   List.length (filter hit (reservas db)) =
   List.length (filter is_confirmada (reservas db)))%nat /\
  queryset_update_estado q e db' = (inr 0%nat, db').
Proof.
  intros He hit db'. unfold db', queryset_update_estado. cbn [snd canchas reservas].
  fold hit. set (g := fun r : Reserva => if hit r then set_estado e r else r).
  change (fun r : Reserva => if q r && is_confirmada r then set_estado e r else r) with g.
  assert (Hg : forall r, hit (g r) = false).
  { intros r. unfold g. destruct (hit r) eqn:E; [|exact E].
    unfold hit, is_confirmada. cbn [estado set_estado].
    destruct e; try reflexivity; try (apply andb_false_r). congruence. }
  assert (Hgc : forall r, is_confirmada (g r) = is_confirmada r && negb (hit r)).
  { intros r. unfold g. destruct (hit r) eqn:E.
    - unfold is_confirmada at 1. cbn [estado set_estado].
      destruct e; try (rewrite andb_false_r; reflexivity). congruence.
    - rewrite andb_true_r. reflexivity. }
  split; [reflexivity|]. split; [reflexivity|]. split; [apply length_map|].
  split; [|split].
  - intros i r Hi. rewrite nth_error_map, Hi. reflexivity.
  - apply length_filter_map_split; [exact Hgc|].
    intros r Hr. unfold hit in Hr. apply andb_true_iff in Hr. tauto.
  - assert (Hnil : filter hit (map g (reservas db)) = []).
    { apply filter_nil_iff. intros x Hx. apply in_map_iff in Hx.
      destruct Hx as (y & <- & _). apply Hg. }
    rewrite Hnil. cbn [List.length]. f_equal. f_equal.
    rewrite map_map. apply map_ext. intros r.
    pose proof (Hg r) as H. fold (g r). unfold g at 1. rewrite H. reflexivity.
Qed.

(** X12. The admin actions [marcar_completadas] and [marcar_no_show]
    never raise and keep the courts and the number of rows. Each returns
    the number of selected confirmed reservations and moves exactly these
    to the new status: a row that is not selected, or not confirmed
    (cancelled, completed, no-show), stays as it is at its place. The
    number of confirmed rows drops by the number returned, and running the
    same action again returns 0 and changes nothing. *)
Theorem marcar_spec (queryset : Reserva -> bool) (db : DB) :
  let hit r := queryset r && is_confirmada r in
  (let db' := snd (marcar_completadas queryset db) in
   marcar_completadas queryset db =
     (inr (List.length (filter hit (reservas db))), db') /\
   canchas db' = canchas db /\
   (forall i r, nth_error (reservas db) i = Some r ->
                nth_error (reservas db') i =
                Some (if hit r then set_estado completada r else r)) /\
   (List.length (filter is_confirmada (reservas db')) +
    List.length (filter hit (reservas db)) =
    List.length (filter is_confirmada (reservas db)))%nat /\
   marcar_completadas queryset db' = (inr 0%nat, db')) /\
  (let db' := snd (marcar_no_show queryset db) in
   marcar_no_show queryset db =
     (inr (List.length (filter hit (reservas db))), db') /\
   canchas db' = canchas db /\
   (forall i r, nth_error (reservas db) i = Some r ->
                nth_error (reservas db') i =
                Some (if hit r then set_estado no_show r else r)) /\
   (List.length (filter is_confirmada (reservas db')) +
    List.length (filter hit (reservas db)) =
    List.length (filter is_confirmada (reservas db)))%nat /\
   marcar_no_show queryset db' = (inr 0%nat, db')).
Proof.
  intros hit. split.
  - assert (He : completada <> confirmada) by discriminate.
    destruct (queryset_update_estado_facts queryset completada db He)
      as (H1 & H2 & _ & H4 & H5 & H6).
    unfold marcar_completadas. repeat split; assumption.
  - assert (He : no_show <> confirmada) by discriminate.
    destruct (queryset_update_estado_facts queryset no_show db He)
      as (H1 & H2 & _ & H4 & H5 & H6).
    unfold marcar_no_show. repeat split; assumption.
Qed.

Lemma existsb_has_pk_replace (k k' : Z) (r' : Reserva) (rows : list Reserva) :
  pk r' = Some k ->
  existsb (has_pk k') (replace_pk k r' rows) = existsb (has_pk k') rows.
Proof.
  intros Hk. unfold replace_pk. induction rows as [|x t IH]; simpl; [reflexivity|].
  rewrite IH. f_equal. destruct (has_pk k x) eqn:Hx; [|reflexivity].
  apply has_pk_true in Hx. unfold has_pk. rewrite Hk, Hx. reflexivity.
Qed.

Lemma cancelar_cada_eval (hoy : date) (rs : list Reserva) :
  forall (count : nat) (db : DB),
    (forall r, In r rs -> exists k, pk r = Some k /\
                                    existsb (has_pk k) (reservas db) = true) ->
    cancelar_cada hoy rs count db =
    (inr (count + List.length (filter (puede_cancelar hoy) rs))%nat,
     mk_db (canchas db) (fold_left (cancelar_fila hoy) rs (reservas db))).
Proof.
  induction rs as [|r t IH]; intros count db Hrs.
  - simpl. unfold ret. rewrite Nat.add_0_r. destruct db; reflexivity.
  - cbn [cancelar_cada filter fold_left]. unfold cancelar_fila at 2.
    destruct (Hrs r (or_introl eq_refl)) as (k & Hk & Hex).
    destruct (puede_cancelar hoy r) eqn:Hp.
    + unfold bind. rewrite (cancelar_eval hoy r None k db Hp Hk Hex), Hk.
      rewrite IH.
      * cbn [canchas reservas List.length]. f_equal. f_equal. lia.
      * intros x Hx. destruct (Hrs x (or_intror Hx)) as (k' & Hk' & Hex').
        exists k'. split; [exact Hk'|]. cbn [reservas].
        rewrite existsb_has_pk_replace; [exact Hex'|].
        destruct (cancelada_de_fields None r) as (Ck & _). congruence.
    + apply IH. intros x Hx. exact (Hrs x (or_intror Hx)).
Qed.

Lemma cancelar_fila_map (hoy : date) (rows : list Reserva) (r : Reserva) :
  cancelar_fila hoy rows r =
  map (fun x => if cancela_a hoy x r then cancelada_de None r else x) rows.
Proof.
  unfold cancelar_fila, cancela_a. destruct (puede_cancelar hoy r).
  - destruct (pk r) as [k|].
    + unfold replace_pk. apply map_ext. intros x. rewrite andb_true_r. reflexivity.
    + symmetry. rewrite <- (map_id rows) at 2. apply map_ext. reflexivity.
  - symmetry. rewrite <- (map_id rows) at 2. apply map_ext. intros x.
    rewrite andb_false_r. reflexivity.
Qed.

Lemma fold_cancelar_fila (hoy : date) (rs : list Reserva) :
  NoDup (map pk rs) ->
  forall rows,
    fold_left (cancelar_fila hoy) rs rows =
    map (fun x => match find (cancela_a hoy x) rs with
                  | Some r => cancelada_de None r
                  | None => x
                  end) rows.
Proof.
  induction rs as [|r t IH]; intros Hnd rows.
  - simpl. symmetry. apply map_id.
  - inversion Hnd as [|? ? Hr Ht]; subst.
    cbn [fold_left]. rewrite (IH Ht), cancelar_fila_map, map_map.
    apply map_ext. intros x. cbn [find].
    destruct (cancela_a hoy x r) eqn:E; [|reflexivity].
    assert (Hnone : find (cancela_a hoy (cancelada_de None r)) t = None).
    { destruct (find (cancela_a hoy (cancelada_de None r)) t) as [y|] eqn:F;
        [|reflexivity].
      exfalso. apply find_some in F. destruct F as [Hy Hc].
      unfold cancela_a in Hc. apply andb_true_iff in Hc. destruct Hc as [Hc _].
      destruct (pk y) as [ky|] eqn:Hky; [|discriminate].
      apply has_pk_true in Hc.
      destruct (cancelada_de_fields None r) as (Ck & _).
      apply Hr. rewrite <- Ck, Hc, <- Hky. apply in_map. exact Hy. }
    rewrite Hnone. reflexivity.
Qed.

Lemma find_cancela_a_filter (hoy : date) (q : Reserva -> bool) (rows : list Reserva)
    (x : Reserva) :
  NoDup (map pk rows) -> (forall r, In r rows -> pk r <> None) -> In x rows ->
  match find (cancela_a hoy x) (filter q rows) with
  | Some r => cancelada_de None r
  | None => x
  end = if q x && puede_cancelar hoy x then cancelada_de None x else x.
Proof.
  intros Hnd Hpk Hx.
  destruct (find (cancela_a hoy x) (filter q rows)) as [r|] eqn:F.
  - apply find_some in F. destruct F as [Hr Hc]. apply filter_In in Hr.
    destruct Hr as [Hr Hq]. unfold cancela_a in Hc. apply andb_true_iff in Hc.
    destruct Hc as [Hc Hp]. destruct (pk r) as [k|] eqn:Hk; [|discriminate].
    apply has_pk_true in Hc.
    assert (x = r) by (apply (pk_unique_In rows x r Hnd Hx Hr); congruence).
    subst x. rewrite Hq, Hp. reflexivity.
  - destruct (q x && puede_cancelar hoy x) eqn:E; [|reflexivity].
    exfalso. apply andb_true_iff in E. destruct E as [Hq Hp].
    assert (Hf : In x (filter q rows)) by (apply filter_In; auto).
    pose proof (find_none _ _ F x Hf) as Hc. unfold cancela_a in Hc.
    destruct (pk x) as [k|] eqn:Hk; [|exact (Hpk x Hx Hk)].
    rewrite Hp, andb_true_r in Hc.
    assert (has_pk k x = true) by (apply has_pk_true; exact Hk). congruence.
Qed.

Lemma filter_filter_andb {A} (p q : A -> bool) (l : list A) :
  filter p (filter q l) = filter (fun r => q r && p r) l.
Proof.
  induction l as [|x t IH]; [reflexivity|]. simpl.
  destruct (q x); simpl; [|exact IH].
  destruct (p x); simpl; rewrite IH; reflexivity.
Qed.

(** The loop of [cancelar_reservas] in closed form, on the rows of the
    embedding. *)
Lemma cancelar_reservas_eval (hoy : date) (queryset : Reserva -> bool) (db : DB)
    (Hreach : reachable db) :
  let hit r := queryset r && puede_cancelar hoy r in
  cancelar_reservas hoy queryset db =
  (inr (List.length (filter hit (reservas db))),
   mk_db (canchas db)
         (map (fun r => if hit r then cancelada_de None r else r) (reservas db))).
Proof.
  intros hit. pose proof (reachable_inv db Hreach) as [_ Hnd Hpk].
  unfold cancelar_reservas, bind, reservas_filter.
  rewrite cancelar_cada_eval.
  - f_equal.
    + f_equal. cbn [Nat.add]. f_equal. unfold hit. apply filter_filter_andb.
    + f_equal. rewrite fold_cancelar_fila by (apply NoDup_map_filter; exact Hnd).
      apply map_ext_in. intros x Hx.
      exact (find_cancela_a_filter hoy queryset (reservas db) x Hnd Hpk Hx).
  - intros r Hr. apply filter_In in Hr. destruct Hr as [Hr _].
    destruct (pk r) as [k|] eqn:Hk; [|exfalso; exact (Hpk r Hr Hk)].
    exists k. split; [reflexivity|]. apply existsb_exists. exists r.
    split; [exact Hr|]. apply has_pk_true. exact Hk.
Qed.

Lemma db_tres_reachable : reachable db_tres.
Proof.
  unfold db_tres. apply save_reachable. apply save_reachable. exact db_una_reachable.
Qed.

(** X13. The admin action [cancelar_reservas] on a reachable store never
    raises. It returns the number of selected reservations that can be
    cancelled (confirmed and dated today or later). The courts, the number
    of rows and their places are kept. A row not selected, or selected but
    not cancellable, is unchanged. A selected cancellable row becomes
    cancelled and keeps its key, the key of its court, its player, date,
    start, notes (no attribution note is written), its end time and a price
    other than 0. *)
Theorem cancelar_reservas_spec (hoy : date) (queryset : Reserva -> bool) (db : DB)
    (Hreach : reachable db) :
  let hit r := queryset r && puede_cancelar hoy r in
  exists db',
    cancelar_reservas hoy queryset db =
      (inr (List.length (filter hit (reservas db))), db') /\
    canchas db' = canchas db /\
    List.length (reservas db') = List.length (reservas db) /\
    forall i r, nth_error (reservas db) i = Some r ->
      exists r',
        nth_error (reservas db') i = Some r' /\
        (hit r = false -> r' = r) /\
        (hit r = true ->
         estado r' = cancelada /\ pk r' = pk r /\
         cancha_pk (cancha r') = cancha_pk (cancha r) /\
         jugador r' = jugador r /\ fecha_reserva r' = fecha_reserva r /\
         hora_inicio r' = hora_inicio r /\ notas r' = notas r /\
         (hora_fin r <> None -> hora_fin r' = hora_fin r) /\
         (precio_total r <> 0 -> precio_total r' = precio_total r)).
Proof.
  intros hit. eexists. split; [exact (cancelar_reservas_eval hoy queryset db Hreach)|].
  cbn [canchas reservas]. split; [reflexivity|]. split; [apply length_map|].
  intros i r Hi.
  exists (if hit r then cancelada_de None r else r). split.
  { exact (map_nth_error (fun r => if hit r then cancelada_de None r else r) i
                         (reservas db) Hi). }
  split.
  - intros Hh. rewrite Hh. reflexivity.
  - intros Hh. rewrite Hh.
    destruct (cancelada_de_fields None r) as (Ck & Cc & Cj & Cf & Ch & Ce & Cn & Cp & Cfin).
    split; [exact Ce|]. split; [exact Ck|]. split; [rewrite Cc; reflexivity|].
    split; [exact Cj|]. split; [exact Cf|]. split; [exact Ch|]. split; [exact Cn|].
    split; [exact Cfin|].
    intros Hp. rewrite Cp. apply Z.eqb_neq in Hp. rewrite Hp. reflexivity.
Qed.

Lemma cancelar_reservas_spec_witness :
  reachable db_tres /\
  reservas db_tres = [reserva_una; reserva_dos; reserva_pasada] /\
  exists db',
    cancelar_reservas 100 (fun r => jugador r =? 7) db_tres = (inr 1%nat, db') /\
    canchas db' = canchas db_tres /\
    List.length (reservas db') = 3%nat.
Proof.
  split; [exact db_tres_reachable|]. split; [reflexivity|].
  destruct (cancelar_reservas_spec 100 (fun r => jugador r =? 7) db_tres
              db_tres_reachable) as (db' & Hrun & Hcs & Hlen & _).
  exists db'. split; [exact Hrun|]. split; [exact Hcs|exact Hlen].
Defined.

(** ** The reservation lists of a user *)

Section OrderBy.
Context {A : Type} (leb : A -> A -> bool).
Hypothesis leb_total : forall a b, leb a b = true \/ leb b a = true.
Hypothesis leb_trans : forall a b c, leb a b = true -> leb b c = true -> leb a c = true.

Lemma insert_by_perm (x : A) (l : list A) : Permutation (insert_by leb x l) (x :: l).
Proof.
  induction l as [|y t IH]; simpl; [apply Permutation_refl|].
  destruct (leb x y); [apply Permutation_refl|].
  apply perm_trans with (y :: x :: t); [apply perm_skip; exact IH|apply perm_swap].
Qed.

Lemma order_by_perm (l : list A) : Permutation (order_by leb l) l.
Proof.
  unfold order_by. induction l as [|x t IH]; simpl; [apply perm_nil|].
  apply perm_trans with (x :: fold_right (insert_by leb) [] t).
  - apply insert_by_perm.
  - apply perm_skip. exact IH.
Qed.

Lemma insert_by_sorted (x : A) (l : list A) :
  StronglySorted (fun a b => leb a b = true) l ->
  StronglySorted (fun a b => leb a b = true) (insert_by leb x l).
Proof.
  induction 1 as [|y t Ht IH Hy]; simpl; [repeat constructor|].
  destruct (leb x y) eqn:E.
  - constructor; [constructor; assumption|].
    constructor; [exact E|].
    apply Forall_forall. intros z Hz.
    exact (leb_trans x y z E (proj1 (Forall_forall _ _) Hy z Hz)).
  - constructor; [exact IH|].
    assert (Hyx : leb y x = true) by (destruct (leb_total x y); congruence).
    apply Forall_forall. intros z Hz.
    apply (Permutation_in _ (insert_by_perm x t)) in Hz.
    destruct Hz as [<-|Hz]; [exact Hyx|].
    exact (proj1 (Forall_forall _ _) Hy z Hz).
Qed.

Lemma order_by_sorted (l : list A) :
  StronglySorted (fun a b => leb a b = true) (order_by leb l).
Proof.
  unfold order_by. induction l as [|x t IH]; simpl; [constructor|].
  apply insert_by_sorted. exact IH.
Qed.
End OrderBy.

Lemma time_leb_trans (a b c : time) :
  time_leb a b = true -> time_leb b c = true -> time_leb a c = true.
Proof.
  rewrite !time_leb_iff. intros [H1 | ->] [H2 | ->]; auto.
  left. exact (time_ltb_trans a b c H1 H2).
Qed.

Lemma fecha_hora_leb_iff (a b : Reserva) :
  fecha_hora_leb a b = true <->
  fecha_reserva a < fecha_reserva b \/
  (fecha_reserva a = fecha_reserva b /\ time_leb (hora_inicio a) (hora_inicio b) = true).
Proof.
  unfold fecha_hora_leb. rewrite orb_true_iff, andb_true_iff, Z.ltb_lt, Z.eqb_eq.
  reflexivity.
Qed.

Lemma fecha_hora_leb_total (a b : Reserva) :
  fecha_hora_leb a b = true \/ fecha_hora_leb b a = true.
Proof.
  rewrite !fecha_hora_leb_iff.
  destruct (Z.lt_trichotomy (fecha_reserva a) (fecha_reserva b)) as [H|[H|H]];
    [left; left; exact H| |right; left; exact H].
  destruct (time_leb_total (hora_inicio a) (hora_inicio b)) as [T|T].
  - left. right. split; [exact H|exact T].
  - right. right. split; [symmetry; exact H|exact T].
Qed.

Lemma fecha_hora_leb_trans (a b c : Reserva) :
  fecha_hora_leb a b = true -> fecha_hora_leb b c = true -> fecha_hora_leb a c = true.
Proof.
  rewrite !fecha_hora_leb_iff. intros [H1|[H1 T1]] [H2|[H2 T2]].
  - left. lia.
  - left. lia.
  - left. lia.
  - right. split; [lia|]. exact (time_leb_trans _ _ _ T1 T2).
Qed.

(** X14. [Usuario.get_reservas_activas] reads the store without changing
    it and returns each reservation of the user that can be cancelled
    (confirmed, dated today or later) exactly as often as the table holds
    it, and nothing else, ordered by date and then by start time, earliest
    first. *)
Theorem get_reservas_activas_spec (hoy : date) (self : Usuario) (db : DB) :
  exists rs,
    get_reservas_activas hoy self db = (inr rs, db) /\
    Permutation rs (filter (fun r => (jugador r =? usuario_pk self) &&
                                     puede_cancelar hoy r) (reservas db)) /\
    (forall r, In r rs <->
               In r (reservas db) /\ jugador r = usuario_pk self /\
               puede_cancelar hoy r = true) /\
    StronglySorted (fun a b => fecha_hora_leb a b = true) rs.
Proof.
  unfold get_reservas_activas, bind, reservas_filter, ret.
  eexists. split; [reflexivity|].
  assert (Hf : filter (fun r => (jugador r =? usuario_pk self) && is_confirmada r &&
                                (hoy <=? fecha_reserva r)) (reservas db) =
               filter (fun r => (jugador r =? usuario_pk self) && puede_cancelar hoy r)
                      (reservas db)).
  { apply filter_ext. intros r. unfold puede_cancelar. rewrite andb_assoc. reflexivity. }
  rewrite Hf. split; [apply order_by_perm|]. split.
  - intros r. split.
    + intros Hr. apply (Permutation_in _ (order_by_perm _ _)) in Hr.
      apply filter_In in Hr. destruct Hr as [Hr Hp].
      apply andb_true_iff in Hp. destruct Hp as [Hj Hp]. apply Z.eqb_eq in Hj. auto.
    + intros (Hr & Hj & Hp).
      apply (Permutation_in _ (Permutation_sym (order_by_perm _ _))).
      apply filter_In. split; [exact Hr|]. rewrite Hp, andb_true_r.
      apply Z.eqb_eq. exact Hj.
  - apply order_by_sorted; [exact fecha_hora_leb_total|exact fecha_hora_leb_trans].
Qed.

(** X15. [Usuario.get_historial_reservas] reads the store without
    changing it and returns every reservation of the user, whatever its
    status, exactly as often as the table holds it, and nothing else,
    ordered by date and then by start time, latest first. *)
Theorem get_historial_reservas_spec (self : Usuario) (db : DB) :
  exists rs,
    get_historial_reservas self db = (inr rs, db) /\
    Permutation rs (filter (fun r => jugador r =? usuario_pk self) (reservas db)) /\
    StronglySorted (fun a b => fecha_hora_leb b a = true) rs.
Proof.
  unfold get_historial_reservas, bind, reservas_filter, ret.
  eexists. split; [reflexivity|]. split; [apply order_by_perm|].
  apply (order_by_sorted fecha_hora_geb).
  - intros a b. unfold fecha_hora_geb. destruct (fecha_hora_leb_total a b); auto.
  - intros a b c H1 H2. unfold fecha_hora_geb in *.
    exact (fecha_hora_leb_trans c b a H2 H1).
Qed.

(** ** Deactivating a court *)

Lemma find_desactivada (cid : Z) (c' : Cancha) (cs : list Cancha) :
  activa c' = false ->
  find (fun x => (cancha_pk x =? cid) && activa x)
       (map (fun x => if cancha_pk x =? cid then c' else x) cs) = None.
Proof.
  intros Hc. induction cs as [|x t IH]; simpl; [reflexivity|].
  destruct (cancha_pk x =? cid) eqn:E.
  - rewrite Hc, andb_false_r. exact IH.
  - rewrite E. simpl. exact IH.
Qed.

(** X16. The guard of [eliminar_cancha]. The view never raises and never
    touches the reservations. It changes the table of courts only for a
    POST of an administrator naming an existing court; an anonymous user
    or a player is sent to the login page, and a GET only renders the
    confirmation page. *)
Theorem eliminar_cancha_guard (hoy : date) (usuario : option Cuenta) (metodo : Method)
    (cancha_id : Z) (db : DB) :
  exists resp db',
    eliminar_cancha hoy usuario metodo cancha_id db = (inr resp, db') /\
    reservas db' = reservas db /\
    (es_administrador usuario = false -> resp = RedirectLogin) /\
    (db' = db \/
     (es_administrador usuario = true /\ metodo = POST /\
      exists c, find (fun c => cancha_pk c =? cancha_id) (canchas db) = Some c)).
Proof.
  unfold eliminar_cancha. destruct (es_administrador usuario) eqn:Hadm; cbn [negb].
  2:{ eexists _, _. split; [reflexivity|]. split; [reflexivity|].
      split; [reflexivity|left; reflexivity]. }
  unfold bind at 1.
  destruct (find (fun c => cancha_pk c =? cancha_id) (canchas db)) as [c|] eqn:Hfind.
  2:{ eexists _, _. split; [reflexivity|]. split; [reflexivity|].
      split; [discriminate|left; reflexivity]. }
  unfold bind, count_reservas, bind, reservas_filter, ret, Cancha_save.
  destruct metodo.
  - eexists _, _. split; [reflexivity|]. split; [reflexivity|].
    split; [discriminate|left; reflexivity].
  - cbn [cancha_pk set_activa].
    destruct (existsb (fun c0 => cancha_pk c0 =? cancha_pk c) (canchas db));
      eexists _, _; (split; [reflexivity|]); (split; [reflexivity|]);
      (split; [discriminate|]); right; eauto.
Qed.

(** X17. The effect of [eliminar_cancha]. After the POST of an
    administrator for an existing court, that court is inactive and
    otherwise as before, the other courts and all reservations are
    untouched (the reservations of the court are neither deleted nor
    cancelled), the slot listing of the court is empty, and every
    quick-book request for the court is refused without changing the
    store. *)
Theorem eliminar_cancha_effect (hoy : date) (u : Cuenta) (cancha_id : Z) (db : DB)
    (c : Cancha)
    (Hadmin : rol u = "administrador")
    (Hfind : find (fun c => cancha_pk c =? cancha_id) (canchas db) = Some c) :
  exists flash db',
    eliminar_cancha hoy (Some u) POST cancha_id db =
      (inr (Redirect "admin_canchas" (Some (msg_success flash))), db') /\
    reservas db' = reservas db /\
    canchas db' = map (fun x => if cancha_pk x =? cancha_id then set_activa false c else x)
                      (canchas db) /\
    In (set_activa false c) (canchas db') /\
    (forall fecha, get_horarios_disponibles (set_activa false c) fecha db' = (inr [], db')) /\
    (forall request, POST_cancha_id request = Some cancha_id ->
       exists resp, reserva_rapida request db' = (inr resp, db') /\ success resp = false).
Proof.
  pose proof (find_some _ _ Hfind) as [Hin Hpk]. apply Z.eqb_eq in Hpk.
  assert (Hex : existsb (fun c0 => cancha_pk c0 =? cancha_pk c) (canchas db) = true).
  { apply existsb_exists. exists c. split; [exact Hin|]. apply Z.eqb_refl. }
  eexists _, _. split.
  { unfold eliminar_cancha, es_administrador, Usuario_es_administrador.
    rewrite Hadmin. change (String.eqb "administrador" "administrador") with true.
    cbn [negb].
    unfold bind at 1. rewrite Hfind.
    unfold bind, count_reservas, bind, reservas_filter, ret, Cancha_save.
    cbn [cancha_pk set_activa]. rewrite Hex, Hpk. reflexivity. }
  cbn [reservas canchas]. split; [reflexivity|]. split; [reflexivity|]. split.
  { apply in_map_iff. exists c. split; [|exact Hin].
    rewrite Hpk, Z.eqb_refl. reflexivity. }
  split.
  { intros fecha. reflexivity. }
  intros request Hreq. unfold reserva_rapida. destruct (method request).
  - eexists. split; [reflexivity|reflexivity].
  - unfold try_except, bind, rapida_parse, bind, canchas_get. rewrite Hreq.
    cbn [canchas].
    rewrite (find_desactivada cancha_id (set_activa false c) (canchas db) eq_refl).
    eexists. split; reflexivity.
Qed.

Lemma eliminar_cancha_effect_witness :
  rol cuenta_admin = "administrador" /\
  find (fun c => cancha_pk c =? 1) (canchas db_una) = Some cancha_central /\
  exists flash db',
    eliminar_cancha 100 (Some cuenta_admin) POST 1 db_una =
      (inr (Redirect "admin_canchas" (Some (msg_success flash))), db') /\
    reservas db' = reservas db_una /\
    canchas db' = map (fun x => if cancha_pk x =? 1 then set_activa false cancha_central
                                else x) (canchas db_una) /\
    In (set_activa false cancha_central) (canchas db') /\
    (forall fecha, get_horarios_disponibles (set_activa false cancha_central) fecha db' =
                   (inr [], db')) /\
    (forall request, POST_cancha_id request = Some 1 ->
       exists resp, reserva_rapida request db' = (inr resp, db') /\ success resp = false).
Proof.
  split; [reflexivity|]. split; [reflexivity|].
  exact (eliminar_cancha_effect 100 cuenta_admin 1 db_una cancha_central eq_refl eq_refl).
Defined.

(** ** The slots API and the hour format *)

Lemma forallb_range (p : Z -> bool) (a b : Z) :
  forallb p (range a b) = true -> forall k, a <= k < b -> p k = true.
Proof.
  intros H k Hk. exact (proj1 (forallb_forall p (range a b)) H k (In_range a b k Hk)).
Qed.

Lemma strptime_strftime_table :
  forallb (fun h =>
    forallb (fun m =>
      match strptime_HM (strftime_HM (time_hm h m)) with
      | Some (h', m') => (h' =? h) && (m' =? m)
      | None => false
      end) (range 0 60)) (range 0 24) = true.
Proof. vm_compute. reflexivity. Qed.

Lemma strptime_strftime_hm (h m : Z) :
  0 <= h < 24 -> 0 <= m < 60 ->
  strptime_HM (strftime_HM (time_hm h m)) = Some (h, m).
Proof.
  intros Hh Hm.
  pose proof (forallb_range _ 0 24 strptime_strftime_table h Hh) as H.
  cbv beta in H.
  pose proof (forallb_range _ 0 60 H m Hm) as H'. cbv beta in H'.
  destruct (strptime_HM (strftime_HM (time_hm h m))) as [[h' m']|]; [|discriminate].
  apply andb_true_iff in H'. destruct H' as [E1 E2].
  apply Z.eqb_eq in E1, E2. subst. reflexivity.
Qed.

(** X18. The hour format round trip. For every time of day with hour in
    0..23 and minute in 0..59, whatever its seconds, the text
    [strftime('%H:%M')] produces is read back by [strptime(..., '%H:%M')]
    as the same hour and minute: the [hora] strings of the slots API are
    valid [hora] parameters of the quick-book view and name the same start
    time. *)
Theorem strptime_strftime_HM (t : time)
    (Hh : 0 <= hour t < 24) (Hm : 0 <= minute t < 60) :
  strptime_HM (strftime_HM t) = Some (hour t, minute t).
Proof.
  change (strftime_HM t) with (strftime_HM (time_hm (hour t) (minute t))).
  apply strptime_strftime_hm; assumption.
Qed.

Lemma strptime_strftime_HM_witness :
  0 <= hour (time_hm 9 5) < 24 /\ 0 <= minute (time_hm 9 5) < 60 /\
  strftime_HM (time_hm 9 5) = "09:05" /\
  strptime_HM (strftime_HM (time_hm 9 5)) = Some (9, 5).
Proof.
  assert (Hh : 0 <= hour (time_hm 9 5) < 24) by (simpl; lia).
  assert (Hm : 0 <= minute (time_hm 9 5) < 60) by (simpl; lia).
  split; [exact Hh|]. split; [exact Hm|]. split; [reflexivity|].
  exact (strptime_strftime_HM (time_hm 9 5) Hh Hm).
Defined.

Lemma get_horarios_disponibles_incl (c : Cancha) (fecha : date) (db : DB) :
  exists slots,
    get_horarios_disponibles c fecha db = (inr slots, db) /\
    incl slots operating_slots.
Proof.
  unfold get_horarios_disponibles. destruct (activa c); cbn [negb].
  - unfold get_reservas_del_dia, bind, reservas_filter, ret.
    rewrite horarios_funcionamiento_eq. eexists. split; [reflexivity|].
    apply incl_filter.
  - exists []. split; [reflexivity|]. intros x [].
Qed.

Lemma operating_slots_range (t : time) :
  In t operating_slots -> 8 <= hour t < 22 /\ minute t = 0.
Proof.
  unfold operating_slots. simpl.
  intros H. repeat (destruct H as [<-|H]; [simpl; lia|]). destruct H.
Qed.

(** X19. The slots API [get_horarios_disponibles] of [views.py] never
    raises and never changes the store. For a court that is unknown or
    inactive, and for a date that is missing or unreadable, the answer is
    the error answer. Otherwise the answer lists,
    in order, the slots of [Cancha.get_horarios_disponibles], each as
    [HH:MM] with its 12-hour display, and every [hora] string reads back
    with the format of the quick-book view as the hour of its slot and
    minute 0. *)
Theorem views_get_horarios_disponibles_spec (u : Cuenta) (GET_cancha_id : option Z)
    (GET_fecha : option date) (db : DB) :
  exists resp,
    views_get_horarios_disponibles (Some u) GET_cancha_id GET_fecha db =
      (inr (Json resp), db) /\
    match find (fun c => match GET_cancha_id with
                         | Some i => (cancha_pk c =? i) && activa c
                         | None => false
                         end) (canchas db), GET_fecha with
    | None, _ => resp = horarios_error
    | Some _, None => resp = horarios_error
    | Some c, Some fecha =>
        exists slots,
          get_horarios_disponibles c fecha db = (inr slots, db) /\
          resp = horarios_ok (map (fun t => mk_horario_data (strftime_HM t)
                                                            (strftime_IMp t)) slots) /\
          forall t, In t slots -> strptime_HM (strftime_HM t) = Some (hour t, 0)
    end.
Proof.
  unfold views_get_horarios_disponibles, bind at 1, try_except, bind at 1, canchas_get.
  destruct (find _ (canchas db)) as [c|] eqn:Hfind;
    [|eexists; split; reflexivity].
  unfold bind at 1, of_option. destruct GET_fecha as [fecha|];
    [|eexists; split; reflexivity].
  unfold ret at 1. unfold bind at 1.
  destruct (get_horarios_disponibles_incl c fecha db) as (slots & Hs & Hincl).
  rewrite Hs. unfold ret. eexists. split; [reflexivity|].
  exists slots. split; [reflexivity|]. split; [reflexivity|].
  intros t Ht. destruct (operating_slots_range t (Hincl t Ht)) as [Hh Hm].
  change (strftime_HM t) with (strftime_HM (time_hm (hour t) (minute t))).
  rewrite strptime_strftime_hm by lia. rewrite Hm. reflexivity.
Qed.

(** ** The calendar *)

Lemma mapM_const {A B} (f : A -> M B) (g : A -> B) (db : DB) (l : list A) :
  (forall x, In x l -> f x db = (inr (g x), db)) ->
  mapM f l db = (inr (map g l), db).
Proof.
  induction l as [|x t IH]; intros H; [reflexivity|].
  cbn [mapM map]. unfold bind. rewrite (H x (or_introl eq_refl)).
  rewrite IH; [reflexivity|]. intros y Hy. apply H. right. exact Hy.
Qed.

Lemma find_rev_none {A} (p : A -> bool) (l : list A) :
  find p (rev l) = None <-> existsb p l = false.
Proof.
  rewrite existsb_false_iff. split.
  - intros H x Hx. apply (find_none _ _ H). apply in_rev in Hx. exact Hx.
  - intros H. destruct (find p (rev l)) as [x|] eqn:F; [|reflexivity].
    apply find_some in F. destruct F as [Hx Hp]. apply in_rev in Hx.
    rewrite (H x Hx) in Hp. discriminate.
Qed.

Lemma time_eqb_sym (a b : time) : time_eqb a b = time_eqb b a.
Proof.
  destruct (time_eqb a b) eqn:E.
  - apply time_eqb_eq in E. subst. symmetry. apply time_eqb_refl.
  - symmetry. apply not_true_iff_false. intros H. apply time_eqb_eq in H. subst.
    rewrite time_eqb_refl in E. discriminate.
Qed.

Lemma map_filter_map {A B} (f : A -> B) (g : B -> A) (p : B -> bool) (l : list A) :
  (forall x, g (f x) = x) ->
  map g (filter p (map f l)) = filter (fun x => p (f x)) l.
Proof.
  intros H. induction l as [|x t IH]; [reflexivity|]. simpl.
  destruct (p (f x)); simpl; rewrite ?H, IH; reflexivity.
Qed.

(** A cell of the calendar of a court, from the confirmed reservations
    of the court on the date. *)
Lemma celda_facts (rs : list Reserva) (horario : time) :
  let celda := match horarios_ocupados_get rs horario with
               | Some r => mk_celda horario false (Some r)
               | None => mk_celda horario true None
               end in
  celda_hora celda = horario /\
  disponible celda = negb (existsb (time_eqb horario) (map hora_inicio rs)) /\
  match celda_reserva celda with
  | Some r => disponible celda = false /\ In r rs /\ hora_inicio r = horario
  | None => disponible celda = true
  end.
Proof.
  unfold horarios_ocupados_get.
  assert (Hex : existsb (time_eqb horario) (map hora_inicio rs) =
                existsb (fun r => time_eqb (hora_inicio r) horario) rs).
  { induction rs as [|x t IH]; [reflexivity|]. simpl.
    rewrite IH, (time_eqb_sym horario). reflexivity. }
  rewrite Hex.
  destruct (find _ (rev rs)) as [r|] eqn:F; cbn [celda_hora disponible celda_reserva].
  - apply find_some in F. destruct F as [Hr Hp]. apply in_rev in Hr.
    apply time_eqb_eq in Hp as Hp'.
    assert (He : existsb (fun r => time_eqb (hora_inicio r) horario) rs = true).
    { apply existsb_exists. eauto. }
    rewrite He. repeat split; auto.
  - apply find_rev_none in F. rewrite F. repeat split.
Qed.

(** X20. [calendario_reservas] for a player or an administrator never
    changes the store. The date shown is the one of the request, or today
    when the parameter is missing or unreadable. When that date is the
    first or the last date there is ([date.min], [date.max]) the view
    raises [OverflowError]. For every other date it renders, with the day
    before and the day after beside the date. Every active court has
    exactly one row, no inactive court has one. A row holds the fourteen
    hours 08:00 to 21:00 in order; the hours it marks free are exactly the
    slots [Cancha.get_horarios_disponibles] lists for that court and date;
    and a cell that is not free shows a confirmed reservation of that
    court and date that starts at the hour of the cell. *)
Theorem calendario_reservas_spec (hoy : date) (usuario : option Cuenta)
    (GET_fecha : option (option date)) (db : DB)
    (Hauth : es_jugador_o_admin usuario = true) :
  let fecha := match GET_fecha with Some (Some f) => f | _ => hoy end in
  (fecha <= date_min \/ date_max <= fecha ->
   calendario_reservas hoy usuario GET_fecha db = (inr (inl OverflowError), db)) /\
  (date_min < fecha < date_max ->
   exists ctx,
     calendario_reservas hoy usuario GET_fecha db =
       (inr (inr (Render "gestion/calendario_reservas.html" ctx)), db) /\
     fecha_seleccionada ctx = fecha /\
     fecha_anterior ctx = fecha - 1 /\
     fecha_siguiente ctx = fecha + 1 /\
     horarios ctx = operating_slots /\
     Permutation (map fst (calendario_data ctx)) (filter activa (canchas db)) /\
     forall c celdas, In (c, celdas) (calendario_data ctx) ->
       map celda_hora celdas = operating_slots /\
       (exists slots,
          get_horarios_disponibles c fecha db = (inr slots, db) /\
          map celda_hora (filter disponible celdas) = slots) /\
       forall celda, In celda celdas ->
         match celda_reserva celda with
         | Some r => disponible celda = false /\ In r (reservas db) /\
                     del_dia c fecha r = true /\
                     hora_inicio r = celda_hora celda
         | None => disponible celda = true
         end).
Proof.
  intros fecha0. split; intros Hcaso.
  all: unfold calendario_reservas; rewrite Hauth; cbn [negb].
  all: set (fecha := match GET_fecha with
                     | Some (Some f) => f | Some None => hoy | None => hoy
                     end).
  all: assert (Hfecha : fecha0 = fecha)
         by (unfold fecha0, fecha; destruct GET_fecha as [[f|]|]; reflexivity).
  all: rewrite Hfecha in *; clear Hfecha; clearbody fecha0; clear fecha0.
  all: rewrite horarios_funcionamiento_eq.
  all: remember operating_slots as hs eqn:Hhs.
  all: unfold bind at 1.
  all: set (cs := order_by (fun a b => String.leb (nombre a) (nombre b))
                           (filter activa (canchas db))).
  all: set (rs_de := fun c : Cancha =>
         order_by_hora_inicio
           (filter (fun r => (cancha_pk (cancha r) =? cancha_pk c) &&
                             (fecha_reserva r =? fecha) && is_confirmada r)
                   (reservas db))).
  all: set (fila := fun c : Cancha =>
         (c, map (fun horario =>
                    match horarios_ocupados_get (rs_de c) horario with
                    | Some r => mk_celda horario false (Some r)
                    | None => mk_celda horario true None
                    end) hs)).
  all: unfold bind.
  all: rewrite (mapM_const (calendario_fila fecha hs) fila db cs)
         by (intros c _; reflexivity).
  all: unfold ret, date_add_days, date_min, date_max in *.
  { destruct ((1 <=? fecha + -1) && (fecha + -1 <=? 3652059)) eqn:E1; [|reflexivity].
    destruct ((1 <=? fecha + 1) && (fecha + 1 <=? 3652059)) eqn:E2; [|reflexivity].
    exfalso. apply andb_true_iff in E1, E2.
    rewrite !Z.leb_le in E1, E2. lia. }
  assert (E1 : (1 <=? fecha + -1) && (fecha + -1 <=? 3652059) = true).
  { apply andb_true_iff. rewrite !Z.leb_le. lia. }
  assert (E2 : (1 <=? fecha + 1) && (fecha + 1 <=? 3652059) = true).
  { apply andb_true_iff. rewrite !Z.leb_le. lia. }
  rewrite E1, E2.
  eexists. split; [reflexivity|].
  cbn [fecha_seleccionada fecha_anterior fecha_siguiente horarios calendario_data].
  split; [reflexivity|]. split; [reflexivity|]. split; [reflexivity|].
  split; [reflexivity|]. split.
  { rewrite map_map. cbn [fst fila]. rewrite map_id. apply order_by_perm. }
  intros c celdas Hin. apply in_map_iff in Hin. destruct Hin as (c' & Heq & Hc').
  unfold fila in Heq. injection Heq as -> <-.
  assert (Ha : activa c = true).
  { apply (Permutation_in _ (order_by_perm _ _)) in Hc'.
    apply filter_In in Hc'. tauto. }
  split.
  { rewrite map_map. rewrite <- (map_id hs) at 2.
    apply map_ext. intros h. exact (proj1 (celda_facts (rs_de c) h)). }
  split.
  { unfold get_horarios_disponibles. rewrite Ha. cbn [negb].
    unfold get_reservas_del_dia, bind, reservas_filter, ret.
    rewrite horarios_funcionamiento_eq, <- Hhs. fold (rs_de c).
    eexists. split; [reflexivity|].
    rewrite (map_filter_map _ celda_hora disponible hs)
      by (intros h; exact (proj1 (celda_facts (rs_de c) h))).
    apply filter_ext. intros h.
    exact (proj1 (proj2 (celda_facts (rs_de c) h))). }
  intros celda Hcelda. apply in_map_iff in Hcelda. destruct Hcelda as (h & <- & _).
  destruct (celda_facts (rs_de c) h) as (Hh & _ & Hr). cbv zeta in Hh, Hr.
  destruct (celda_reserva _) as [r|]; [|exact Hr].
  destruct Hr as (Hd & Hr & Hi). split; [exact Hd|].
  unfold rs_de in Hr. apply (proj1 (In_order_by_hora_inicio _ _)) in Hr.
  apply filter_In in Hr. destruct Hr as [Hr Hp].
  split; [exact Hr|]. split; [exact Hp|]. rewrite Hh. exact Hi.
Qed.

Lemma calendario_reservas_spec_witness :
  es_jugador_o_admin (Some cuenta_ana) = true /\
  calendario_reservas 100 (Some cuenta_ana) (Some (Some date_max)) db_una =
    (inr (inl OverflowError), db_una) /\
  exists ctx,
    calendario_reservas 100 (Some cuenta_ana) (Some (Some 101)) db_una =
      (inr (inr (Render "gestion/calendario_reservas.html" ctx)), db_una) /\
    fecha_seleccionada ctx = 101 /\
    fecha_anterior ctx = 100 /\
    horarios ctx = operating_slots /\
    Permutation (map fst (calendario_data ctx)) (filter activa (canchas db_una)).
Proof.
  assert (Hauth : es_jugador_o_admin (Some cuenta_ana) = true) by reflexivity.
  split; [exact Hauth|]. split.
  { apply (proj1 (calendario_reservas_spec 100 (Some cuenta_ana) (Some (Some date_max))
                    db_una Hauth)).
    right. cbv zeta. apply Z.le_refl. }
  destruct (proj2 (calendario_reservas_spec 100 (Some cuenta_ana) (Some (Some 101))
                     db_una Hauth))
    as (ctx & H1 & H2 & H3 & _ & H5 & H6 & _).
  { cbv zeta. unfold date_min, date_max. lia. }
  exists ctx. repeat split; assumption.
Defined.

(** ** Creating, finding, cancelling, booking again *)

Lemma find_app {A} (p : A -> bool) (l l' : list A) :
  find p (l ++ l') = match find p l with Some x => Some x | None => find p l' end.
Proof.
  induction l as [|x t IH]; simpl; [reflexivity|].
  destruct (p x); [reflexivity|exact IH].
Qed.

Lemma find_has_pk_next (rows : list Reserva) : find (has_pk (next_pk rows)) rows = None.
Proof.
  destruct (find (has_pk (next_pk rows)) rows) as [x|] eqn:F; [|reflexivity].
  exfalso. apply find_some in F. destruct F as [Hx Hk]. apply has_pk_true in Hk.
  pose proof (next_pk_gt rows x _ Hx Hk). lia.
Qed.

(** X21. Create, then look up. When [Reserva.objects.create] succeeds,
    the instance it returns has a key that no row stored before has,
    looking that key up in the store returns this very instance, and every
    reservation that could be found under its key before is still found
    under it. *)
Theorem objects_create_then_find (kw : ReservaKwargs) (db db' : DB) (r : Reserva)
    (Hok : objects_create kw db = (inr r, db')) :
  exists k,
    pk r = Some k /\ pk_libre k (reservas db) /\
    find (has_pk k) (reservas db') = Some r /\
    forall k' x, find (has_pk k') (reservas db) = Some x ->
                 find (has_pk k') (reservas db') = Some x.
Proof.
  exists (next_pk (reservas db)).
  unfold objects_create in Hok. rewrite save_unfold in Hok.
  destruct (save_defaults_fields (Reserva_init kw)) as (Dk & _).
  unfold Model_save in Hok. rewrite Dk in Hok. cbn [pk Reserva_init] in Hok.
  unfold db_insert in Hok.
  destruct (hora_fin (save_defaults (Reserva_init kw))); [|discriminate].
  destruct (violates_unique_confirmed _ (reservas db)); [discriminate|].
  rewrite Dk in Hok. cbn [pk Reserva_init] in Hok. injection Hok as <- <-.
  cbn [pk set_pk reservas]. split; [reflexivity|]. split; [apply next_pk_libre|].
  split.
  - rewrite find_app, find_has_pk_next. cbn [find].
    unfold has_pk at 1. cbn [pk set_pk]. rewrite Z.eqb_refl. reflexivity.
  - intros k x Hx. rewrite find_app, Hx. reflexivity.
Qed.

Lemma objects_create_then_find_witness :
  objects_create kw_central db_vacia = (inr reserva_una, db_una) /\
  exists k,
    pk reserva_una = Some k /\ pk_libre k (reservas db_vacia) /\
    find (has_pk k) (reservas db_una) = Some reserva_una.
Proof.
  assert (Hok : objects_create kw_central db_vacia = (inr reserva_una, db_una))
    by reflexivity.
  split; [exact Hok|].
  destruct (objects_create_then_find kw_central db_vacia db_una reserva_una Hok)
    as (k & H1 & H2 & H3 & _).
  exists k. split; [exact H1|]. split; assumption.
Defined.

Lemma replace_pk_app (k : Z) (r' : Reserva) (l l' : list Reserva) :
  replace_pk k r' (l ++ l') = (replace_pk k r' l ++ replace_pk k r' l')%list.
Proof. unfold replace_pk. apply map_app. Qed.

(** X22. Book, cancel, book again, through the views. After a quick-book
    request for a date not before today succeeded, the POST of
    [cancelar_reserva] by the same user for the key of the new row
    succeeds: the new row is cancelled in place and nothing else changes. The same
    quick-book request then succeeds again, and the store ends with the
    cancelled reservation followed by a new confirmed one for the slot. *)
Theorem reservar_cancelar_reservar (hoy : date) (request : Request) (u : Cuenta)
    (fecha : date) (db db1 : DB)
    (Hbook : reserva_rapida request db = (inr json_ok, db1))
    (Huser : usuario_pk (cuenta_usuario u) = user request)
    (Hfecha : POST_fecha request = Some fecha)
    (Hhoy : hoy <= fecha) :
  let destino := if Usuario_es_administrador u then "admin_reservas" else "mis_reservas" in
  exists k r r' r2 db2 db3,
    reservas db1 = (reservas db ++ [r])%list /\ pk r = Some k /\ estado r = confirmada /\
    cancelar_reserva hoy (Some u) POST k db1 =
      (inr (Redirect destino (Some (msg_success "Reserva cancelada exitosamente."))), db2) /\
    reservas db2 = (reservas db ++ [r'])%list /\ pk r' = Some k /\ estado r' = cancelada /\
    reserva_rapida request db2 = (inr json_ok, db3) /\
    reservas db3 = (reservas db ++ [r'; r2])%list /\ estado r2 = confirmada /\
    same_slot r2 r = true.
Proof.
  intros destino. set (k := next_pk (reservas db)).
  destruct (reserva_rapida_success_inv request db db1 json_ok Hbook eq_refl)
    as (c & f & h & m & _ & Hm & Hc & _ & Ha & Hf & Hh & Hlibre & Hfind & Hv & Hdb).
  rewrite Hfecha in Hf. injection Hf as <-.
  set (r := fila_rapida request c fecha h m db).
  set (r' := cancelada_de (Some (cuenta_usuario u)) r).
  destruct (cancelada_de_fields (Some (cuenta_usuario u)) r)
    as (Ck & Cc & _ & Cf & Ch & Ce & _). fold r' in Ck, Cc, Cf, Ch, Ce.
  assert (Hrows1 : reservas db1 = (reservas db ++ [r])%list) by (rewrite Hdb; reflexivity).
  assert (Hkr : has_pk k r = true) by (apply has_pk_true; reflexivity).
  assert (Hfind1 : find (has_pk k) (reservas db1) = Some r).
  { rewrite Hrows1, find_app. unfold k. rewrite find_has_pk_next. cbn [find].
    fold k. rewrite Hkr. reflexivity. }
  assert (Hcan : puede_cancelar hoy r = true).
  { unfold puede_cancelar, r, fila_rapida. cbn [is_confirmada estado estado_eqb
      fecha_reserva andb]. apply Z.leb_le. exact Hhoy. }
  assert (Hex1 : existsb (has_pk k) (reservas db1) = true).
  { apply existsb_exists. exists r. split; [|exact Hkr].
    rewrite Hrows1. apply in_or_app. right. left. reflexivity. }
  assert (Hrep : replace_pk k r' (reservas db1) = (reservas db ++ [r'])%list).
  { rewrite Hrows1, replace_pk_app. f_equal.
    - apply replace_pk_id. intros y Hy.
      destruct (has_pk k y) eqn:E; [|reflexivity]. exfalso.
      apply has_pk_true in E. pose proof (next_pk_gt (reservas db) y _ Hy E).
      unfold k in H. lia.
    - unfold replace_pk. cbn [map]. rewrite Hkr. reflexivity. }
  set (db2 := mk_db (canchas db1) (replace_pk k r' (reservas db1))).
  assert (Hcancel : cancelar_reserva hoy (Some u) POST k db1 =
            (inr (Redirect destino (Some (msg_success "Reserva cancelada exitosamente."))),
             db2)).
  { unfold cancelar_reserva, bind at 1. rewrite Hfind1.
    assert (Hj : (usuario_pk (cuenta_usuario u) =? jugador r) = true).
    { apply Z.eqb_eq. rewrite Huser. reflexivity. }
    rewrite Hj. cbn [orb negb]. rewrite Hcan. unfold bind.
    rewrite (cancelar_eval hoy r _ k db1 Hcan eq_refl Hex1). fold r'. fold db2.
    unfold ret, destino. destruct (Usuario_es_administrador u); reflexivity. }
  assert (Hrows2 : reservas db2 = (reservas db ++ [r'])%list) by exact Hrep.
  assert (Hcs2 : canchas db2 = canchas db) by (unfold db2; rewrite Hdb; reflexivity).
  apply esta_disponible_true_inv in Hlibre. destruct Hlibre as [_ Hno].
  cbn [hour time_hm] in Hno.
  assert (Hr'nc : is_confirmada r' = false).
  { unfold is_confirmada. rewrite Ce. reflexivity. }
  set (nueva := mk_reserva None c (user request) fecha (time_hm h m)
                  (Some (time_hm ((h + 1) mod 24) m)) confirmada None (tarifa_hora c)).
  fold nueva in Hv.
  assert (Hv2 : violates_unique_confirmed nueva (reservas db2) = false).
  { rewrite Hrows2. unfold violates_unique_confirmed in *.
    cbn [is_confirmada estado estado_eqb andb nueva] in *.
    rewrite existsb_app, Hv. cbn [existsb orb]. rewrite Hr'nc. reflexivity. }
  set (r2 := set_pk (next_pk (reservas db2)) nueva).
  assert (Hbook2 : reserva_rapida request db2 =
             (inr json_ok, mk_db (canchas db2) (reservas db2 ++ [r2]))).
  { unfold reserva_rapida. rewrite Hm.
    unfold try_except, bind, rapida_parse, bind, canchas_get, of_option, ret.
    rewrite Hc, Hfecha, Hh, Hcs2, Hfind. cbn [fst snd].
    rewrite esta_disponible_eval, Ha. cbn [andb hour time_hm].
    rewrite Hrows2, existsb_app, Hno. cbn [existsb orb].
    unfold del_dia at 1. rewrite Hr'nc, andb_false_r. cbn [andb orb negb].
    rewrite rapida_create_eval. cbn [hour minute time_hm]. fold nueva.
    unfold db_insert. cbn [hora_fin pk nueva]. fold nueva.
    rewrite <- Hrows2, Hv2, Hcs2. reflexivity. }
  exists k, r, r', r2, db2, (mk_db (canchas db2) (reservas db2 ++ [r2])).
  split; [exact Hrows1|]. split; [reflexivity|]. split; [reflexivity|].
  split; [exact Hcancel|]. split; [exact Hrows2|]. split; [rewrite Ck; reflexivity|].
  split; [exact Ce|]. split; [exact Hbook2|]. split.
  - cbn [reservas]. rewrite Hrows2, <- app_assoc. reflexivity.
  - split; [reflexivity|]. apply same_slot_iff. auto.
Qed.

Lemma reservar_cancelar_reservar_witness :
  reserva_rapida (post_rapida 7 101 10 0) db_vacia = (inr json_ok, db_una) /\
  usuario_pk (cuenta_usuario cuenta_ana) = user (post_rapida 7 101 10 0) /\
  POST_fecha (post_rapida 7 101 10 0) = Some 101 /\ 100 <= 101 /\
  exists k r' r2 db2 db3,
    cancelar_reserva 100 (Some cuenta_ana) POST k db_una =
      (inr (Redirect "mis_reservas" (Some (msg_success "Reserva cancelada exitosamente."))),
       db2) /\
    estado r' = cancelada /\
    reserva_rapida (post_rapida 7 101 10 0) db2 = (inr json_ok, db3) /\
    reservas db3 = [r'; r2] /\ estado r2 = confirmada.
Proof.
  assert (Hbook : reserva_rapida (post_rapida 7 101 10 0) db_vacia = (inr json_ok, db_una))
    by reflexivity.
  assert (Hhoy : 100 <= 101) by lia.
  split; [exact Hbook|]. split; [reflexivity|]. split; [reflexivity|]. split; [exact Hhoy|].
  destruct (reservar_cancelar_reservar 100 (post_rapida 7 101 10 0) cuenta_ana 101
              db_vacia db_una Hbook eq_refl eq_refl Hhoy)
    as (k & r & r' & r2 & db2 & db3 & _ & _ & _ & Hc & _ & _ & He & Hb & Hrows & He2 & _).
  exists k, r', r2, db2, db3. repeat split; assumption.
Defined.

(** ** The tariff validator *)

(** X23. [CanchaForm.clean_tarifa_hora] rejects exactly the negative
    tariffs. A tariff of 0 passes, although the message of the validator
    asks for a positive value; every value that passes is returned as it
    came, and so is a missing value. *)
Theorem clean_tarifa_hora_spec (tarifa : option Z) :
  match tarifa with
  | Some t =>
      (t < 0 /\ clean_tarifa_hora tarifa =
                inl (ValidationError "La tarifa debe ser un valor positivo.")) \/
      (0 <= t /\ clean_tarifa_hora tarifa = inr tarifa)
  | None => clean_tarifa_hora tarifa = inr None
  end.
Proof.
  destruct tarifa as [t|]; [|reflexivity]. unfold clean_tarifa_hora.
  destruct (t =? 0) eqn:E0; cbn [negb andb].
  - apply Z.eqb_eq in E0. right. split; [lia|reflexivity].
  - apply Z.eqb_neq in E0. destruct (t <=? 0) eqn:E1.
    + apply Z.leb_le in E1. left. split; [lia|reflexivity].
    + apply Z.leb_gt in E1. right. split; [lia|reflexivity].
Qed.

(** * Court actions, search and dashboard *)







(** ** Search *)

Lemma filterM_const {A} (f : A -> M bool) (g : A -> bool) (db : DB) (l : list A) :
  (forall x, f x db = (inr (g x), db)) ->
  filterM f l db = (inr (filter g l), db).
Proof.
  intros H. induction l as [|x t IH]; [reflexivity|].
  cbn [filterM filter]. unfold bind. rewrite H, IH. unfold ret.
  destruct (g x); reflexivity.
Qed.

Lemma BusquedaAvanzadaForm_is_valid_iff (hoy : date) (d : BusquedaData) (f : date)
    (h : time) (tp : string) (tm : option Z) :
  BusquedaAvanzadaForm_is_valid hoy d = Some (f, h, tp, tm) <->
  q_fecha d = Some f /\ hoy <= f /\ q_hora_inicio d = Some h /\
  q_tarifa_maxima d = Some tm /\ tp = q_tipo_pista d /\
  In (q_tipo_pista d) (EmptyString :: TIPOS_PISTA).
Proof.
  unfold BusquedaAvanzadaForm_is_valid, clean_fecha.
  destruct (q_fecha d) as [f0|];
    [|split; [discriminate|intros (H & _); discriminate]].
  destruct (q_hora_inicio d) as [h0|];
    [|split; [discriminate|intros (_ & _ & H & _); discriminate]].
  destruct (q_tarifa_maxima d) as [tm0|];
    [|split; [discriminate|intros (_ & _ & _ & H & _); discriminate]].
  destruct (f0 <? hoy) eqn:Hlt.
  - apply Z.ltb_lt in Hlt. split; [discriminate|].
    intros (H & Hle & _). injection H as <-. lia.
  - apply Z.ltb_ge in Hlt.
    destruct (existsb (String.eqb (q_tipo_pista d)) (EmptyString :: TIPOS_PISTA)) eqn:Hex.
    + split.
      * intros H. injection H as <- <- <- <-.
        repeat split; try reflexivity; try assumption.
        apply existsb_exists in Hex. destruct Hex as (s & Hs & Heq).
        apply String.eqb_eq in Heq. rewrite Heq. exact Hs.
      * intros (H1 & _ & H2 & H3 & -> & _).
        injection H1 as <-. injection H2 as <-. injection H3 as <-. reflexivity.
    + split; [discriminate|]. intros (_ & _ & _ & _ & _ & Hin).
      assert (Hex' : existsb (String.eqb (q_tipo_pista d)) (EmptyString :: TIPOS_PISTA)
                     = true).
      { apply existsb_exists. exists (q_tipo_pista d).
        split; [exact Hin|apply String.eqb_refl]. }
      congruence.
Qed.

Lemma busqueda_filtro_iff (tipo_pista_de : Cancha -> string) (tp : string)
    (tm : option Z) (c : Cancha) :
  busqueda_filtro tipo_pista_de tp tm c = true <->
  activa c = true /\ (tp = EmptyString \/ tipo_pista_de c = tp) /\
  match tm with Some t => t = 0 \/ tarifa_hora c <= t | None => True end.
Proof.
  unfold busqueda_filtro. rewrite !andb_true_iff.
  assert (H1 : (if String.eqb tp EmptyString then true
                else String.eqb (tipo_pista_de c) tp) = true <->
               (tp = EmptyString \/ tipo_pista_de c = tp)).
  { destruct (String.eqb tp EmptyString) eqn:E.
    - apply String.eqb_eq in E. tauto.
    - apply String.eqb_neq in E. rewrite String.eqb_eq. tauto. }
  assert (H2 : match tm with
               | Some t => if t =? 0 then true else tarifa_hora c <=? t
               | None => true
               end = true <->
               match tm with Some t => t = 0 \/ tarifa_hora c <= t | None => True end).
  { destruct tm as [t|]; [|tauto]. destruct (t =? 0) eqn:E.
    - apply Z.eqb_eq in E. tauto.
    - apply Z.eqb_neq in E. rewrite Z.leb_le. tauto. }
  tauto.
Qed.

(** X25. [buscar_canchas] never raises and never changes the store. An
    anonymous user, or one who is neither player nor administrator, is
    sent to the login page. For the others a court is listed exactly when
    the form is valid (date read and not before today, hour read, maximum
    readable, court type blank or one of the three choices), the court is
    stored and active, has the asked type unless that is blank, costs at
    most the maximum unless that is missing or zero, and no confirmed
    reservation of the court on the date overlaps the hour from the asked
    start to the next whole hour. *)
Theorem buscar_canchas_spec (tipo_pista_de : Cancha -> string) (hoy : date)
    (usuario : option Cuenta) (d : BusquedaData) (db : DB) :
  exists resp,
    buscar_canchas tipo_pista_de hoy usuario d db = (inr resp, db) /\
    (es_jugador_o_admin usuario = false -> resp = RedirectLogin) /\
    (es_jugador_o_admin usuario = true ->
     exists cs,
       resp = Render "gestion/buscar_canchas.html" cs /\
       forall c, In c cs <->
         exists fecha inicio tarifa,
           q_fecha d = Some fecha /\ hoy <= fecha /\
           q_hora_inicio d = Some inicio /\
           q_tarifa_maxima d = Some tarifa /\
           In (q_tipo_pista d) (EmptyString :: TIPOS_PISTA) /\
           In c (canchas db) /\ activa c = true /\
           (q_tipo_pista d = EmptyString \/ tipo_pista_de c = q_tipo_pista d) /\
           match tarifa with Some t => t = 0 \/ tarifa_hora c <= t | None => True end /\
           forall r, In r (reservas db) -> del_dia c fecha r = true ->
                     solapa inicio (time_h ((hour inicio + 1) mod 24)) r = false).
Proof.
  unfold buscar_canchas.
  destruct (es_jugador_o_admin usuario) eqn:Hrol; cbn [negb];
    [|eexists; split; [reflexivity|]; split; [reflexivity|discriminate]].
  destruct (BusquedaAvanzadaForm_is_valid hoy d) as [[[[fecha inicio] tp] tm]|] eqn:Hv.
  - unfold bind.
    rewrite (filterM_const _ _ db _ (fun c => esta_disponible_eval c fecha inicio None db)).
    unfold ret. eexists. split; [reflexivity|]. split; [discriminate|]. intros _.
    eexists. split; [reflexivity|].
    apply BusquedaAvanzadaForm_is_valid_iff in Hv.
    destruct Hv as (Hf & Hle & Hh & Htm & -> & Htp).
    intros c. rewrite filter_In. split.
    + intros [Hin Hlibre].
      apply (Permutation_in _ (order_by_perm nombre_leb _)) in Hin.
      apply filter_In in Hin. destruct Hin as [Hin Hfil].
      apply busqueda_filtro_iff in Hfil. destruct Hfil as (Hact & Htipo & Htar).
      apply andb_true_iff in Hlibre. destruct Hlibre as [_ Hlibre].
      apply negb_true_iff in Hlibre.
      pose proof (proj1 (existsb_false_iff _ _) Hlibre) as Hno. cbv beta in Hno.
      exists fecha, inicio, tm. repeat split; try assumption.
      intros r Hr Hd. specialize (Hno r Hr). rewrite Hd in Hno. exact Hno.
    + intros (fecha' & inicio' & tm' & Hf' & _ & Hh' & Htm' & _ & Hin & Hact & Htipo
              & Htar & Hno).
      rewrite Hf in Hf'. injection Hf' as <-.
      rewrite Hh in Hh'. injection Hh' as <-.
      rewrite Htm in Htm'. injection Htm' as <-.
      split.
      * apply (Permutation_in _ (Permutation_sym (order_by_perm nombre_leb _))).
        apply filter_In. split; [exact Hin|].
        apply busqueda_filtro_iff. auto.
      * rewrite Hact. cbn [andb]. apply negb_true_iff. apply existsb_false_iff.
        intros r Hr. destruct (del_dia c fecha r) eqn:Hd; [|reflexivity].
        cbn [andb]. exact (Hno r Hr Hd).
  - unfold bind, ret. eexists. split; [reflexivity|]. split; [discriminate|]. intros _.
    eexists. split; [reflexivity|]. intros c. split; [intros []|].
    intros (fecha & inicio & tm & Hf & Hle & Hh & Htm & Htp & _).
    assert (Hv' : BusquedaAvanzadaForm_is_valid hoy d =
                  Some (fecha, inicio, q_tipo_pista d, tm)).
    { apply BusquedaAvanzadaForm_is_valid_iff. auto 10. }
    congruence.
Qed.

(** ** The dashboard of a player *)

Lemma StronglySorted_app_inv {A} (R : A -> A -> Prop) (l1 l2 : list A) :
  StronglySorted R (l1 ++ l2) ->
  StronglySorted R l1 /\ forall a b, In a l1 -> In b l2 -> R a b.
Proof.
  induction l1 as [|x t IH]; intros H.
  - split; [constructor|]. intros a b [].
  - cbn [app] in H. apply StronglySorted_inv in H. destruct H as [Ht Hx].
    destruct (IH Ht) as [Hs Hab]. apply Forall_app in Hx. destruct Hx as [Hx1 Hx2].
    split; [constructor; assumption|].
    intros a b [<-|Ha] Hb.
    + exact (proj1 (Forall_forall _ _) Hx2 b Hb).
    + exact (Hab a b Ha Hb).
Qed.

Lemma get_horarios_disponibles_eval (c : Cancha) (fecha : date) (db : DB) :
  get_horarios_disponibles c fecha db =
  (inr (if activa c then slots_libres c fecha (reservas db) else []), db).
Proof.
  unfold get_horarios_disponibles. destruct (activa c); [|reflexivity].
  cbn [negb]. unfold get_reservas_del_dia, bind, reservas_filter, ret.
  rewrite horarios_funcionamiento_eq. unfold slots_libres.
  f_equal. f_equal. apply filter_ext. intros t. f_equal.
  apply eq_true_iff_eq. rewrite !existsb_exists. split.
  - intros (x & Hx & Heq). apply in_map_iff in Hx. destruct Hx as (r & <- & Hr).
    apply (proj1 (In_order_by_hora_inicio _ _)) in Hr.
    apply filter_In in Hr. destruct Hr as [Hr Hd].
    exists r. split; [exact Hr|]. unfold del_dia. rewrite Hd. cbn [andb].
    rewrite time_eqb_sym. exact Heq.
  - intros (r & Hr & Hp). apply andb_true_iff in Hp. destruct Hp as [Hd Heq].
    exists (hora_inicio r). split.
    + apply in_map. apply In_order_by_hora_inicio. apply filter_In.
      split; [exact Hr|exact Hd].
    + rewrite time_eqb_sym. exact Heq.
Qed.

Lemma length_filter_estados (p : Reserva -> bool) (rows : list Reserva) :
  (List.length (filter (fun r => p r && estado_eqb (estado r) completada) rows) +
   List.length (filter (fun r => p r && estado_eqb (estado r) cancelada) rows) <=
   List.length (filter p rows))%nat.
Proof.
  induction rows as [|r t IH]; [reflexivity|].
  cbn [filter]. destruct (p r); cbn [andb]; [|exact IH].
  destruct (estado r); cbn [estado_eqb List.length]; lia.
Qed.

(** X26. [dashboard_jugador] for a player or administrator never raises
    and never changes the store. The reservations shown are the first
    five of the user's cancellable reservations in order of date and
    start: they are sorted, none left out comes before one shown, and
    something is left out only when five are shown. A court is listed with
    the count [n] exactly when it is stored and active and [n] is the
    number of its free slots today, which is then between 1 and 14: an
    active court without a free slot is not listed. The completed and the
    cancelled reservations together never exceed the total. *)
Theorem dashboard_jugador_spec (hoy : date) (u : Cuenta) (db : DB)
    (Hrol : es_jugador_o_admin (Some u) = true) :
  exists ctx,
    dashboard_jugador hoy (Some u) db =
      (inr (Render "gestion/dashboard_jugador.html" ctx), db) /\
    (exists resto,
       Permutation (reservas_proximas ctx ++ resto)
                   (filter (fun r => (jugador r =? usuario_pk (cuenta_usuario u)) &&
                                     puede_cancelar hoy r) (reservas db)) /\
       (resto = [] \/ List.length (reservas_proximas ctx) = 5%nat) /\
       forall a b, In a (reservas_proximas ctx) -> In b resto ->
                   fecha_hora_leb a b = true) /\
    StronglySorted (fun a b => fecha_hora_leb a b = true) (reservas_proximas ctx) /\
    (forall c n, In (c, n) (canchas_disponibles ctx) <->
                 In c (canchas db) /\ activa c = true /\
                 n = List.length (slots_libres c hoy (reservas db)) /\
                 (1 <= n <= 14)%nat) /\
    (reservas_completadas ctx + reservas_canceladas ctx <= total_reservas ctx)%nat.
Proof.
  unfold dashboard_jugador. rewrite Hrol. cbn [negb].
  unfold bind at 1. unfold get_reservas_activas, bind at 1, reservas_filter, ret at 1.
  unfold bind at 1. unfold bind at 1.
  rewrite (mapM_const _ (fun c => (c, List.length (if activa c
                                      then slots_libres c hoy (reservas db) else [])))
                      db _).
  2:{ intros c _. unfold dashboard_fila, bind. rewrite get_horarios_disponibles_eval.
      reflexivity. }
  unfold bind, count_reservas, bind, reservas_filter, ret.
  eexists. split; [reflexivity|].
  cbn [reservas_proximas canchas_disponibles total_reservas reservas_completadas
       reservas_canceladas].
  assert (Hf : filter (fun r => (jugador r =? usuario_pk (cuenta_usuario u)) &&
                                is_confirmada r && (hoy <=? fecha_reserva r))
                      (reservas db) =
               filter (fun r => (jugador r =? usuario_pk (cuenta_usuario u)) &&
                                puede_cancelar hoy r) (reservas db)).
  { apply filter_ext. intros r. unfold puede_cancelar. rewrite andb_assoc. reflexivity. }
  rewrite Hf.
  set (activas := order_by fecha_hora_leb
                    (filter (fun r => (jugador r =? usuario_pk (cuenta_usuario u)) &&
                                      puede_cancelar hoy r) (reservas db))).
  assert (Hsorted : StronglySorted (fun a b => fecha_hora_leb a b = true)
                      (firstn 5 activas ++ skipn 5 activas)).
  { rewrite firstn_skipn.
    apply order_by_sorted; [exact fecha_hora_leb_total|exact fecha_hora_leb_trans]. }
  apply StronglySorted_app_inv in Hsorted. destruct Hsorted as [Hs Hab].
  split.
  { exists (skipn 5 activas). split; [|split].
    - rewrite firstn_skipn. apply order_by_perm.
    - destruct (Nat.le_gt_cases 5 (List.length activas)) as [Hle|Hgt].
      + right. apply firstn_length_le. exact Hle.
      + left. apply skipn_all2. lia.
    - exact Hab. }
  split; [exact Hs|]. split.
  - intros c n. rewrite filter_In, in_map_iff. cbn [snd]. split.
    + intros [(c0 & Heq & Hc0) Hn]. injection Heq as -> <-.
      apply (Permutation_in _ (order_by_perm nombre_leb _)) in Hc0.
      apply filter_In in Hc0. destruct Hc0 as [Hin Hact].
      rewrite Hact in Hn |- *. apply negb_true_iff, Nat.eqb_neq in Hn.
      split; [exact Hin|]. split; [reflexivity|]. split; [reflexivity|].
      split; [lia|]. unfold slots_libres.
      exact (filter_length_le _ operating_slots).
    + intros (Hin & Hact & -> & Hn). split.
      * exists c. rewrite Hact. split; [reflexivity|].
        apply (Permutation_in _ (Permutation_sym (order_by_perm nombre_leb _))).
        apply filter_In. split; [exact Hin|exact Hact].
      * apply negb_true_iff, Nat.eqb_neq. lia.
  - apply length_filter_estados.
Qed.

Lemma dashboard_jugador_spec_witness :
  es_jugador_o_admin (Some cuenta_ana) = true /\
  exists ctx,
    dashboard_jugador 100 (Some cuenta_ana) db_tres =
      (inr (Render "gestion/dashboard_jugador.html" ctx), db_tres) /\
    (reservas_completadas ctx + reservas_canceladas ctx <= total_reservas ctx)%nat.
Proof.
  split; [reflexivity|].
  destruct (dashboard_jugador_spec 100 cuenta_ana db_tres eq_refl)
    as (ctx & Hrun & _ & _ & _ & Hle).
  exists ctx. split; [exact Hrun|exact Hle].
Defined.
